(** * WhytCard add-ons: a shallow embedding of the voice pipeline and the
    transcription summary, with the properties checked against it.

  Python values are modelled as follows.
  - [str] is a [string] whose characters are the code points 0..255
    (Latin-1); [len], [lower], [strip] and [replace] are written out for
    that range.
  - an exception is represented by its string form [str(e)], the only part
    of it the code ever looks at.
  - a JSON document is a value of [Json.json]; [json.dumps] and
    [json.load] of the standard library are taken as mutually inverse, so
    a JSON file on disk is represented by the document it holds.
  - the file system is a finite map from path strings to file contents. *)

From Stdlib Require Import ZArith Ascii String List Bool Lia DecimalString.
From stdpp Require Import base option list gmap strings sorting.

Local Open Scope string_scope.
Local Open Scope list_scope.
Set Warnings "-register-all".


(** ** Python string primitives (Latin-1 range) *)
Module PyStr.

Definition code (c : ascii) : N := N_of_ascii c.

(** [str.isspace] on one character: TAB..CR, FS..US, SPACE, NEL, NBSP. *)
Definition isspace (c : ascii) : bool :=
  let n := code c in
  ((9 <=? n) && (n <=? 13) || (28 <=? n) && (n <=? 32)
   || (n =? 133) || (n =? 160))%N.

Fixpoint lstrip (s : string) : string :=
  match s with
  | EmptyString => EmptyString
  | String c s' => if isspace c then lstrip s' else s
  end.

Fixpoint rstrip (s : string) : string :=
  match s with
  | EmptyString => EmptyString
  | String c s' =>
      match rstrip s' with
      | EmptyString => if isspace c then EmptyString else String c EmptyString
      | r => String c r
      end
  end.

(** [s.strip()] *)
Definition strip (s : string) : string := rstrip (lstrip s).

(** [str.lower] on one character: A-Z and the Latin-1 capitals. *)
Definition lower_char (c : ascii) : ascii :=
  let n := code c in
  if ((65 <=? n) && (n <=? 90)
      || (192 <=? n) && (n <=? 222) && negb (n =? 215))%N
  then ascii_of_N (n + 32) else c.

Fixpoint lower (s : string) : string :=
  match s with
  | EmptyString => EmptyString
  | String c s' => String (lower_char c) (lower s')
  end.

(** [s.replace(old, new)] for one-character [old] and [new]. *)
Fixpoint replace_char (old new : ascii) (s : string) : string :=
  match s with
  | EmptyString => EmptyString
  | String c s' =>
      String (if Ascii.eqb c old then new else c) (replace_char old new s')
  end.

(** [sep.join(l)] *)
Fixpoint join (sep : string) (l : list string) : string :=
  match l with
  | [] => ""
  | [x] => x
  | x :: rest => x +:+ sep +:+ join sep rest
  end.

Definition nl : string := String (ascii_of_N 10) EmptyString.

(** truthiness of a [str] *)
Definition truthy (s : string) : bool :=
  match s with EmptyString => false | _ => true end.

(** [s.split()]: the maximal runs of characters that are not whitespace. *)
Fixpoint split_go (s cur : string) : list string :=
  match s with
  | EmptyString => if truthy cur then [cur] else []
  | String c s' =>
      if isspace c then
        if truthy cur then cur :: split_go s' "" else split_go s' ""
      else split_go s' (cur +:+ String c EmptyString)
  end.

Definition split (s : string) : list string := split_go s "".

(** [a or b] on optional strings: [None] and the empty string are falsy. *)
Definition or_else (a b : option string) : option string :=
  match a with
  | Some s => if truthy s then a else b
  | None => b
  end.

Definition truthy_opt (a : option string) : bool :=
  match a with
  | Some s => truthy s
  | None => false
  end.

(** [l[:n]] for a Python integer [n] (a negative bound counts from the
    end). *)
Definition slice_to {A} (n : Z) (l : list A) : list A :=
  if (0 <=? n)%Z then take (Z.to_nat n) l
  else take (length l - Z.to_nat (- n)) l.

End PyStr.

(** ** ears/src/engine.py: the transcription summary *)
Module Ears.
Import PyStr.

Definition is_delim (c : ascii) : bool :=
  Ascii.eqb c "." || Ascii.eqb c "!" || Ascii.eqb c "?".

(** [re.split(r'[.!?]+', text)]: the text is cut at every maximal run of
    delimiters; [cur] is the segment being read and [in_run] tells that the
    previous character was a delimiter. *)
Fixpoint re_split_go (s cur : string) (in_run : bool) : list string :=
  match s with
  | EmptyString => [cur]
  | String c s' =>
      if is_delim c then
        if in_run then re_split_go s' "" true
        else cur :: re_split_go s' "" true
      else re_split_go s' (cur +:+ String c EmptyString) false
  end.

Definition re_split (text : string) : list string :=
  re_split_go text "" false.

(** [[s.strip() for s in sentences if s.strip()]] *)
Definition sentences_of (text : string) : list string :=
  omap (fun s => let t := strip s in if truthy t then Some t else None)
       (re_split text).

(** The [for ... enumerate] loop: one step appends a point when the
    sentence is longer than 20 characters. *)
Definition summary_step (points : list string) (sentence : string)
  : list string :=
  if (20 <? String.length sentence)%nat
  then points ++ ["- " +:+ sentence] else points.

Definition _generate_summary (text : string) (max_points : Z) : string :=
  let sentences := sentences_of text in
  match sentences with
  | [] => "Aucun contenu a resumer."
  | _ =>
      let summary_sentences := slice_to max_points sentences in
      let summary_points := fold_left summary_step summary_sentences [] in
      match summary_points with
      | [] => "Contenu trop court pour resumer."
      | _ => join nl summary_points
      end
  end.

(** The default [max_points=5], as [transcribe] calls it. *)
Definition generate_summary_default (text : string) : string :=
  _generate_summary text 5.

(** The rendering the claim describes: every one of the first [n]
    sentences as a dash-prefixed line. *)
Definition first_sentences_rendered (text : string) (n : nat) : string :=
  join nl (map (fun s => "- " +:+ s) (take n (sentences_of text))).

Definition meaningful (s : string) : bool := (20 <? String.length s)%nat.

(** The points of a summary: the meaningful ones among the first [n]
    sentences, each as a dash-prefixed line. *)
Definition meaningful_points (text : string) (n : nat) : list string :=
  (fun s => "- " +:+ s) <$> List.filter meaningful (take n (sentences_of text)).

Fixpoint free_of_delims (s : string) : bool :=
  match s with
  | EmptyString => true
  | String c s' => negb (is_delim c) && free_of_delims s'
  end.

End Ears.

(** ** Exceptions: a computation returns a value or raises; the exception is
    kept as its string form. *)
Inductive outcome (A : Type) : Type :=
| Ok (a : A)
| Raise (msg : string).
Arguments Ok {A} a.
Arguments Raise {A} msg.

#[global] Instance outcome_ret : MRet outcome := fun A a => Ok a.
#[global] Instance outcome_bind : MBind outcome := fun A B f m =>
  match m with
  | Ok a => f a
  | Raise msg => Raise msg
  end.

(** Code that also changes a state [S]: the state reached is kept when an
    exception is raised, nothing is rolled back. *)
Definition ST (S A : Type) : Type := S -> S * outcome A.

#[global] Instance ST_ret {S} : MRet (ST S) := fun A a st => (st, Ok a).
#[global] Instance ST_bind {S} : MBind (ST S) := fun A B f m st =>
  match m st with
  | (st', Ok a) => f a st'
  | (st', Raise msg) => (st', Raise msg)
  end.

(** A computation without effect on the state. *)
Definition pure_outcome {S A} (o : outcome A) : ST S A := fun st => (st, o).

Definition raise {S A} (msg : string) : ST S A := fun st => (st, Raise msg).

(** ** JSON documents and the [dict] operations the code uses on them *)
Module Json.

(** Numbers are the integers the code writes (a count); an object keeps its
    keys, which are distinct, in insertion order, as a Python [dict] does. *)
Inductive json : Type :=
| JNull
| JBool (b : bool)
| JNum (n : Z)
| JStr (s : string)
| JList (l : list json)
| JObj (kvs : list (string * json)).

Definition dict := list (string * json).

(** [d.get(k)] as an option: the first binding of [k]. *)
Fixpoint find_key (k : string) (d : dict) : option json :=
  match d with
  | [] => None
  | (k', v) :: d' => if String.eqb k k' then Some v else find_key k d'
  end.

(** [d.get(k, default)] *)
Definition get (d : dict) (k : string) (default : json) : json :=
  match find_key k d with
  | Some v => v
  | None => default
  end.

(** [d[k]]: a missing key raises [KeyError], whose string form is the
    quoted key. *)
Definition getitem (d : dict) (k : string) : outcome json :=
  match find_key k d with
  | Some v => Ok v
  | None => Raise ("'" +:+ k +:+ "'")
  end.

(** Readers for the annotated field types. Python does not check the
    annotations of a dataclass; a document that does not match them is
    outside this model, and the readers reject it with a [TypeError]. *)
Definition ill_typed {A} (field : string) : outcome A :=
  Raise ("TypeError: " +:+ field).

Definition as_str (field : string) (j : json) : outcome string :=
  match j with
  | JStr s => Ok s
  | _ => ill_typed field
  end.

Definition as_opt_str (field : string) (j : json) : outcome (option string) :=
  match j with
  | JNull => Ok None
  | JStr s => Ok (Some s)
  | _ => ill_typed field
  end.

Fixpoint all_str (field : string) (l : list json) : outcome (list string) :=
  match l with
  | [] => Ok []
  | j :: l' =>
      s ← as_str field j;
      rest ← all_str field l';
      Ok (s :: rest)
  end.

Definition as_str_list (field : string) (j : json) : outcome (list string) :=
  match j with
  | JList l => all_str field l
  | _ => ill_typed field
  end.

Definition as_dict (field : string) (j : json) : outcome dict :=
  match j with
  | JObj kvs => Ok kvs
  | _ => ill_typed field
  end.

Definition as_list (field : string) (j : json) : outcome (list json) :=
  match j with
  | JList l => Ok l
  | _ => ill_typed field
  end.

Definition of_opt_str (o : option string) : json :=
  match o with
  | Some s => JStr s
  | None => JNull
  end.

Definition of_str_list (l : list string) : json := JList (JStr <$> l).

(** The hand-edited variant of a document in which the key [old] is spelled
    [new]. *)
Definition rename_key (old new : string) (d : dict) : dict :=
  (fun kv => (if String.eqb kv.1 old then new else kv.1, kv.2)) <$> d.

End Json.

(** ** pathlib: pure POSIX paths *)
Module PyPath.
Import PyStr.

Record Path : Type := { root : string; parts : list string }.

(** The pieces of [s] between slashes. *)
Fixpoint split_slash (s cur : string) : list string :=
  match s with
  | EmptyString => [cur]
  | String c s' =>
      if Ascii.eqb c "/" then cur :: split_slash s' ""
      else split_slash s' (cur +:+ String c EmptyString)
  end.

Fixpoint leading_slashes (s : string) : nat :=
  match s with
  | String c s' => if Ascii.eqb c "/" then S (leading_slashes s') else 0
  | EmptyString => 0
  end.

Definition kept_part (p : string) : bool :=
  negb (String.eqb p "") && negb (String.eqb p ".").

(** [Path(s)]: exactly two leading slashes are kept as a root of their own,
    empty and [.] components are dropped, [..] is kept. *)
Definition parse (s : string) : Path :=
  {| root := match leading_slashes s with
             | 0 => ""
             | 2 => "//"
             | _ => "/"
             end;
     parts := filter (fun p => kept_part p = true) (split_slash s "") |}.

(** [p / s]: an absolute right operand replaces the left one. *)
Definition joinpath (p : Path) (s : string) : Path :=
  let q := parse s in
  if truthy (root q) then q
  else {| root := root p; parts := parts p ++ parts q |}.

(** [str(p)] *)
Definition str (p : Path) : string :=
  match root p, parts p with
  | EmptyString, [] => "."
  | r, ps => r +:+ join "/" ps
  end.

(** [p.name]: the last component. *)
Definition name (p : Path) : string := default "" (last (parts p)).

End PyPath.

Notation "p // s" := (PyPath.joinpath p s) (at level 40, left associativity).

(** ** The file system and the other services of the process *)
Module FS.
Import Json.

(** A JSON file holds a document; a text file that is not JSON holds its
    text; the samples of an audio file are not looked at. *)
Inductive file : Type :=
| FJson (doc : json)
| FText (content : string)
| FAudio.

(** What the process cannot decide: the clock, I/O failures, the regular
    expression engine. *)
Record Sys : Type := {
  (** [datetime.now().isoformat()] *)
  now_iso : string;
  (** [open(path, "w")] followed by the write fails with this error *)
  write_error : string -> option string;
  (** the [FileNotFoundError] of [open(path, "r")] *)
  missing_error : string -> string;
  (** the error of [json.load] on a file that is not JSON *)
  json_error : file -> string;
  (** [re.findall(pattern, text)] *)
  re_findall : string -> string -> list string;
  (** [re.search(pattern, text, re.IGNORECASE)]: group 1 of the match *)
  re_search : string -> string -> option string;
}.

(** A process in which no write fails, with the usual error texts, and a
    regular expression engine that finds nothing. *)
Definition quiet : Sys :=
  {| now_iso := "2024-01-01T00:00:00";
     write_error := fun _ => None;
     missing_error := fun path =>
       "[Errno 2] No such file or directory: '" +:+ path +:+ "'";
     json_error := fun _ => "Expecting value: line 1 column 1 (char 0)";
     re_findall := fun _ _ => [];
     re_search := fun _ _ => None |}.

(** I/O computations: state-and-exception over the files. *)
Abbreviation IO := (ST (gmap string file)).

(** [open(path, "w")] and the write. *)
Definition write (sys : Sys) (path : string) (f : file) : IO unit :=
  fun fs =>
    match write_error sys path with
    | Some msg => (fs, Raise msg)
    | None => (<[path := f]> fs, Ok tt)
    end.

(** [json.load(open(path, "r"))] *)
Definition read_json (sys : Sys) (path : string) : IO json :=
  fun fs =>
    match fs !! path with
    | None => (fs, Raise (missing_error sys path))
    | Some (FJson doc) => (fs, Ok doc)
    | Some f => (fs, Raise (json_error sys f))
    end.

(** [Path(path).exists()] *)
Definition exists_ (path : string) : IO bool :=
  fun fs => (fs, Ok (bool_decide (is_Some (fs !! path)))).

(** The file itself, for a collaborator that reads it. *)
Definition peek (path : string) : IO (option file) :=
  fun fs => (fs, Ok (fs !! path)).

End FS.

(** ** research/extractor.py: the profile records *)
Module SocialProfile.

Record t : Type := {
  platform : string;
  url : string;
  username : option string;
  verified : bool;
}.

End SocialProfile.

Module Facette.

Record t : Type := {
  name : string;
  description : string;
  color : option string;
  symbol : option string;
  keywords : list string;
  sources : list string;
}.

End Facette.

Module PersonProfile.
Import Json FS.

Record t : Type := {
  name : string;
  aliases : list string;
  professions : list string;
  bio : option string;
  location : option string;
  social_profiles : list SocialProfile.t;
  facettes : list Facette.t;
  keywords : list string;
  sources : list string;
  raw_info : dict;
  created_at : string;
}.

(** [PersonProfile(name=...)]: every other field takes its default. *)
Definition make (sys : Sys) (name : string) : t :=
  {| name := name; aliases := []; professions := []; bio := None;
     location := None; social_profiles := []; facettes := [];
     keywords := []; sources := []; raw_info := [];
     created_at := now_iso sys |}.

Definition social_to_dict (sp : SocialProfile.t) : json :=
  JObj [("platform", JStr (SocialProfile.platform sp));
        ("url", JStr (SocialProfile.url sp));
        ("username", of_opt_str (SocialProfile.username sp))].

Definition facette_to_dict (f : Facette.t) : json :=
  JObj [("name", JStr (Facette.name f));
        ("description", JStr (Facette.description f));
        ("color", of_opt_str (Facette.color f));
        ("symbol", of_opt_str (Facette.symbol f));
        ("keywords", of_str_list (Facette.keywords f))].

Definition to_dict (self : t) : json :=
  JObj [("name", JStr (name self));
        ("aliases", of_str_list (aliases self));
        ("professions", of_str_list (professions self));
        ("bio", of_opt_str (bio self));
        ("location", of_opt_str (location self));
        ("social_profiles", JList (social_to_dict <$> social_profiles self));
        ("facettes", JList (facette_to_dict <$> facettes self));
        ("keywords", of_str_list (keywords self));
        ("sources", of_str_list (sources self));
        ("created_at", JStr (created_at self))].

(** [save]: [to_json] followed by the write. *)
Definition save (sys : Sys) (self : t) (path : string) : IO unit :=
  write sys path (FJson (to_dict self)).

Definition known_keys : list string :=
  ["name"; "aliases"; "professions"; "occupations"; "bio"; "biography";
   "location"; "social_profiles"; "facettes"; "keywords"; "sources";
   "created_at"; "personality_traits"].

Definition load_social (j : json) : outcome SocialProfile.t :=
  sp ← as_dict "social_profiles" j;
  platform ← as_str "platform" (get sp "platform" (JStr "unknown"));
  url ← as_str "url" (get sp "url" (JStr ""));
  username ← as_opt_str "username" (get sp "username" (get sp "handle" JNull));
  Ok {| SocialProfile.platform := platform; SocialProfile.url := url;
        SocialProfile.username := username;
        SocialProfile.verified := false |}.

Definition load_facette (j : json) : outcome Facette.t :=
  f ← as_dict "facettes" j;
  name ← as_str "name" (get f "name" (JStr ""));
  description ← as_str "description" (get f "description" (JStr ""));
  color ← as_opt_str "color" (get f "color" JNull);
  symbol ← as_opt_str "symbol" (get f "symbol" (get f "element" JNull));
  keywords ← as_str_list "keywords" (get f "keywords" (JList []));
  Ok {| Facette.name := name; Facette.description := description;
        Facette.color := color; Facette.symbol := symbol;
        Facette.keywords := keywords; Facette.sources := [] |}.

(** The two reconstruction loops: one element at a time, in order. *)
Fixpoint load_each {A} (f : json -> outcome A) (l : list json)
  : outcome (list A) :=
  match l with
  | [] => Ok []
  | j :: l' =>
      a ← f j;
      rest ← load_each f l';
      Ok (a :: rest)
  end.

(** The body of [load] once [json.load] has produced the document. *)
Definition of_document (sys : Sys) (doc : json) : outcome t :=
  data ← as_dict "profile" doc;
  name ← getitem data "name" ≫= as_str "name";
  aliases ← as_str_list "aliases" (get data "aliases" (JList []));
  professions ← as_str_list "professions"
    (get data "professions" (get data "occupations" (JList [])));
  bio ← as_opt_str "bio" (get data "bio" (get data "biography" JNull));
  location ← as_opt_str "location" (get data "location" JNull);
  keywords ← as_str_list "keywords"
    (get data "keywords" (get data "personality_traits" (JList [])));
  sources ← as_str_list "sources" (get data "sources" (JList []));
  created_at ← as_str "created_at"
    (get data "created_at" (JStr (now_iso sys)));
  let raw_info := filter (fun kv => kv.1 ∉ known_keys) data in
  sps ← as_list "social_profiles" (get data "social_profiles" (JList []))
        ≫= load_each load_social;
  fcs ← as_list "facettes" (get data "facettes" (JList []))
        ≫= load_each load_facette;
  Ok {| name := name; aliases := aliases; professions := professions;
        bio := bio; location := location; social_profiles := sps;
        facettes := fcs; keywords := keywords; sources := sources;
        raw_info := raw_info; created_at := created_at |}.

Definition load (sys : Sys) (path : string) : IO t :=
  doc ← read_json sys path;
  pure_outcome (of_document sys doc).

(** What [to_dict] keeps of a facette: everything but its [sources]. *)
Definition persisted_facette (f : Facette.t) : Facette.t :=
  {| Facette.name := Facette.name f;
     Facette.description := Facette.description f;
     Facette.color := Facette.color f; Facette.symbol := Facette.symbol f;
     Facette.keywords := Facette.keywords f; Facette.sources := [] |}.

Definition persisted_social (sp : SocialProfile.t) : SocialProfile.t :=
  {| SocialProfile.platform := SocialProfile.platform sp;
     SocialProfile.url := SocialProfile.url sp;
     SocialProfile.username := SocialProfile.username sp;
     SocialProfile.verified := false |}.

(** What a saved profile loads back as. *)
Definition persisted (self : t) : t :=
  {| name := name self; aliases := aliases self;
     professions := professions self; bio := bio self;
     location := location self;
     social_profiles := persisted_social <$> social_profiles self;
     facettes := persisted_facette <$> facettes self;
     keywords := keywords self; sources := sources self; raw_info := [];
     created_at := created_at self |}.

(** A profile with one facette that records where it was found. *)
Definition sourced_facette : Facette.t :=
  {| Facette.name := "Artiste"; Facette.description := "Peint et dessine";
     Facette.color := Some "bleu"; Facette.symbol := None;
     Facette.keywords := ["peinture"];
     Facette.sources := ["https://example.org/bio"] |}.

Definition sourced_profile : t :=
  {| name := "John Doe"; aliases := []; professions := ["painter"];
     bio := Some "A painter."; location := None; social_profiles := [];
     facettes := [sourced_facette]; keywords := ["peinture"];
     sources := []; raw_info := []; created_at := "2024-01-01T00:00:00" |}.

(** A saved document with the alternate spellings of the two keys. *)
Definition with_aliases (doc : json) : json :=
  match doc with
  | JObj d =>
      JObj (rename_key "bio" "biography"
              (rename_key "professions" "occupations" d))
  | _ => doc
  end.

End PersonProfile.

(** ** research/searcher.py *)
Module Searcher.
Import PyStr Json FS.

Record SearchResult : Type := {
  title : string;
  url : string;
  content : string;
  (** a float in the source; kept as the number of the response *)
  score : json;
  published_date : option string;
}.

Record PersonSearchResults : Type := {
  name : string;
  query : string;
  timestamp : string;
  results : list SearchResult;
  raw_response : option json;
}.

Definition urls (self : PersonSearchResults) : list string :=
  url <$> results self.

(** The search service: whether the client library is installed, the key
    found in the environment, and what [client.search] answers to a key and
    a query. *)
Record Tavily : Type := {
  HAS_TAVILY : bool;
  TAVILY_API_KEY : option string;
  client_search : string -> string -> outcome json;
}.

(** [PersonSearcher(api_key)]: the searcher is its key. *)
Definition init (tv : Tavily) (api_key : option string) : outcome string :=
  if negb (HAS_TAVILY tv) then
    Raise "tavily-python not installed. Run: pip install tavily-python"
  else
    match or_else api_key (TAVILY_API_KEY tv) with
    | Some key =>
        if truthy key then Ok key
        else Raise
          "Tavily API key required. Set TAVILY_API_KEY environment variable."
    | None => Raise
          "Tavily API key required. Set TAVILY_API_KEY environment variable."
    end.

Definition parse_item (j : json) : outcome SearchResult :=
  item ← as_dict "results" j;
  title ← as_str "title" (get item "title" (JStr ""));
  url ← as_str "url" (get item "url" (JStr ""));
  content ← as_str "content" (get item "content" (JStr ""));
  published_date ← as_opt_str "published_date"
    (get item "published_date" JNull);
  Ok {| title := title; url := url; content := content;
        score := get item "score" (JNum 0);
        published_date := published_date |}.

Fixpoint parse_items (l : list json) : outcome (list SearchResult) :=
  match l with
  | [] => Ok []
  | j :: l' =>
      r ← parse_item j;
      rest ← parse_items l';
      Ok (r :: rest)
  end.

(** [searcher.search(name, context)] with the defaults for the rest. *)
Definition search (sys : Sys) (tv : Tavily) (key : string)
    (name : string) (context : option string)
  : outcome PersonSearchResults :=
  let query :=
    match context with
    | Some c => if truthy c then name +:+ " " +:+ c else name
    | None => name
    end in
  response ← client_search tv key query;
  resp ← as_dict "response" response;
  items ← as_list "results" (get resp "results" (JList []));
  results ← parse_items items;
  Ok {| name := name; query := query; timestamp := now_iso sys;
        results := results; raw_response := Some response |}.

End Searcher.

(** ** research/extractor.py: [InfoExtractor] *)
Module InfoExtractor.
Import PyStr Json FS.

Definition PLATFORM_PATTERNS : list (string * string) :=
  [("instagram", "instagram\.com/([a-zA-Z0-9_.]+)");
   ("linkedin", "linkedin\.com/in/([a-zA-Z0-9_-]+)");
   ("youtube", "youtube\.com/(?:@|channel/|c/)([a-zA-Z0-9_-]+)");
   ("twitter", "(?:twitter|x)\.com/([a-zA-Z0-9_]+)");
   ("tiktok", "tiktok\.com/@([a-zA-Z0-9_.]+)");
   ("facebook", "facebook\.com/([a-zA-Z0-9.]+)")].

(** The loop over the patterns: the first one that matches decides. Every
    pattern has one group, so the username is that group. *)
Fixpoint first_platform (sys : Sys) (patterns : list (string * string))
    (url : string) : option SocialProfile.t :=
  match patterns with
  | [] => None
  | (platform, pattern) :: rest =>
      match re_search sys pattern url with
      | Some user =>
          Some {| SocialProfile.platform := platform;
                  SocialProfile.url := url;
                  SocialProfile.username := Some user;
                  SocialProfile.verified := false |}
      | None => first_platform sys rest url
      end
  end.

Definition _extract_social_profile (sys : Sys)
    (result : Searcher.SearchResult) : option SocialProfile.t :=
  first_platform sys PLATFORM_PATTERNS (Searcher.url result).

Definition stopwords : list string :=
  ["the"; "a"; "an"; "and"; "or"; "but"; "in"; "on"; "at"; "to"; "for";
   "of"; "with"; "by"; "from"; "is"; "are"; "was"; "were"; "be"; "been";
   "being"; "have"; "has"; "had"; "do"; "does"; "did"; "will"; "would";
   "could"; "should"; "may"; "might"; "must"; "shall"; "can"; "this";
   "that"; "these"; "those"; "it"; "its"; "they"; "them"; "their"; "he";
   "him"; "his"; "she"; "her"; "hers"; "we"; "us"; "our"; "you"; "your";
   "qui"; "que"; "est"; "et"; "le"; "la"; "les"; "un"; "une"; "des";
   "de"; "du"; "en"; "dans"; "sur"; "pour"; "par"; "avec"; "son"; "sa"].

(** The pattern of a word: four letters or more between word boundaries. *)
Definition WORD_PATTERN : string := "\b[a-zA-Z\u00C0-\u017F]{4,}\b".

(** [word_counts[word] = word_counts.get(word, 0) + 1] on an
    insertion-ordered dict. *)
Fixpoint bump (word : string) (counts : list (string * nat))
  : list (string * nat) :=
  match counts with
  | [] => [(word, 1)]
  | (w, n) :: rest =>
      if String.eqb w word then (w, S n) :: rest
      else (w, n) :: bump word rest
  end.

(** One step of a stable sort by decreasing count. *)
Fixpoint insert_desc (x : string * nat) (l : list (string * nat))
  : list (string * nat) :=
  match l with
  | [] => [x]
  | y :: l' => if (y.2 <? x.2)%nat then x :: l else y :: insert_desc x l'
  end.

(** [sorted(items, key=count, reverse=True)] *)
Definition sorted_desc (items : list (string * nat)) : list (string * nat) :=
  fold_left (fun acc x => insert_desc x acc) items [].

Definition _extract_keywords (sys : Sys) (text name : string)
    (max_keywords : Z) : list string :=
  let name_parts := split (lower name) in
  let words := re_findall sys WORD_PATTERN (lower text) in
  let word_counts :=
    fold_left
      (fun counts word =>
         if bool_decide (word ∉ stopwords) && bool_decide (word ∉ name_parts)
         then bump word counts else counts)
      words [] in
  fst <$> slice_to max_keywords (sorted_desc word_counts).

(** The loop that collects one profile per platform. *)
Definition add_social (sys : Sys) (acc : list SocialProfile.t)
    (result : Searcher.SearchResult) : list SocialProfile.t :=
  match _extract_social_profile sys result with
  | Some social =>
      if bool_decide
           (SocialProfile.platform social ∉ (SocialProfile.platform <$> acc))
      then acc ++ [social] else acc
  | None => acc
  end.

Definition content_dict (r : Searcher.SearchResult) : json :=
  JObj [("title", JStr (Searcher.title r)); ("url", JStr (Searcher.url r));
        ("content", JStr (Searcher.content r))].

Definition extract_profile (sys : Sys)
    (search_results : Searcher.PersonSearchResults) : PersonProfile.t :=
  let results := Searcher.results search_results in
  let all_content := join " " (Searcher.content <$> results) in
  {| PersonProfile.name := Searcher.name search_results;
     PersonProfile.aliases := [];
     PersonProfile.professions := [];
     PersonProfile.bio := None;
     PersonProfile.location := None;
     PersonProfile.social_profiles := fold_left (add_social sys) results [];
     PersonProfile.facettes := [];
     PersonProfile.keywords :=
       _extract_keywords sys all_content (Searcher.name search_results) 20;
     PersonProfile.sources := Searcher.urls search_results;
     PersonProfile.raw_info :=
       [("search_query", JStr (Searcher.query search_results));
        ("search_timestamp", JStr (Searcher.timestamp search_results));
        ("result_count", JNum (Z.of_nat (length results)));
        ("contents", JList (content_dict <$> results))];
     PersonProfile.created_at := now_iso sys |}.

End InfoExtractor.

(** ** avatar/prompt_generator.py *)
Module PersonaPrompt.
Import Json FS.

Record t : Type := {
  name : string;
  system_prompt : string;
  personality_traits : list string;
  speaking_style : option string;
  knowledge_domains : list string;
  example_phrases : list string;
  facettes : list Facette.t;
  metadata : dict;
}.

Definition facette_to_dict (f : Facette.t) : json :=
  JObj [("name", JStr (Facette.name f));
        ("description", JStr (Facette.description f));
        ("color", of_opt_str (Facette.color f));
        ("symbol", of_opt_str (Facette.symbol f));
        ("keywords", of_str_list (Facette.keywords f))].

Definition data (self : t) : json :=
  JObj [("name", JStr (name self));
        ("system_prompt", JStr (system_prompt self));
        ("personality_traits", of_str_list (personality_traits self));
        ("speaking_style", of_opt_str (speaking_style self));
        ("knowledge_domains", of_str_list (knowledge_domains self));
        ("example_phrases", of_str_list (example_phrases self));
        ("facettes", JList (facette_to_dict <$> facettes self));
        ("metadata", JObj (metadata self))].

Definition save (sys : Sys) (self : t) (path : string) : IO unit :=
  write sys path (FJson (data self)).

End PersonaPrompt.

Module PromptGenerator.
Import PyStr Json.

(** [DEFAULT_TEMPLATE.format(...)] *)
Definition DEFAULT_TEMPLATE_format (name bio personality_section
    speaking_style knowledge_section facettes_section
    additional_instructions : string) : string :=
  "Tu es " +:+ name +:+ ", une vraie personne avec une personnalite unique.

## Identite
" +:+ bio +:+ "

## Traits de personnalite
" +:+ personality_section +:+ "

## Style de communication
" +:+ speaking_style +:+ "

## Domaines d'expertise
" +:+ knowledge_section +:+ "

## Facettes de ta personnalite
" +:+ facettes_section +:+ "

## Instructions
- Reponds toujours comme si tu etais vraiment " +:+ name +:+ "
- Utilise ton style de communication naturel
- Puise dans tes domaines d'expertise pour enrichir tes reponses
- Exprime ta personnalite a travers tes differentes facettes
- Sois authentique et coherent avec ton identite

" +:+ additional_instructions +:+ "
".

(** The lines one facette contributes to the facettes section. *)
Definition facette_lines (f : Facette.t) : list string :=
  let line := "### " +:+ Facette.name f in
  let line :=
    match Facette.color f with
    | Some c => if truthy c then line +:+ " (" +:+ c +:+ ")" else line
    | None => line
    end in
  [line; Facette.description f]
  ++ match Facette.keywords f with
     | [] => []
     | kws => ["Mots-cles: " +:+ join ", " kws]
     end
  ++ [""].

(** [generate(profile)] of a generator built without a templates
    directory, as the orchestrator builds it: the default template is used. *)
Definition generate (profile : PersonProfile.t)
    (additional_instructions : string) (speaking_style : option string)
  : PersonaPrompt.t :=
  let personality_traits :=
    match PersonProfile.keywords profile with
    | [] => ["authentique"; "passionne"; "expressif"]
    | kws => slice_to 10 kws
    end in
  let personality_section :=
    join nl ((fun trait => "- " +:+ trait) <$> personality_traits) in
  let knowledge_domains :=
    match PersonProfile.professions profile with
    | [] => ["son domaine d'expertise"]
    | profs => profs
    end in
  let knowledge_section :=
    join nl ((fun domain => "- " +:+ domain) <$> knowledge_domains) in
  let facettes_section :=
    match PersonProfile.facettes profile with
    | [] => "Personnalite riche et multifacette."
    | fcs => join nl (concat (facette_lines <$> fcs))
    end in
  let speaking_style :=
    match speaking_style with
    | None => "Naturel, expressif, avec une touche de creativite."
    | Some s => s
    end in
  let bio :=
    if truthy_opt (PersonProfile.bio profile)
    then default "" (PersonProfile.bio profile)
    else PersonProfile.name profile
         +:+ " est une personne unique avec de nombreuses facettes." in
  {| PersonaPrompt.name := PersonProfile.name profile;
     PersonaPrompt.system_prompt :=
       DEFAULT_TEMPLATE_format (PersonProfile.name profile) bio
         personality_section speaking_style knowledge_section
         facettes_section additional_instructions;
     PersonaPrompt.personality_traits := personality_traits;
     PersonaPrompt.speaking_style := Some speaking_style;
     PersonaPrompt.knowledge_domains := knowledge_domains;
     PersonaPrompt.example_phrases := [];
     PersonaPrompt.facettes := PersonProfile.facettes profile;
     PersonaPrompt.metadata :=
       [("sources", of_str_list (PersonProfile.sources profile));
        ("created_from", JStr "PersonProfile")] |}.

End PromptGenerator.

(** ** documentation/generator.py *)
Module DocumentGenerator.
Import PyStr Json FS.

Definition DEFAULT_PROFILE_TEMPLATE : string :=
"# {{ name }}

> Generated: {{ generated_at }}

## Overview

{% if bio %}
{{ bio }}
{% else %}
Profile of {{ name }}.
{% endif %}

{% if aliases %}
## Also Known As
{% for alias in aliases %}
- {{ alias }}
{% endfor %}
{% endif %}

{% if professions %}
## Professions
{% for prof in professions %}
- {{ prof }}
{% endfor %}
{% endif %}

{% if location %}
## Location
{{ location }}
{% endif %}

{% if social_profiles %}
## Social Profiles
| Platform | URL |
|----------|-----|
{% for sp in social_profiles %}
| {{ sp.platform }} | [{{ sp.username or 'Profile' }}]({{ sp.url }}) |
{% endfor %}
{% endif %}

{% if facettes %}
## Facettes
{% for f in facettes %}
### {{ f.name }}{% if f.color %} ({{ f.color }}){% endif %}

{{ f.description }}

{% if f.keywords %}
**Keywords:** {{ f.keywords | join(', ') }}
{% endif %}

{% endfor %}
{% endif %}

{% if keywords %}
## Keywords
{{ keywords | join(', ') }}
{% endif %}

{% if sources %}
## Sources
{% for src in sources[:10] %}
- {{ src }}
{% endfor %}
{% if sources | length > 10 %}
... and {{ sources | length - 10 }} more sources
{% endif %}
{% endif %}
".

Definition DEFAULT_FACETTES_TEMPLATE : string :=
"# Les Facettes de {{ name }}

> Generated: {{ generated_at }}

{% for f in facettes %}
---

## {{ f.name }}

{% if f.color %}**Couleur:** {{ f.color }}{% endif %}
{% if f.symbol %}**Symbole:** {{ f.symbol }}{% endif %}

{{ f.description }}

{% if f.keywords %}
### Mots-cles
{% for kw in f.keywords %}
- {{ kw }}
{% endfor %}
{% endif %}

{% endfor %}
".

Definition DEFAULT_PROMPT_TEMPLATE : string :=
"# System Prompt: {{ name }}

Tu es {{ name }}, une vraie personne avec une personnalite unique.

## Identite
{% if bio %}
{{ bio }}
{% else %}
{{ name }} est une personne authentique avec de nombreuses facettes.
{% endif %}

## Traits de personnalite
{% for trait in personality_traits %}
- {{ trait }}
{% endfor %}

## Style de communication
{{ speaking_style | default('Naturel et expressif.') }}

## Domaines d'expertise
{% for domain in knowledge_domains %}
- {{ domain }}
{% endfor %}

## Facettes
{% for f in facettes %}
### {{ f.name }}
{{ f.description }}
{% endfor %}

## Instructions
- Reponds toujours comme si tu etais vraiment {{ name }}
- Utilise ton style de communication naturel
- Sois authentique et coherent avec ton identite
- Exprime ta personnalite a travers tes differentes facettes

{{ additional_instructions | default('') }}
".

(** The template engine: whether it is installed, and what rendering the
    template file found on disk gives for a profile or for a list of
    facettes, at a generation time. *)
Record Jinja : Type := {
  HAS_JINJA : bool;
  render_profile :
    option file -> PersonProfile.t -> string -> outcome string;
  render_facettes :
    option file -> string -> list Facette.t -> string -> outcome string;
}.

Definition templates_dir : PyPath.Path := PyPath.parse "docs/templates".

(** One default template: written only when the file is not there. *)
Definition ensure_template (sys : Sys) (file_name content : string)
  : IO unit :=
  let path := PyPath.str (templates_dir // file_name) in
  there ← exists_ path;
  if negb there then write sys path (FText content) else mret tt.

Definition _ensure_default_templates (sys : Sys) : IO unit :=
  ensure_template sys "profile.md.j2" DEFAULT_PROFILE_TEMPLATE;;
  ensure_template sys "facettes.md.j2" DEFAULT_FACETTES_TEMPLATE;;
  ensure_template sys "system_prompt.md.j2" DEFAULT_PROMPT_TEMPLATE.

(** [DocumentGenerator()] with the default templates directory. *)
Definition init (sys : Sys) (jinja : Jinja) : IO unit :=
  if negb (HAS_JINJA jinja) then
    raise "jinja2 not installed. Run: pip install jinja2"
  else _ensure_default_templates sys.

Definition generate_profile (sys : Sys) (jinja : Jinja)
    (profile : PersonProfile.t) (output_path : string) : IO string :=
  template ← peek (PyPath.str (templates_dir // "profile.md.j2"));
  content ← pure_outcome
    (render_profile jinja template profile (now_iso sys));
  (if truthy output_path
   then write sys (PyPath.str (PyPath.parse output_path)) (FText content)
   else mret tt);;
  mret content.

Definition generate_facettes (sys : Sys) (jinja : Jinja) (name : string)
    (facettes : list Facette.t) (output_path : string) : IO string :=
  template ← peek (PyPath.str (templates_dir // "facettes.md.j2"));
  content ← pure_outcome
    (render_facettes jinja template name facettes (now_iso sys));
  (if truthy output_path
   then write sys (PyPath.str (PyPath.parse output_path)) (FText content)
   else mret tt);;
  mret content.

End DocumentGenerator.

(** ** audio/downloader.py and audio/separator.py: the results the
    orchestrator looks at (durations, floats in the source, are left out) *)
Module AudioTools.

Record DownloadResult : Type := {
  d_success : bool;
  source_url : string;
  output_path : option PyPath.Path;
  title : option string;
  d_error : option string;
}.

Record SeparationResult : Type := {
  s_success : bool;
  input_path : PyPath.Path;
  vocals_path : option PyPath.Path;
  accompaniment_path : option PyPath.Path;
  s_error : option string;
}.

(** [AudioDownloader(output_dir).download(url, output_name)] and
    [VocalSeparator(output_dir).separate(input, output_name)]: building
    either object may raise, the call itself reports through its result. *)
Record t : Type := {
  download : string -> string -> string -> outcome DownloadResult;
  separate : string -> string -> string -> outcome SeparationResult;
}.

End AudioTools.

(** ** pipeline/orchestrator.py *)
Module Orchestrator.
Import PyStr Json FS.

Record PipelineConfig : Type := {
  subject_name : string;
  subject_context : option string;
  data_dir : string;
  models_dir : string;
  audio_url : option string;
  audio_file : option string;
  gguf_model : string;
  enable_voice : bool;
  language : string;
}.

(** [PipelineConfig(subject_name=..., subject_context=..., audio_url=...,
    audio_file=...)], the other fields at their defaults. *)
Definition make_config (name : string) (context audio_url audio_file
    : option string) : PipelineConfig :=
  {| subject_name := name; subject_context := context;
     data_dir := "data/subjects"; models_dir := "models";
     audio_url := audio_url; audio_file := audio_file;
     gguf_model := "models/gguf/qwen2.5-coder-7b-instruct-q4_k_m.gguf";
     enable_voice := true; language := "fr" |}.

Definition safe_name (subject_name : string) : string :=
  replace_char " " "_" (lower subject_name).

Definition get_subject_dir (self : PipelineConfig) : PyPath.Path :=
  PyPath.parse (data_dir self) // safe_name (subject_name self).

Record PipelineResult : Type := {
  success : bool;
  r_subject_name : string;
  subject_dir : PyPath.Path;
  profile_path : option PyPath.Path;
  persona_path : option PyPath.Path;
  vocals_path : option PyPath.Path;
  error : option string;
  steps_completed : list string;
}.

Definition set_success (b : bool) (r : PipelineResult) : PipelineResult :=
  {| success := b; r_subject_name := r_subject_name r;
     subject_dir := subject_dir r; profile_path := profile_path r;
     persona_path := persona_path r; vocals_path := vocals_path r;
     error := error r; steps_completed := steps_completed r |}.

Definition set_profile_path (p : PyPath.Path) (r : PipelineResult)
  : PipelineResult :=
  {| success := success r; r_subject_name := r_subject_name r;
     subject_dir := subject_dir r; profile_path := Some p;
     persona_path := persona_path r; vocals_path := vocals_path r;
     error := error r; steps_completed := steps_completed r |}.

Definition set_persona_path (p : PyPath.Path) (r : PipelineResult)
  : PipelineResult :=
  {| success := success r; r_subject_name := r_subject_name r;
     subject_dir := subject_dir r; profile_path := profile_path r;
     persona_path := Some p; vocals_path := vocals_path r;
     error := error r; steps_completed := steps_completed r |}.

Definition set_vocals_path (p : option PyPath.Path) (r : PipelineResult)
  : PipelineResult :=
  {| success := success r; r_subject_name := r_subject_name r;
     subject_dir := subject_dir r; profile_path := profile_path r;
     persona_path := persona_path r; vocals_path := p;
     error := error r; steps_completed := steps_completed r |}.

Definition set_error (msg : string) (r : PipelineResult) : PipelineResult :=
  {| success := success r; r_subject_name := r_subject_name r;
     subject_dir := subject_dir r; profile_path := profile_path r;
     persona_path := persona_path r; vocals_path := vocals_path r;
     error := Some msg; steps_completed := steps_completed r |}.

(** [self.result.steps_completed.append(step)] *)
Definition append_step (step : string) (r : PipelineResult)
  : PipelineResult :=
  {| success := success r; r_subject_name := r_subject_name r;
     subject_dir := subject_dir r; profile_path := profile_path r;
     persona_path := persona_path r; vocals_path := vocals_path r;
     error := error r; steps_completed := steps_completed r ++ [step] |}.

Inductive Phase : Type := Research | Audio | Documentation | Persona.

#[global] Instance Phase_eq_dec : EqDecision Phase.
Proof. solve_decision. Defined.

Definition step_name (ph : Phase) : string :=
  match ph with
  | Research => "research"
  | Audio => "audio"
  | Documentation => "documentation"
  | Persona => "persona"
  end.

(** The position of a phase in the fixed order. *)
Definition rank (ph : Phase) : nat :=
  match ph with
  | Research => 0
  | Audio => 1
  | Documentation => 2
  | Persona => 3
  end.

(** Everything outside the orchestrator. *)
Record World : Type := {
  sys : Sys;
  tavily : Searcher.Tavily;
  jinja : DocumentGenerator.Jinja;
  audio : AudioTools.t;
}.

(** A [HumanPipeline] while it runs: the files, the result record it
    mutates, and [entered], which is not a field of the source: it lists the
    phase methods called so far, in order (each prints its banner on
    entry). *)
Record State : Type := {
  files : gmap string file;
  result : PipelineResult;
  entered : list Phase;
}.

Abbreviation M := (ST State).

(** An I/O computation run on the files of the pipeline state. *)
Definition io {A} (c : IO A) : M A :=
  fun st =>
    let '(fs', o) := c (files st) in
    ({| files := fs'; result := result st; entered := entered st |}, o).

Definition update_result (f : PipelineResult -> PipelineResult) : M unit :=
  fun st =>
    ({| files := files st; result := f (result st);
        entered := entered st |}, Ok tt).

Definition enter (ph : Phase) (st : State) : State :=
  {| files := files st; result := result st;
     entered := entered st ++ [ph] |}.

(** [try: body; return True / except Exception as e: self.result.error =
    str(e); return False] *)
Definition try_phase (ph : Phase) (body : M unit) (st : State)
  : State * bool :=
  match body (enter ph st) with
  | (st', Ok _) => (st', true)
  | (st', Raise msg) =>
      ({| files := files st'; result := set_error msg (result st');
          entered := entered st' |}, false)
  end.

(** Proof vocabulary. A computation keeps the result record when it leaves
    it, and the list of entered phases, as they were; it ends with an update
    in [R] when it either stops early or raises, having kept the record, or
    runs to its end, where the record is updated within [R]. *)
Definition keeps_result {A} (c : M A) : Prop :=
  forall st,
    result (fst (c st)) = result st /\ entered (fst (c st)) = entered st.

Definition ends_with {A} (R : PipelineResult -> PipelineResult -> Prop)
    (c : M A) : Prop :=
  forall st,
    entered (fst (c st)) = entered st
    /\ match snd (c st) with
       | Raise _ => result (fst (c st)) = result st
       | Ok _ =>
           result (fst (c st)) = result st
           \/ R (result st) (result (fst (c st)))
       end.

(** [None] is printed as the word. *)
Definition fmt_opt (o : option string) : string :=
  match o with
  | Some s => s
  | None => "None"
  end.

Section Pipeline.
Variable w : World.
Variable config : PipelineConfig.

(** [HumanPipeline(config)]: the directories it creates hold no file of
    their own and are not tracked. *)
Definition init (fs : gmap string file) : State :=
  {| files := fs;
     result := {| success := false; r_subject_name := subject_name config;
                  subject_dir := get_subject_dir config;
                  profile_path := None; persona_path := None;
                  vocals_path := None; error := None;
                  steps_completed := [] |};
     entered := [] |}.

Definition the_subject_dir : PyPath.Path := get_subject_dir config.

Definition conventional_profile_path : PyPath.Path :=
  the_subject_dir // "research" // "profile.json".

Definition research_body (api_key : option string) : M unit :=
  key ← pure_outcome (Searcher.init (tavily w) api_key);
  results ← pure_outcome
    (Searcher.search (sys w) (tavily w) key (subject_name config)
       (subject_context config));
  let profile := InfoExtractor.extract_profile (sys w) results in
  let profile_path := the_subject_dir // "research" // "profile.json" in
  io (PersonProfile.save (sys w) profile (PyPath.str profile_path));;
  update_result (set_profile_path profile_path);;
  update_result (append_step "research").

Definition run_research (api_key : option string) (st : State)
  : State * bool :=
  try_phase Research (research_body api_key) st.

(** The first part of the audio phase: where the audio comes from. *)
Definition audio_source : M (option PyPath.Path) :=
  if truthy_opt (audio_url config) then
    r ← pure_outcome
      (AudioTools.download (audio w) (PyPath.str (the_subject_dir // "audio"))
         (default "" (audio_url config)) "source");
    if negb (AudioTools.d_success r)
    then raise ("Download failed: " +:+ fmt_opt (AudioTools.d_error r))
    else mret (AudioTools.output_path r)
  else if truthy_opt (audio_file config) then
    let audio_path := PyPath.parse (default "" (audio_file config)) in
    there ← io (exists_ (PyPath.str audio_path));
    if negb there
    then raise ("Audio file not found: " +:+ PyPath.str audio_path)
    else mret (Some audio_path)
  else mret None.

Definition audio_body : M unit :=
  audio_path ← audio_source;
  match audio_path with
  | None => mret tt
  | Some p =>
      r ← pure_outcome
        (AudioTools.separate (audio w)
           (PyPath.str (the_subject_dir // "audio")) (PyPath.str p)
           "separated");
      if negb (AudioTools.s_success r)
      then raise ("Separation failed: " +:+ fmt_opt (AudioTools.s_error r))
      else
        update_result (set_vocals_path (AudioTools.vocals_path r));;
        update_result (append_step "audio")
  end.

Definition run_audio (st : State) : State * bool :=
  try_phase Audio audio_body st.

Definition documentation_body : M unit :=
  let profile_path := the_subject_dir // "research" // "profile.json" in
  there ← io (exists_ (PyPath.str profile_path));
  if negb there then mret tt
  else
    profile ← io (PersonProfile.load (sys w) (PyPath.str profile_path));
    io (DocumentGenerator.init (sys w) (jinja w));;
    io (DocumentGenerator.generate_profile (sys w) (jinja w) profile
          (PyPath.str (the_subject_dir // "docs" // "profile.md")));;
    (match PersonProfile.facettes profile with
     | [] => mret tt
     | fcs =>
         io (DocumentGenerator.generate_facettes (sys w) (jinja w)
               (PersonProfile.name profile) fcs
               (PyPath.str (the_subject_dir // "docs" // "facettes.md")));;
         mret tt
     end);;
    update_result (append_step "documentation").

Definition run_documentation (st : State) : State * bool :=
  try_phase Documentation documentation_body st.

Definition persona_body : M unit :=
  let profile_path := the_subject_dir // "research" // "profile.json" in
  there ← io (exists_ (PyPath.str profile_path));
  if negb there then mret tt
  else
    profile ← io (PersonProfile.load (sys w) (PyPath.str profile_path));
    let persona := PromptGenerator.generate profile "" None in
    let persona_path := the_subject_dir // "persona.json" in
    io (PersonaPrompt.save (sys w) persona (PyPath.str persona_path));;
    let prompt_path := the_subject_dir // "system_prompt.txt" in
    io (write (sys w) (PyPath.str prompt_path)
          (FText (PersonaPrompt.system_prompt persona)));;
    update_result (set_persona_path persona_path);;
    update_result (append_step "persona").

Definition run_persona (st : State) : State * bool :=
  try_phase Persona persona_body st.

Definition has_audio_source : bool :=
  truthy_opt (audio_url config) || truthy_opt (audio_file config).

(** [run(skip_research)]. The outer [try] of the source guards only the
    calls below, each of which catches its own exceptions, so its handler is
    never reached. *)
Definition run (skip_research : bool) (st : State) : State :=
  let '(st, ok) :=
    if negb skip_research then run_research None st
    else
      (fst (update_result
              (set_profile_path
                 (the_subject_dir // "research" // "profile.json")) st),
       true) in
  if negb ok then st else
  let '(st, ok) :=
    if has_audio_source then run_audio st else (st, true) in
  if negb ok then st else
  let '(st, ok) := run_documentation st in
  if negb ok then st else
  let '(st, ok) := run_persona st in
  if negb ok then st else
  fst (update_result (set_success true) st).

(** The same control flow told as a loop, for the proofs: the body of
    each phase method, the phases a run goes through when none fails, the
    state in which the first of them starts, and the loop that stops at the
    first phase returning [False]. *)
Definition phase_body (ph : Phase) : M unit :=
  match ph with
  | Research => research_body None
  | Audio => audio_body
  | Documentation => documentation_body
  | Persona => persona_body
  end.

Definition run_phase (ph : Phase) (st : State) : State * bool :=
  try_phase ph (phase_body ph) st.

Definition plan (skip_research : bool) : list Phase :=
  (if skip_research then [] else [Research])
  ++ (if has_audio_source then [Audio] else [])
  ++ [Documentation; Persona].

Definition start (skip_research : bool) (st : State) : State :=
  if skip_research
  then fst (update_result
              (set_profile_path
                 (the_subject_dir // "research" // "profile.json")) st)
  else st.

Fixpoint run_phases (phases : list Phase) (st : State) : State * bool :=
  match phases with
  | [] => (st, true)
  | ph :: rest =>
      let '(st', ok) := run_phase ph st in
      if ok then run_phases rest st' else (st', false)
  end.

(** What a phase that ran to its end did to the result record. *)
Definition updated (ph : Phase) (r r' : PipelineResult) : Prop :=
  match ph with
  | Research =>
      r' = append_step "research"
             (set_profile_path
                (the_subject_dir // "research" // "profile.json") r)
  | Audio => exists v, r' = append_step "audio" (set_vocals_path v r)
  | Documentation => r' = append_step "documentation" r
  | Persona =>
      r' = append_step "persona"
             (set_persona_path (the_subject_dir // "persona.json") r)
  end.

(** Phase [ph] raised [msg] in the run: the phases before it in the plan
    returned [True], and its body, entered in the state they left, raised. *)
Definition raises_in_run (skip_research : bool) (fs : gmap string file)
    (ph : Phase) (msg : string) : Prop :=
  exists before after st,
    plan skip_research = before ++ ph :: after
    /\ run_phases before (start skip_research (init fs)) = (st, true)
    /\ snd (phase_body ph (enter ph st)) = Raise msg.

End Pipeline.

(** [create_human(name, context, audio_url, audio_file, skip_research)] *)
Definition create_human (w : World) (fs : gmap string file) (name : string)
    (context audio_url audio_file : option string) (skip_research : bool)
  : State :=
  let config := make_config name context audio_url audio_file in
  run w config skip_research (init config fs).

(** Stand-ins for the collaborators: a search client with a key that gives
    one fixed answer, a template engine that renders a heading, and a
    machine without the audio tools. *)
Definition stub_tavily (answer : outcome json) : Searcher.Tavily :=
  {| Searcher.HAS_TAVILY := true;
     Searcher.TAVILY_API_KEY := Some "tvly-test";
     Searcher.client_search := fun _ _ => answer |}.

Definition stub_jinja : DocumentGenerator.Jinja :=
  {| DocumentGenerator.HAS_JINJA := true;
     DocumentGenerator.render_profile :=
       fun _ profile _ => Ok ("# " +:+ PersonProfile.name profile);
     DocumentGenerator.render_facettes :=
       fun _ name _ _ => Ok ("# Les Facettes de " +:+ name) |}.

Definition no_audio_tools : AudioTools.t :=
  {| AudioTools.download := fun _ _ _ =>
       Raise "yt-dlp not found. Install with: pip install yt-dlp";
     AudioTools.separate := fun _ _ _ =>
       Raise "demucs not installed. Run: pip install demucs" |}.

Definition stub_world (answer : outcome json) : World :=
  {| sys := quiet; tavily := stub_tavily answer; jinja := stub_jinja;
     audio := no_audio_tools |}.

Definition one_result : json :=
  JObj [("results",
         JList [JObj [("title", JStr "John Doe - Painter");
                      ("url", JStr "https://example.org/john-doe");
                      ("content", JStr "John Doe paints landscapes");
                      ("score", JNum 1)]])].

Definition john_doe : PipelineConfig := make_config "John Doe" None None None.

(** What the searcher makes of that answer for the scenario's subject. *)
Definition one_result_found : Searcher.PersonSearchResults :=
  {| Searcher.name := "John Doe"; Searcher.query := "John Doe";
     Searcher.timestamp := "2024-01-01T00:00:00";
     Searcher.results :=
       [{| Searcher.title := "John Doe - Painter";
           Searcher.url := "https://example.org/john-doe";
           Searcher.content := "John Doe paints landscapes";
           Searcher.score := JNum 1;
           Searcher.published_date := None |}];
     Searcher.raw_response := Some one_result |}.

(** The scenario's subject, whatever the context string of the search. *)
Definition john_doe_in (context : option string) : PipelineConfig :=
  make_config "John Doe" context None None.

End Orchestrator.

(** ** voice/cloner.py *)
Module VoiceCloner.
Import PyStr FS.

Record CloneResult : Type := {
  success : bool;
  text : string;
  output_path : option PyPath.Path;
  error : option string;
}.

Definition SUPPORTED_LANGUAGES : list string :=
  ["en"; "es"; "fr"; "de"; "it"; "pt"; "pl"; "tr"; "ru";
   "nl"; "cs"; "ar"; "zh-cn"; "ja"; "hu"; "ko"].

(** The list as an f-string prints it. *)
Definition SUPPORTED_LANGUAGES_repr : string :=
  "['en', 'es', 'fr', 'de', 'it', 'pt', 'pl', 'tr', 'ru', 'nl', 'cs', 'ar', 'zh-cn', 'ja', 'hu', 'ko']".

(** The speech model: [tts_to_file] raises or returns, having created the
    output file or not; [sf_read] is the read-back of that file;
    [format_exc] is the traceback text of an exception. *)
Record TTS : Type := {
  tts_to_file : string -> list string -> string -> string -> outcome bool;
  sf_read : string -> outcome unit;
  format_exc : string -> string;
}.

Definition failed (text msg : string) : CloneResult :=
  {| success := false; text := text; output_path := None;
     error := Some msg |}.

(** The validation loop over the reference samples: the first missing one,
    if any. *)
Fixpoint first_missing (fs : gmap string file) (wavs : list string)
  : option string :=
  match wavs with
  | [] => None
  | wav :: rest =>
      if bool_decide (is_Some (fs !! PyPath.str (PyPath.parse wav)))
      then first_missing fs rest else Some wav
  end.

(** The [try] block of [clone_voice]: synthesis, then the check that the
    file is there. *)
Definition synthesize (tts : TTS) (text : string) (speaker_wav : list string)
    (language : string) (output_path : PyPath.Path) : IO CloneResult :=
  fun fs =>
    match tts_to_file tts text speaker_wav language (PyPath.str output_path)
    with
    | Raise msg => (fs, Raise msg)
    | Ok created =>
        let fs' :=
          if created then <[PyPath.str output_path := FAudio]> fs else fs in
        if bool_decide (is_Some (fs' !! PyPath.str output_path)) then
          match sf_read tts (PyPath.str output_path) with
          | Raise msg => (fs', Raise msg)
          | Ok _ =>
              (fs', Ok {| success := true; text := text;
                          output_path := Some output_path; error := None |})
          end
        else (fs', Ok (failed text "Output file was not created"))
    end.

(** [clone_voice(text, speaker_wav, language, output_path)] with one
    reference sample and a given output path, as the avatar calls it. The
    exception handler turns a failure of the [try] block into a result.
    Directories are not tracked: the [mkdir] of the output directory, which
    the engine created when it was built, has no effect here. *)
Definition clone_voice (tts : TTS) (text speaker_wav language
    output_path : string) : IO CloneResult :=
  fun fs =>
    if bool_decide (language ∉ SUPPORTED_LANGUAGES) then
      (fs, Ok (failed text
                 ("Unsupported language: " +:+ language +:+ ". Supported: "
                  +:+ SUPPORTED_LANGUAGES_repr)))
    else
      match first_missing fs [speaker_wav] with
      | Some wav =>
          (fs, Ok (failed text ("Reference audio not found: " +:+ wav)))
      | None =>
          match synthesize tts text [speaker_wav] language
                  (PyPath.parse output_path) fs with
          | (fs', Ok r) => (fs', Ok r)
          | (fs', Raise msg) =>
              (fs', Ok (failed text (msg +:+ nl +:+ format_exc tts msg)))
          end
      end.

End VoiceCloner.

(** ** avatar/avatar.py *)
Module Avatar.
Import PyStr FS.

Record AvatarResponse : Type := {
  text : string;
  audio_path : option PyPath.Path;
  tokens_used : Z;
}.

Record ConversationMessage : Type := {
  role : string;
  content : string;
}.

(** What the language model answers to a prompt and a token budget: a
    completion with its token count, or, when streaming, the fragments in
    order, possibly cut short by an exception. The sampling parameters,
    floats in the source, belong to the model's side. *)
Record LlmResponse : Type := {
  choice_text : string;
  total_tokens : Z;
}.

Record World : Type := {
  llm : string -> Z -> outcome LlmResponse;
  llm_stream : string -> Z -> list string * option string;
  tts : VoiceCloner.TTS;
}.

(** An [AvatarEngine] after construction; [voice_cloner] tells whether a
    cloner was built. *)
Record AvatarEngine : Type := {
  persona : PersonaPrompt.t;
  output_dir : PyPath.Path;
  enable_voice : bool;
  voice_cloner : bool;
  speaker_wav : option string;
  history : list ConversationMessage;
  response_counter : nat;
}.

(** The attributes [__init__] sets once the model is loaded. *)
Definition make (persona : PersonaPrompt.t) (speaker_wav : option string)
    (output_dir : string) (enable_voice : bool) : AvatarEngine :=
  {| persona := persona; output_dir := PyPath.parse output_dir;
     enable_voice := enable_voice;
     voice_cloner := enable_voice && truthy_opt speaker_wav;
     speaker_wav := speaker_wav; history := []; response_counter := 0 |}.

Definition with_history (h : list ConversationMessage) (e : AvatarEngine)
  : AvatarEngine :=
  {| persona := persona e; output_dir := output_dir e;
     enable_voice := enable_voice e; voice_cloner := voice_cloner e;
     speaker_wav := speaker_wav e; history := h;
     response_counter := response_counter e |}.

Definition with_counter (n : nat) (e : AvatarEngine) : AvatarEngine :=
  {| persona := persona e; output_dir := output_dir e;
     enable_voice := enable_voice e; voice_cloner := voice_cloner e;
     speaker_wav := speaker_wav e; history := history e;
     response_counter := n |}.

Definition user_turn (message : string) : ConversationMessage :=
  {| role := "user"; content := message |}.

Definition assistant_turn (text : string) : ConversationMessage :=
  {| role := "assistant"; content := text |}.

Definition _build_prompt (self : AvatarEngine) (user_message : string)
  : string :=
  let prompt_parts : list string :=
    (["<|im_start|>system" +:+ nl
       +:+ PersonaPrompt.system_prompt (persona self) +:+ "<|im_end|>"]
    ++ ((fun msg => "<|im_start|>" +:+ role msg +:+ nl +:+ content msg
                    +:+ "<|im_end|>") <$> history self)
    ++ ["<|im_start|>user" +:+ nl +:+ user_message +:+ "<|im_end|>"]
    ++ ["<|im_start|>assistant" +:+ nl])%list in
  join nl prompt_parts.

(** [f"{n:04d}"] *)
Definition pad4 (n : nat) : string :=
  let d := NilEmpty.string_of_uint (Nat.to_uint n) in
  match String.length d with
  | 1 => "000" +:+ d
  | 2 => "00" +:+ d
  | 3 => "0" +:+ d
  | _ => d
  end.

(** The engine together with the files it writes. *)
Record State : Type := {
  files : gmap string file;
  engine : AvatarEngine;
}.

Definition update_engine (f : AvatarEngine -> AvatarEngine)
  : ST State unit :=
  fun st => ({| files := files st; engine := f (engine st) |}, Ok tt).

Definition the_engine : ST State AvatarEngine :=
  fun st => (st, Ok (engine st)).

Definition io {A} (c : IO A) : ST State A :=
  fun st =>
    let '(fs', o) := c (files st) in
    ({| files := fs'; engine := engine st |}, o).

Section Chat.
Variable w : World.

(** The voice branch of [chat]. *)
Definition voice_of (text language : string)
  : ST State (option PyPath.Path) :=
  self ← the_engine;
  let counter := S (response_counter self) in
  update_engine (with_counter counter);;
  let audio_output :=
    output_dir self // ("response_" +:+ pad4 counter +:+ ".wav") in
  voice_result ← io
    (VoiceCloner.clone_voice (tts w) text (default "" (speaker_wav self))
       language (PyPath.str audio_output));
  mret (if VoiceCloner.success voice_result
        then VoiceCloner.output_path voice_result else None).

Definition chat (message : string) (max_tokens : Z)
    (synthesize_voice : bool) (language : string)
  : ST State AvatarResponse :=
  self ← the_engine;
  let prompt := _build_prompt self message in
  response ← pure_outcome (llm w prompt max_tokens);
  let text := strip (choice_text response) in
  let tokens_used := total_tokens response in
  update_engine
    (fun e => with_history (history e ++ [user_turn message]) e);;
  update_engine
    (fun e => with_history (history e ++ [assistant_turn text]) e);;
  audio_path ←
    (if synthesize_voice && voice_cloner self
        && truthy_opt (speaker_wav self)
     then voice_of text language
     else mret None);
  mret {| text := text; audio_path := audio_path;
          tokens_used := tokens_used |}.

(** [chat_stream] is a generator. Calling it only builds the generator
    object; the body runs on [next]. A suspended generator remembers the
    message, the response accumulated so far, and what is left of the
    model's stream. *)
Inductive Generator : Type :=
| Created (message : string) (max_tokens : Z)
| Suspended (message full_response : string) (rest : list string)
    (failure : option string)
| Finished.

Inductive Signal : Type :=
| Yield (token : string)
| StopIteration
| Raised (msg : string).

(** The [for] loop from its head: the next fragment is yielded, or the
    stream is over and the two turns are appended. *)
Definition resume (message full_response : string) (rest : list string)
    (failure : option string) (self : AvatarEngine)
  : Generator * AvatarEngine * Signal :=
  match rest with
  | token :: rest' =>
      (Suspended message (full_response +:+ token) rest' failure, self,
       Yield token)
  | [] =>
      match failure with
      | Some msg => (Finished, self, Raised msg)
      | None =>
          (Finished,
           with_history
             (history self
              ++ [user_turn message; assistant_turn (strip full_response)])
             self,
           StopIteration)
      end
  end.

(** [next(g)] *)
Definition next (g : Generator) (self : AvatarEngine)
  : Generator * AvatarEngine * Signal :=
  match g with
  | Created message max_tokens =>
      let prompt := _build_prompt self message in
      let '(tokens, failure) := llm_stream w prompt max_tokens in
      resume message "" tokens failure self
  | Suspended message full_response rest failure =>
      resume message full_response rest failure self
  | Finished => (Finished, self, StopIteration)
  end.

(** [g.close()], also what dropping the generator does: the body never
    resumes. *)
Definition close (g : Generator) (self : AvatarEngine)
  : Generator * AvatarEngine :=
  (Finished, self).

Definition chat_stream (message : string) (max_tokens : Z) : Generator :=
  Created message max_tokens.

(** What a consumer does with the generator. *)
Inductive Op : Type := DoNext | DoClose.

(** A consumer's operations in order, with the signals [next] gave. *)
Fixpoint consume (ops : list Op) (g : Generator) (self : AvatarEngine)
  : Generator * AvatarEngine * list Signal :=
  match ops with
  | [] => (g, self, [])
  | DoNext :: ops' =>
      let '(g', self', s) := next g self in
      let '(g'', self'', ss) := consume ops' g' self' in
      (g'', self'', s :: ss)
  | DoClose :: ops' =>
      let '(g', self') := close g self in
      consume ops' g' self'
  end.

(** The fragments among the signals. *)
Definition yielded (ss : list Signal) : list string :=
  omap (fun s => match s with Yield t => Some t | _ => None end) ss.

Definition is_stop (s : Signal) : bool :=
  match s with
  | StopIteration => true
  | _ => false
  end.

(** Some [next] found the stream over. *)
Definition exhausted (ss : list Signal) : bool := existsb is_stop ss.

End Chat.

(** The fragments put together, as [full_response] accumulates them. *)
Definition joined (tokens : list string) : string :=
  foldr String.append "" tokens.

(** Stand-ins: a model with one fixed answer, streamed in three fragments,
    and a speech model that runs out of memory. *)
Definition stub_tts : VoiceCloner.TTS :=
  {| VoiceCloner.tts_to_file := fun _ _ _ _ => Raise "CUDA out of memory";
     VoiceCloner.sf_read := fun _ => Ok tt;
     VoiceCloner.format_exc := fun msg =>
       "Traceback (most recent call last): RuntimeError: " +:+ msg |}.

Definition stub_world : World :=
  {| llm := fun _ _ =>
       Ok {| choice_text := " Bonjour a tous ! "; total_tokens := 42 |};
     llm_stream := fun _ _ => (["Bonjour"; " a tous"; " ! "], None);
     tts := stub_tts |}.

Definition stub_engine : AvatarEngine :=
  make (PromptGenerator.generate PersonProfile.sourced_profile "" None)
    (Some "voice.wav") "data/voices/conversations" true.

Definition stub_state : State :=
  {| files := {["voice.wav" := FAudio]}; engine := stub_engine |}.

End Avatar.

(** ** research/extractor.py: [InfoExtractor.merge_profiles] *)
Module MergeProfiles.
Import PyStr Json FS.

(** [if x not in merged: merged.append(x)] *)
Definition add_new (merged : list string) (x : string) : list string :=
  if bool_decide (x ∈ merged) then merged else merged ++ [x].

(** One of the four loops over strings (aliases, professions, keywords,
    sources). *)
Definition merge_strings (merged xs : list string) : list string :=
  fold_left add_new xs merged.

(** The loop over social profiles: the set of platforms already merged is
    built before the loop and kept up to date in it. *)
Definition add_social (st : list SocialProfile.t * gset string)
    (sp : SocialProfile.t) : list SocialProfile.t * gset string :=
  if bool_decide (SocialProfile.platform sp ∈ st.2) then st
  else (st.1 ++ [sp], st.2 ∪ {[SocialProfile.platform sp]}).

Definition merge_social (merged sps : list SocialProfile.t)
  : list SocialProfile.t :=
  fst (fold_left add_social sps
         (merged, list_to_set (SocialProfile.platform <$> merged))).

(** The loop over facettes, keyed by name in the same way. *)
Definition add_facette (st : list Facette.t * gset string) (f : Facette.t)
  : list Facette.t * gset string :=
  if bool_decide (Facette.name f ∈ st.2) then st
  else (st.1 ++ [f], st.2 ∪ {[Facette.name f]}).

Definition merge_facettes (merged fcs : list Facette.t) : list Facette.t :=
  fst (fold_left add_facette fcs
         (merged, list_to_set (Facette.name <$> merged))).

(** [if not merged.x and profile.x: merged.x = profile.x] *)
Definition first_non_empty (merged new : option string) : option string :=
  if negb (truthy_opt merged) && truthy_opt new then new else merged.

(** The body of the loop over the profiles. *)
Definition merge_one (merged profile : PersonProfile.t) : PersonProfile.t :=
  {| PersonProfile.name := PersonProfile.name merged;
     PersonProfile.aliases :=
       merge_strings (PersonProfile.aliases merged)
         (PersonProfile.aliases profile);
     PersonProfile.professions :=
       merge_strings (PersonProfile.professions merged)
         (PersonProfile.professions profile);
     PersonProfile.bio :=
       first_non_empty (PersonProfile.bio merged) (PersonProfile.bio profile);
     PersonProfile.location :=
       first_non_empty (PersonProfile.location merged)
         (PersonProfile.location profile);
     PersonProfile.social_profiles :=
       merge_social (PersonProfile.social_profiles merged)
         (PersonProfile.social_profiles profile);
     PersonProfile.facettes :=
       merge_facettes (PersonProfile.facettes merged)
         (PersonProfile.facettes profile);
     PersonProfile.keywords :=
       merge_strings (PersonProfile.keywords merged)
         (PersonProfile.keywords profile);
     PersonProfile.sources :=
       merge_strings (PersonProfile.sources merged)
         (PersonProfile.sources profile);
     PersonProfile.raw_info := PersonProfile.raw_info merged;
     PersonProfile.created_at := PersonProfile.created_at merged |}.

Definition merge_profiles (sys : Sys) (profiles : list PersonProfile.t)
  : outcome PersonProfile.t :=
  match profiles with
  | [] => Raise "No profiles to merge"
  | first :: _ =>
      Ok (fold_left merge_one profiles
            (PersonProfile.make sys (PersonProfile.name first)))
  end.

(** The first bio, or location, that is neither [None] nor empty. *)
Fixpoint first_truthy (l : list (option string)) : option string :=
  match l with
  | [] => None
  | o :: rest => if truthy_opt o then o else first_truthy rest
  end.

End MergeProfiles.

(** ** research/extractor.py: vocabulary for the keyword extraction *)
Module Keywords.
Import PyStr FS InfoExtractor.

(** How often a word occurs in a list of words. *)
Definition occurrences (word : string) (words : list string) : nat :=
  length (filter (fun w => w = word) words).

(** The words the extraction counts: those the pattern finds in the
    lowercased text that are neither stopwords nor parts of the name. *)
Definition counted_words (sys : Sys) (text name : string) : list string :=
  filter (fun word => (word ∉ stopwords) /\ (word ∉ split (lower name)))
    (re_findall sys WORD_PATTERN (lower text)).

End Keywords.

(** ** avatar/prompt_generator.py: [PersonaPrompt.load] and
    [generate_from_facettes] *)
Module PersonaPromptFile.
Import PyStr Json FS.

(** Unlike the profile loader, this one indexes the name and the
    description of a facette: a missing key raises. *)
Definition load_facette (j : json) : outcome Facette.t :=
  f ← as_dict "facettes" j;
  name ← getitem f "name" ≫= as_str "name";
  description ← getitem f "description" ≫= as_str "description";
  color ← as_opt_str "color" (get f "color" JNull);
  symbol ← as_opt_str "symbol" (get f "symbol" JNull);
  keywords ← as_str_list "keywords" (get f "keywords" (JList []));
  Ok {| Facette.name := name; Facette.description := description;
        Facette.color := color; Facette.symbol := symbol;
        Facette.keywords := keywords; Facette.sources := [] |}.

(** The body of [load] once [json.load] has produced the document. *)
Definition of_document (doc : json) : outcome PersonaPrompt.t :=
  data ← as_dict "persona" doc;
  name ← getitem data "name" ≫= as_str "name";
  system_prompt ← getitem data "system_prompt" ≫= as_str "system_prompt";
  personality_traits ← as_str_list "personality_traits"
    (get data "personality_traits" (JList []));
  speaking_style ← as_opt_str "speaking_style"
    (get data "speaking_style" JNull);
  knowledge_domains ← as_str_list "knowledge_domains"
    (get data "knowledge_domains" (JList []));
  example_phrases ← as_str_list "example_phrases"
    (get data "example_phrases" (JList []));
  metadata ← as_dict "metadata" (get data "metadata" (JObj []));
  fcs ← as_list "facettes" (get data "facettes" (JList []))
        ≫= PersonProfile.load_each load_facette;
  Ok {| PersonaPrompt.name := name;
        PersonaPrompt.system_prompt := system_prompt;
        PersonaPrompt.personality_traits := personality_traits;
        PersonaPrompt.speaking_style := speaking_style;
        PersonaPrompt.knowledge_domains := knowledge_domains;
        PersonaPrompt.example_phrases := example_phrases;
        PersonaPrompt.facettes := fcs;
        PersonaPrompt.metadata := metadata |}.

Definition load (sys : Sys) (path : string) : IO PersonaPrompt.t :=
  doc ← read_json sys path;
  pure_outcome (of_document doc).

(** What a saved persona loads back as. *)
Definition persisted (self : PersonaPrompt.t) : PersonaPrompt.t :=
  {| PersonaPrompt.name := PersonaPrompt.name self;
     PersonaPrompt.system_prompt := PersonaPrompt.system_prompt self;
     PersonaPrompt.personality_traits := PersonaPrompt.personality_traits self;
     PersonaPrompt.speaking_style := PersonaPrompt.speaking_style self;
     PersonaPrompt.knowledge_domains := PersonaPrompt.knowledge_domains self;
     PersonaPrompt.example_phrases := PersonaPrompt.example_phrases self;
     PersonaPrompt.facettes :=
       PersonProfile.persisted_facette <$> PersonaPrompt.facettes self;
     PersonaPrompt.metadata := PersonaPrompt.metadata self |}.

(** [generate_from_facettes(name, facettes, bio)]: the minimal profile it
    builds, whose keywords are those of the facettes in order, and the
    prompt generated from it. *)
Definition facettes_profile (sys : Sys) (name : string)
    (facettes : list Facette.t) (bio : option string) : PersonProfile.t :=
  {| PersonProfile.name := name; PersonProfile.aliases := [];
     PersonProfile.professions := []; PersonProfile.bio := bio;
     PersonProfile.location := None; PersonProfile.social_profiles := [];
     PersonProfile.facettes := facettes;
     PersonProfile.keywords :=
       fold_left (fun kws f => kws ++ Facette.keywords f) facettes [];
     PersonProfile.sources := []; PersonProfile.raw_info := [];
     PersonProfile.created_at := now_iso sys |}.

Definition generate_from_facettes (sys : Sys) (name : string)
    (facettes : list Facette.t) (bio : option string) : PersonaPrompt.t :=
  PromptGenerator.generate (facettes_profile sys name facettes bio) "" None.

End PersonaPromptFile.

(** ** avatar/avatar.py: the conversation kept by the engine *)
Module Conversation.
Import PyStr Json FS Avatar.

Definition reset_conversation (self : AvatarEngine) : AvatarEngine :=
  with_counter 0 (with_history [] self).

(** One line of the summary: who spoke and the first 100 characters. *)
Definition summary_line (self : AvatarEngine) (msg : ConversationMessage)
  : string :=
  let prefix :=
    if String.eqb (role msg) "user" then "User:"
    else PersonaPrompt.name (persona self) +:+ ":" in
  prefix +:+ " " +:+ String.substring 0 100 (content msg)
  +:+ (if (100 <? String.length (content msg))%nat then "..." else "").

Definition get_conversation_summary (self : AvatarEngine) : string :=
  match history self with
  | [] => "No conversation yet."
  | h => join nl (summary_line self <$> h)
  end.

Definition message_dict (msg : ConversationMessage) : json :=
  JObj [("role", JStr (role msg)); ("content", JStr (content msg))].

Definition conversation_data (self : AvatarEngine) : json :=
  JObj [("persona_name", JStr (PersonaPrompt.name (persona self)));
        ("messages", JList (message_dict <$> history self))].

Definition save_conversation (sys : Sys) (path : string) : ST State unit :=
  self ← the_engine;
  io (write sys path (FJson (conversation_data self))).

Definition load_message (j : json) : outcome ConversationMessage :=
  msg ← as_dict "messages" j;
  role ← getitem msg "role" ≫= as_str "role";
  content ← getitem msg "content" ≫= as_str "content";
  Ok {| role := role; content := content |}.

(** The history is replaced only once every message has been read. *)
Definition load_conversation (sys : Sys) (path : string) : ST State unit :=
  doc ← io (read_json sys path);
  data ← pure_outcome (as_dict "conversation" doc);
  messages ← pure_outcome (getitem data "messages" ≫= as_list "messages");
  h ← pure_outcome (PersonProfile.load_each load_message messages);
  update_engine (with_history h).

End Conversation.

(** ** voice/cloner.py: [clone_conversation] *)
Module VoiceClonerBatch.
Import PyStr FS.




End VoiceClonerBatch.

(** ** Hand-edited documents *)
Module Edited.
Import Json.

(** A document with more keys written after those it has. *)
Definition extended (doc : json) (extra : dict) : json :=
  match doc with
  | JObj d => JObj (d ++ extra)
  | _ => doc
  end.

(** A profile document with a name, two keys of the extended format and
    nothing else. *)
Definition minimal : dict :=
  [("name", JStr "John Doe"); ("birth_year", JNum 1970);
   ("occupations", JList [JStr "painter"])].

(** A document without a name. *)
Definition nameless : dict := [("bio", JStr "A painter.")].

(** A persona document with a name and no prompt. *)
Definition promptless : dict := [("name", JStr "John Doe")].

End Edited.

(** ** A model whose stream breaks after two fragments *)
Module AvatarStubs.
Import Avatar.

Definition failing_stream_world : World :=
  {| llm := fun _ _ => Raise "connection lost";
     llm_stream := fun _ _ => (["Bonjour"; " a"], Some "connection lost");
     tts := stub_tts |}.

End AvatarStubs.

(** ** A machine with the search client installed and no key in the
    environment *)
Module PipelineStubs.
Import Orchestrator.

Definition keyless_world : World :=
  {| sys := FS.quiet;
     tavily := {| Searcher.HAS_TAVILY := true;
                  Searcher.TAVILY_API_KEY := None;
                  Searcher.client_search := fun _ _ => Raise "unreachable" |};
     jinja := stub_jinja;
     audio := no_audio_tools |}.

(** The files of a subject whose profile has been saved. *)
Definition profile_on_disk : gmap string FS.file :=
  <["data/subjects/john_doe/research/profile.json" :=
      FS.FJson (PersonProfile.to_dict
                  (InfoExtractor.extract_profile FS.quiet one_result_found))]>
    ∅.

End PipelineStubs.

(** ** ears/src/engine.py: the corrections applied to a transcription *)
Module Corrections.
Import PyStr.

(** [CORRECTIONS_FR], in the order of the dictionary. *)
Definition CORRECTIONS_FR : list (string * string) :=
  [("\bvies\b", "vois");
   ("\bvenements\b", "paiements");
   ("\bbietrie\b", "bijouterie");
   ("\bau pied\b", "au pire");
   ("\bformagnac\b", "Forminator");
   ("\baccrustation\b", "incrustation");
   ("\bd'eau\b", "d'abord");
   ("\bennun\b", "quelqu'un");
   ("\bburesque\b", "burlesque");
   ("\bca te date\b", "ca te va");
   ("\btu m'as coups\b", "tu me coupes");
   ("\bmontraveillant-sembre\b", "mode de travail ensemble");
   ("\bconfrondes\b", "confrontes")].

(** [re.sub(r'\s+', ' ', s)]: every maximal run of whitespace becomes one
    space; [in_run] tells that the previous character was whitespace. *)
Fixpoint collapse_go (s : string) (in_run : bool) : string :=
  match s with
  | EmptyString => EmptyString
  | String c s' =>
      if isspace c then
        if in_run then collapse_go s' true
        else String " " (collapse_go s' true)
      else String c (collapse_go s' false)
  end.

Definition collapse_spaces (s : string) : string := collapse_go s false.

Section Engine.
(** [re.sub(pattern, replacement, s, flags=re.IGNORECASE)] *)
Variable re_sub : string -> string -> string -> string.

(** The text after the loop over the corrections of the language. *)
Definition substituted (text language : string) : string :=
  if String.eqb language "fr"
  then fold_left (fun corrected pr => re_sub (fst pr) (snd pr) corrected)
         CORRECTIONS_FR text
  else text.

Definition _apply_corrections (text language : string) : string :=
  strip (collapse_spaces (substituted text language)).

End Engine.

(** Proof vocabulary: the only whitespace of [s] is the space character, and
    no two of them are adjacent ([after_space] tells that a space comes just
    before [s]). *)
Fixpoint single_spaced (s : string) (after_space : bool) : bool :=
  match s with
  | EmptyString => true
  | String c s' =>
      if isspace c
      then Ascii.eqb c " " && negb after_space && single_spaced s' true
      else single_spaced s' false
  end.

End Corrections.

(** * Properties *)

(** ** Facts about the string primitives *)
Module PyStrFacts.
Import PyStr.

Lemma lstrip_head (s : string) :
  match lstrip s with
  | EmptyString => True
  | String c _ => isspace c = false
  end.
Proof.
  induction s as [|c s IH]; simpl; [done|].
  destruct (isspace c) eqn:E; [exact IH | simpl; exact E].
Qed.

Lemma lstrip_fixed (s : string) :
  match s with
  | EmptyString => True
  | String c _ => isspace c = false
  end -> lstrip s = s.
Proof. destruct s as [|c s]; simpl; [done|]. by intros ->. Qed.

Lemma rstrip_head (s : string) :
  match s with
  | EmptyString => True
  | String c _ => isspace c = false
  end ->
  match rstrip s with
  | EmptyString => True
  | String c _ => isspace c = false
  end.
Proof.
  destruct s as [|c s]; simpl; [done|]. intros Hc.
  destruct (rstrip s); [rewrite Hc|]; simpl; exact Hc.
Qed.

Lemma rstrip_idem (s : string) : rstrip (rstrip s) = rstrip s.
Proof.
  induction s as [|c s IH]; simpl; [done|].
  destruct (rstrip s) as [|a r] eqn:E.
  - destruct (isspace c) eqn:Hc; simpl; [done|]. by rewrite Hc.
  - simpl. simpl in IH. destruct (rstrip r).
    + destruct (isspace a); [discriminate|]. by inversion IH.
    + by inversion IH.
Qed.

Lemma strip_idem (s : string) : strip (strip s) = strip s.
Proof.
  unfold strip.
  rewrite (lstrip_fixed (rstrip (lstrip s))).
  - apply rstrip_idem.
  - apply rstrip_head, lstrip_head.
Qed.

Lemma append_nil_r (s : string) : s +:+ "" = s.
Proof.
  induction s as [|c s IH]; [done|].
  change (String c (s +:+ "") = String c s). by f_equal.
Qed.

Lemma append_assoc (a b c : string) : (a +:+ b) +:+ c = a +:+ (b +:+ c).
Proof.
  induction a as [|x a IH]; [done|].
  change (String x ((a +:+ b) +:+ c) = String x (a +:+ (b +:+ c))).
  by f_equal.
Qed.

Lemma lower_idem (s : string) : lower (lower s) = lower s.
Proof.
  induction s as [|c s IH]; simpl; [done|]. rewrite IH. f_equal.
  destruct c as [[] [] [] [] [] [] [] []]; reflexivity.
Qed.

End PyStrFacts.

(** ** The transcription summary *)
Module EarsSpec.
Import PyStr Ears.

Lemma fold_summary_step (l acc : list string) :
  fold_left summary_step l acc
  = acc ++ ((fun s => "- " +:+ s) <$> List.filter meaningful l).
Proof.
  revert acc. induction l as [|s l IH]; intros acc; simpl.
  - by rewrite app_nil_r.
  - rewrite IH. unfold summary_step, meaningful.
    destruct (20 <? String.length s)%nat; simpl; [|done].
    by rewrite <- app_assoc.
Qed.

Lemma slice_to_nat {A} (n : nat) (l : list A) :
  slice_to (Z.of_nat n) l = take n l.
Proof.
  unfold slice_to. destruct (Z.leb_spec 0 (Z.of_nat n)); [|lia].
  by rewrite Nat2Z.id.
Qed.

Lemma free_of_delims_snoc (s : string) (c : ascii) :
  free_of_delims s = true -> is_delim c = false ->
  free_of_delims (s +:+ String c EmptyString) = true.
Proof.
  intros Hs Hc. induction s as [|a s IH]; simpl in *.
  - by rewrite Hc.
  - apply andb_true_iff in Hs as [Ha Hs]. rewrite Ha. simpl. by apply IH.
Qed.

Lemma re_split_go_free (s cur : string) (in_run : bool) :
  free_of_delims cur = true ->
  Forall (fun seg => free_of_delims seg = true) (re_split_go s cur in_run).
Proof.
  revert cur in_run. induction s as [|c s IH]; intros cur in_run Hcur; simpl.
  - by constructor.
  - destruct (is_delim c) eqn:Hc.
    + destruct in_run; [by apply IH|]. constructor; [done | by apply IH].
    + apply IH. by apply free_of_delims_snoc.
Qed.

Lemma lstrip_free (s : string) :
  free_of_delims s = true -> free_of_delims (lstrip s) = true.
Proof.
  induction s as [|c s IH]; simpl; [done|]. intros H.
  destruct (isspace c); [|done].
  apply andb_true_iff in H as [_ H]. by apply IH.
Qed.

Lemma rstrip_free (s : string) :
  free_of_delims s = true -> free_of_delims (rstrip s) = true.
Proof.
  induction s as [|c s IH]; simpl; [done|]. intros H.
  apply andb_true_iff in H as [Hc H]. specialize (IH H).
  destruct (rstrip s) eqn:E.
  - destruct (isspace c); simpl; [done|]. by rewrite Hc.
  - simpl in *. by rewrite Hc.
Qed.

(** Every sentence is non-empty, holds no delimiter and has no whitespace
    at either end. *)
Lemma sentences_of_spec (text : string) :
  Forall (fun s => truthy s = true /\ free_of_delims s = true /\ strip s = s)
    (sentences_of text).
Proof.
  unfold sentences_of, re_split.
  pose proof (re_split_go_free text "" false eq_refl) as H.
  induction H as [|seg segs Hseg _ IH]; simpl; [constructor|].
  destruct (truthy (strip seg)) eqn:Ht; [|exact IH].
  constructor; [|exact IH].
  split; [done|]. split; [|apply PyStrFacts.strip_idem].
  unfold strip. by apply rstrip_free, lstrip_free.
Qed.

(** C9, as stated, fails: a sentence of 20 characters or fewer is left out
    of the summary, so the summary of a text that opens with a short
    sentence is not the rendering of its first five sentences. *)
Lemma summary_drops_short_sentences :
  generate_summary_default "Bonjour. Nous allons parler du paiement demain."
  = "- Nous allons parler du paiement demain"
  /\ generate_summary_default
       "Bonjour. Nous allons parler du paiement demain."
     <> first_sentences_rendered
          "Bonjour. Nous allons parler du paiement demain." 5.
Proof. split; [reflexivity | discriminate]. Qed.

(** C9, amended: the summary is made of those of the first N sentences that
    are longer than 20 characters, each as a dash-prefixed line, the lines
    joined by newlines; a text without a sentence, and a text none of whose
    first N sentences is that long, get a fixed message instead. Sentences
    are the non-empty stripped segments between runs of the three
    delimiters. *)
Theorem generate_summary_spec (text : string) (n : nat) :
  _generate_summary text (Z.of_nat n)
  = match sentences_of text, meaningful_points text n with
    | [], _ => "Aucun contenu a resumer."
    | _ :: _, [] => "Contenu trop court pour resumer."
    | _ :: _, points => join nl points
    end
  /\ generate_summary_default text = _generate_summary text (Z.of_nat 5)
  /\ Forall (fun s => truthy s = true /\ free_of_delims s = true
                      /\ strip s = s) (sentences_of text).
Proof.
  split; [|split; [reflexivity | apply sentences_of_spec]].
  unfold _generate_summary, meaningful_points.
  destruct (sentences_of text) as [|s ss]; [reflexivity|].
  rewrite slice_to_nat, fold_summary_step. simpl.
  by destruct ((fun s => "- " +:+ s) <$> List.filter meaningful (take n (s :: ss))).
Qed.

End EarsSpec.

(** ** The profile on disk *)
Module ProfileSpec.
Import Json FS PersonProfile.

Lemma all_str_of_strs (field : string) (l : list string) :
  all_str field (JStr <$> l) = Ok l.
Proof.
  induction l as [|s l IH]; [done|].
  rewrite fmap_cons. cbn [all_str as_str]. rewrite IH. reflexivity.
Qed.

Lemma as_str_list_of_str_list (field : string) (l : list string) :
  as_str_list field (of_str_list l) = Ok l.
Proof. apply all_str_of_strs. Qed.

Lemma as_opt_str_of_opt_str (field : string) (o : option string) :
  as_opt_str field (of_opt_str o) = Ok o.
Proof. by destruct o. Qed.

(** One step of decoding what the writers encoded. *)
Ltac decode :=
  progress (cbn;
            rewrite ?all_str_of_strs, ?as_opt_str_of_opt_str,
              ?as_str_list_of_str_list).

Lemma load_social_to_dict (sp : SocialProfile.t) :
  load_social (social_to_dict sp) = Ok (persisted_social sp).
Proof.
  unfold load_social, social_to_dict. repeat decode. reflexivity.
Qed.

Lemma load_facette_to_dict (f : Facette.t) :
  load_facette (facette_to_dict f) = Ok (persisted_facette f).
Proof.
  unfold load_facette, facette_to_dict. repeat decode. reflexivity.
Qed.

Lemma load_each_map {A B} (f : json -> outcome B) (g : A -> json)
    (h : A -> B) (l : list A) :
  (forall a, f (g a) = Ok (h a)) -> load_each f (g <$> l) = Ok (h <$> l).
Proof.
  intros Hf. induction l as [|a l IH]; [done|].
  rewrite !fmap_cons. cbn [load_each]. rewrite Hf, IH. reflexivity.
Qed.

Lemma of_document_to_dict (sys : Sys) (p : t) :
  of_document sys (to_dict p) = Ok (persisted p).
Proof.
  unfold of_document, to_dict. repeat decode.
  rewrite (load_each_map _ _ _ _ load_social_to_dict). cbn.
  rewrite (load_each_map _ _ _ _ load_facette_to_dict). cbn.
  reflexivity.
Qed.

Lemma of_document_with_aliases (sys : Sys) (p : t) :
  of_document sys (with_aliases (to_dict p)) = Ok (persisted p).
Proof.
  unfold of_document, with_aliases, to_dict. repeat decode.
  rewrite (load_each_map _ _ _ _ load_social_to_dict). cbn.
  rewrite (load_each_map _ _ _ _ load_facette_to_dict). cbn.
  reflexivity.
Qed.

Lemma load_of_file (sys : Sys) (path : string) (doc : json)
    (fs : gmap string file) :
  fs !! path = Some (FJson doc) ->
  load sys path fs = (fs, of_document sys doc).
Proof.
  intros H. unfold load, mbind, ST_bind, read_json. rewrite H. reflexivity.
Qed.

(** C1, as stated, fails: the sources of a facette are not written by
    [save], so a profile whose facette has sources does not load back with
    an identical facette list. *)
Lemma roundtrip_forgets_facette_sources :
  exists q fs,
    (save quiet sourced_profile "profile.json";; load quiet "profile.json") ∅
    = (fs, Ok q)
    /\ name q = name sourced_profile
    /\ facettes q <> facettes sourced_profile.
Proof.
  exists (persisted sourced_profile),
    (<["profile.json" := FJson (to_dict sourced_profile)]> ∅).
  split; [|split].
  - change ((save quiet sourced_profile "profile.json";;
             load quiet "profile.json") ∅)
      with (load quiet "profile.json"
              (<["profile.json" := FJson (to_dict sourced_profile)]> ∅)).
    rewrite load_of_file with (doc := to_dict sourced_profile).
    + by rewrite of_document_to_dict.
    + apply lookup_insert_eq.
  - reflexivity.
  - discriminate.
Qed.

(** C1, amended: after a successful [save], [load] of the same path gives a
    profile with the same name, professions, bio, location and keyword
    list, and the same facette list except that each facette's sources,
    which [save] does not write, are empty; the same document with the key
    professions spelled occupations and the key bio spelled biography loads
    as the same profile. *)
Theorem save_load_roundtrip (sys : Sys) (p : t) (path : string)
    (fs fs' : gmap string file) :
  save sys p path fs = (fs', Ok tt) ->
  exists q,
    load sys path fs' = (fs', Ok q)
    /\ name q = name p
    /\ professions q = professions p
    /\ bio q = bio p
    /\ location q = location p
    /\ keywords q = keywords p
    /\ facettes q = persisted_facette <$> facettes p
    /\ load sys path (<[path := FJson (with_aliases (to_dict p))]> fs')
       = (<[path := FJson (with_aliases (to_dict p))]> fs', Ok q).
Proof.
  unfold save, write. intros H.
  destruct (write_error sys path); [discriminate|].
  injection H as <-. exists (persisted p).
  split; [|repeat split].
  - rewrite load_of_file with (doc := to_dict p).
    + by rewrite of_document_to_dict.
    + apply lookup_insert_eq.
  - rewrite load_of_file with (doc := with_aliases (to_dict p)).
    + by rewrite of_document_with_aliases.
    + apply lookup_insert_eq.
Qed.

Lemma save_load_roundtrip_witness :
  save quiet sourced_profile "profile.json" ∅
  = (<["profile.json" := FJson (to_dict sourced_profile)]> ∅, Ok tt)
  /\ exists q,
       load quiet "profile.json"
         (<["profile.json" := FJson (to_dict sourced_profile)]> ∅)
       = (<["profile.json" := FJson (to_dict sourced_profile)]> ∅, Ok q)
       /\ name q = "John Doe"
       /\ professions q = ["painter"].
Proof.
  split; [reflexivity|].
  destruct (save_load_roundtrip quiet sourced_profile "profile.json" ∅ _
              eq_refl) as (q & Hload & Hname & Hprof & _).
  exists q. auto.
Defined.

End ProfileSpec.

(** ** The orchestrator *)
Module OrchestratorSpec.
Import PyStr Json FS Orchestrator.

Section Run.
Variable w : World.
Variable config : PipelineConfig.

Lemma run_as_loop (skip_research : bool) (st : State) :
  run w config skip_research st
  = let '(st', ok) :=
      run_phases w config (plan config skip_research)
        (start config skip_research st) in
    if ok then fst (update_result (set_success true) st') else st'.
Proof.
  unfold run, plan, start.
  destruct skip_research; cbn [negb app];
    destruct (has_audio_source config); cbn [app run_phases];
    unfold run_phase, run_research, run_audio, run_documentation,
      run_persona, phase_body;
    repeat match goal with
      | |- context [try_phase ?ph ?b ?s] =>
          destruct (try_phase ph b s) as [? []]; cbn [negb]
      end; reflexivity.
Qed.

(** *** How the phase bodies treat the result record *)

Lemma keeps_io {A} (c : IO A) : keeps_result (io c).
Proof. intros st. unfold io. by destruct (c (files st)). Qed.

Lemma keeps_pure {A} (o : outcome A) : keeps_result (pure_outcome o : M A).
Proof. by intros st. Qed.

Lemma keeps_raise {A} (msg : string) : keeps_result (raise msg : M A).
Proof. by intros st. Qed.

Lemma keeps_ret {A} (a : A) : keeps_result (mret a : M A).
Proof. by intros st. Qed.

Lemma keeps_bind {A B} (c : M A) (k : A -> M B) :
  keeps_result c -> (forall a, keeps_result (k a)) -> keeps_result (c ≫= k).
Proof.
  intros Hc Hk st. unfold mbind, ST_bind.
  destruct (Hc st) as [Hr He]. destruct (c st) as [st1 [a|msg]]; [|done].
  destruct (Hk a st1) as [Hr' He']. simpl in *. split; congruence.
Qed.

Lemma ends_ret {A} R (a : A) : ends_with R (mret a : M A).
Proof. intros st. split; [done | by left]. Qed.

Lemma ends_raise {A} R (msg : string) : ends_with R (raise msg : M A).
Proof. by intros st. Qed.

Lemma ends_bind {A B} R (c : M A) (k : A -> M B) :
  keeps_result c -> (forall a, ends_with R (k a)) -> ends_with R (c ≫= k).
Proof.
  intros Hc Hk st. unfold mbind, ST_bind.
  destruct (Hc st) as [Hr He]. destruct (c st) as [st1 [a|msg]]; [|done].
  destruct (Hk a st1) as [He' Hr']. simpl in *. split; [congruence|].
  destruct (snd (k a st1)); [|congruence].
  destruct Hr' as [Hr'|Hr']; [left; congruence | right; by rewrite <- Hr].
Qed.

Lemma ends_update (R : PipelineResult -> PipelineResult -> Prop) f :
  (forall r, R r (f r)) -> ends_with R (update_result f).
Proof. intros HR st. split; [done | right; apply HR]. Qed.

Lemma ends_update2 (R : PipelineResult -> PipelineResult -> Prop) f g :
  (forall r, R r (g (f r))) ->
  ends_with R (update_result f;; update_result g).
Proof. intros HR st. split; [done | right; apply HR]. Qed.

Lemma research_body_ends (api_key : option string) :
  ends_with (updated config Research) (research_body w config api_key).
Proof.
  unfold research_body.
  apply ends_bind; [apply keeps_pure | intros key].
  apply ends_bind; [apply keeps_pure | intros results]. cbv zeta.
  apply ends_bind; [apply keeps_io | intros _].
  apply ends_update2. by intros r.
Qed.

Lemma audio_source_keeps : keeps_result (audio_source w config).
Proof.
  unfold audio_source.
  destruct (truthy_opt (audio_url config)).
  - apply keeps_bind; [apply keeps_pure | intros r].
    destruct (negb _); [apply keeps_raise | apply keeps_ret].
  - destruct (truthy_opt (audio_file config)); [|apply keeps_ret].
    cbv zeta. apply keeps_bind; [apply keeps_io | intros there].
    destruct (negb there); [apply keeps_raise | apply keeps_ret].
Qed.

Lemma audio_body_ends : ends_with (updated config Audio) (audio_body w config).
Proof.
  unfold audio_body.
  apply ends_bind; [apply audio_source_keeps | intros [p|]];
    [|apply ends_ret].
  apply ends_bind; [apply keeps_pure | intros r].
  destruct (negb _); [apply ends_raise|].
  apply ends_update2. intros r0. by eexists.
Qed.

Lemma documentation_body_ends :
  ends_with (updated config Documentation) (documentation_body w config).
Proof.
  unfold documentation_body. cbv zeta.
  apply ends_bind; [apply keeps_io | intros there].
  destruct (negb there); [apply ends_ret|].
  apply ends_bind; [apply keeps_io | intros profile].
  apply ends_bind; [apply keeps_io | intros _].
  apply ends_bind; [apply keeps_io | intros _].
  apply ends_bind.
  - destruct (PersonProfile.facettes profile); [apply keeps_ret|].
    apply keeps_bind; [apply keeps_io | intros; apply keeps_ret].
  - intros _. apply ends_update. by intros r.
Qed.

Lemma persona_body_ends :
  ends_with (updated config Persona) (persona_body w config).
Proof.
  unfold persona_body. cbv zeta.
  apply ends_bind; [apply keeps_io | intros there].
  destruct (negb there); [apply ends_ret|].
  apply ends_bind; [apply keeps_io | intros profile].
  apply ends_bind; [apply keeps_io | intros _].
  apply ends_bind; [apply keeps_io | intros _].
  apply ends_update2. by intros r.
Qed.

Lemma phase_body_ends (ph : Phase) :
  ends_with (updated config ph) (phase_body w config ph).
Proof.
  destruct ph; simpl.
  - apply research_body_ends.
  - apply audio_body_ends.
  - apply documentation_body_ends.
  - apply persona_body_ends.
Qed.

Lemma updated_fields (ph : Phase) (r r' : PipelineResult) :
  updated config ph r r' ->
  steps_completed r' = steps_completed r ++ [step_name ph]
  /\ success r' = success r
  /\ error r' = error r
  /\ (ph <> Research -> profile_path r' = profile_path r).
Proof.
  destruct ph; simpl.
  - intros ->. by repeat split.
  - intros [v ->]. by repeat split.
  - intros ->. by repeat split.
  - intros ->. by repeat split.
Qed.

(** A phase method enters its phase, and then either returns [True], the
    record untouched or updated, or returns [False], the error recorded. *)
Lemma run_phase_spec (ph : Phase) (st : State) :
  entered (fst (run_phase w config ph st)) = entered st ++ [ph]
  /\ if snd (run_phase w config ph st)
     then result (fst (run_phase w config ph st)) = result st
          \/ updated config ph (result st)
               (result (fst (run_phase w config ph st)))
     else exists msg,
            snd (phase_body w config ph (enter ph st)) = Raise msg
            /\ result (fst (run_phase w config ph st))
               = set_error msg (result st).
Proof.
  unfold run_phase, try_phase.
  destruct (phase_body_ends ph (enter ph st)) as [He Hr].
  destruct (phase_body w config ph (enter ph st)) as [st1 [a|msg]];
    simpl in *.
  - split; [done|]. exact Hr.
  - split; [done|]. exists msg. by rewrite Hr.
Qed.

Lemma run_phases_app (a b : list Phase) (st : State) :
  run_phases w config (a ++ b) st
  = let '(st', ok) := run_phases w config a st in
    if ok then run_phases w config b st' else (st', false).
Proof.
  revert st. induction a as [|ph a IH]; intros st; simpl.
  - by destruct (run_phases w config b st).
  - destruct (run_phase w config ph st) as [st1 []]; [apply IH | done].
Qed.

(** While the phases return [True], the flags are kept and the steps
    recorded are steps of the phases gone through. *)
Lemma run_phases_ok (phases : list Phase) (st st' : State) :
  run_phases w config phases st = (st', true) ->
  entered st' = entered st ++ phases
  /\ success (result st') = success (result st)
  /\ error (result st') = error (result st)
  /\ (Research ∉ phases ->
      profile_path (result st') = profile_path (result st))
  /\ (forall s, s ∈ steps_completed (result st') ->
        s ∈ steps_completed (result st)
        \/ exists ph, ph ∈ phases /\ s = step_name ph).
Proof.
  revert st. induction phases as [|ph phases IH]; intros st; simpl.
  - intros [= <-]. rewrite app_nil_r. repeat split; auto.
  - pose proof (run_phase_spec ph st) as [He Hr].
    destruct (run_phase w config ph st) as [st1 []]; [|done].
    simpl in *. intros H. apply IH in H as (He' & Hs & Herr & Hp & Hsteps).
    assert (steps_completed (result st1) = steps_completed (result st)
            \/ steps_completed (result st1)
               = steps_completed (result st) ++ [step_name ph]) as Hst.
    { destruct Hr as [->|Hr]; [by left|].
      right. by apply updated_fields in Hr as (? & _). }
    assert (success (result st1) = success (result st)
            /\ error (result st1) = error (result st)
            /\ (ph <> Research ->
                profile_path (result st1) = profile_path (result st)))
      as (Hs1 & Herr1 & Hp1).
    { destruct Hr as [->|Hr]; [done|].
      by apply updated_fields in Hr as (_ & ? & ? & ?). }
    repeat split.
    + rewrite He', He, <- app_assoc. done.
    + congruence.
    + congruence.
    + intros Hnot. rewrite Hp, Hp1; [done|..].
      * intros ->. apply Hnot. left.
      * intros Hin. apply Hnot. by right.
    + intros s Hin. destruct (Hsteps s Hin) as [Hin1|(q & Hq & ->)].
      * destruct Hst as [Hst|Hst]; rewrite Hst in Hin1.
        -- by left.
        -- apply elem_of_app in Hin1 as [?|Hin1]; [by left|].
           apply list_elem_of_singleton in Hin1 as ->.
           right. exists ph. split; [left | done].
      * right. exists q. split; [by right | done].
Qed.

(** Whatever the phases return, success is not set by them, only the
    research phase sets the profile path, and the steps recorded are steps of
    the phases gone through. *)
Lemma run_phases_frame (phases : list Phase) (st : State) :
  success (result (fst (run_phases w config phases st)))
  = success (result st)
  /\ (Research ∉ phases ->
      profile_path (result (fst (run_phases w config phases st)))
      = profile_path (result st))
  /\ (forall s,
        s ∈ steps_completed (result (fst (run_phases w config phases st))) ->
        s ∈ steps_completed (result st)
        \/ exists ph, ph ∈ phases /\ s = step_name ph).
Proof.
  revert st. induction phases as [|ph phases IH]; intros st; simpl.
  - repeat split; auto.
  - pose proof (run_phase_spec ph st) as [He Hr].
    destruct (run_phase w config ph st) as [st1 []]; simpl in *.
    + destruct (IH st1) as (Hs & Hp & Hsteps).
      assert (success (result st1) = success (result st)
              /\ (ph <> Research ->
                  profile_path (result st1) = profile_path (result st))
              /\ (steps_completed (result st1) = steps_completed (result st)
                  \/ steps_completed (result st1)
                     = steps_completed (result st) ++ [step_name ph]))
        as (Hs1 & Hp1 & Hst).
      { destruct Hr as [->|Hr]; [by auto|].
        apply updated_fields in Hr as (? & ? & ? & ?). auto. }
      repeat split.
      * congruence.
      * intros Hnot. rewrite Hp, Hp1; [done|..].
        -- intros ->. apply Hnot. left.
        -- intros Hin. apply Hnot. by right.
      * intros s Hin. destruct (Hsteps s Hin) as [Hin1|(q & Hq & ->)].
        -- destruct Hst as [Hst|Hst]; rewrite Hst in Hin1.
           ++ by left.
           ++ apply elem_of_app in Hin1 as [?|Hin1]; [by left|].
              apply list_elem_of_singleton in Hin1 as ->.
              right. exists ph. split; [left | done].
        -- right. exists q. split; [by right | done].
    + destruct Hr as (msg & _ & ->). simpl. repeat split; auto.
Qed.

Lemma step_name_inj (p q : Phase) : step_name p = step_name q -> p = q.
Proof. by destruct p, q. Qed.

(** The plan lists the phases in their fixed order. *)
Lemma plan_ordered (skip_research : bool) (before after : list Phase)
    (ph : Phase) :
  plan config skip_research = before ++ ph :: after ->
  forall p, p ∈ before -> rank p < rank ph.
Proof.
  unfold plan.
  destruct skip_research, (has_audio_source config); simpl; intros H;
    repeat (destruct before as [|? before]; simpl in H;
            [injection H as <- <- | injection H as <- H]);
    try (by destruct before);
    intros p Hp; repeat (apply elem_of_cons in Hp as [->|Hp]; [simpl; lia|]);
    by apply elem_of_nil in Hp.
Qed.

Lemma init_result (fs : gmap string file) (skip_research : bool) :
  let st := start config skip_research (init config fs) in
  entered st = [] /\ success (result st) = false
  /\ error (result st) = None /\ steps_completed (result st) = []
  /\ files st = fs.
Proof. by destruct skip_research. Qed.

(** C2, amended: when a phase raises, [run] returns a result with
    [success=False], an error string equal to the string form of the
    exception (empty when that form is empty), and no step at or after the
    failing phase among the completed ones; the failing phase is the last
    one entered, the run ends in the state that phase left, and the phases
    after it in the plan are not entered. *)
Theorem run_stops_at_failure (skip_research : bool) (fs : gmap string file)
    (ph : Phase) (msg : string) :
  raises_in_run w config skip_research fs ph msg ->
  let final := run w config skip_research (init config fs) in
  success (result final) = false
  /\ error (result final) = Some msg
  /\ (forall q, rank ph <= rank q ->
        step_name q ∉ steps_completed (result final))
  /\ last (entered final) = Some ph
  /\ exists after, plan config skip_research = entered final ++ after.
Proof.
  intros (before & after & st & Hplan & Hbefore & Hraise). cbv zeta.
  rewrite run_as_loop, Hplan, run_phases_app, Hbefore.
  cbn [run_phases].
  pose proof (run_phase_spec ph st) as [He Hr].
  assert (snd (run_phase w config ph st) = false) as Hfalse.
  { unfold run_phase, try_phase.
    destruct (phase_body w config ph (enter ph st)) as [? []]; simpl in *;
      congruence. }
  rewrite Hfalse in Hr. destruct Hr as (msg' & Hmsg' & Hres).
  assert (msg' = msg) as -> by congruence.
  destruct (run_phase w config ph st) as [st' ok]; simpl in *. subst ok.
  apply run_phases_ok in Hbefore as (Hent & Hs & Herr & _ & Hsteps).
  destruct (init_result fs skip_research) as (He0 & Hs0 & _ & Hst0 & _).
  rewrite Hres. simpl. repeat split.
  - congruence.
  - intros q Hq Hin. apply Hsteps in Hin as [Hin|(p & Hp & Heq)].
    + rewrite Hst0 in Hin. by apply elem_of_nil in Hin.
    + apply step_name_inj in Heq as ->.
      pose proof (plan_ordered _ _ _ _ Hplan p Hp). lia.
  - rewrite He. apply last_snoc.
  - exists after. rewrite He, Hent, He0, <- app_assoc. done.
Qed.

Lemma documentation_without_profile (st : State) :
  files st !! PyPath.str (conventional_profile_path config) = None ->
  run_documentation w config st = (enter Documentation st, true).
Proof.
  intros H. unfold run_documentation, try_phase, documentation_body.
  cbv zeta. unfold mbind, ST_bind, io, exists_.
  change (files (enter Documentation st)) with (files st).
  unfold conventional_profile_path in H. rewrite H.
  rewrite bool_decide_eq_false_2; [reflexivity|]. by intros [? ?].
Qed.

Lemma persona_without_profile (st : State) :
  files st !! PyPath.str (conventional_profile_path config) = None ->
  run_persona w config st = (enter Persona st, true).
Proof.
  intros H. unfold run_persona, try_phase, persona_body.
  cbv zeta. unfold mbind, ST_bind, io, exists_.
  change (files (enter Persona st)) with (files st).
  unfold conventional_profile_path in H. rewrite H.
  rewrite bool_decide_eq_false_2; [reflexivity|]. by intros [? ?].
Qed.

(** The audio phase reads the files and writes none of those tracked. *)
Lemma run_audio_files (st : State) :
  files (fst (run_audio w config st)) = files st.
Proof.
  unfold run_audio, try_phase, audio_body, audio_source, mbind, ST_bind,
    pure_outcome, raise, io, exists_, update_result, mret, ST_ret.
  repeat case_match; simplify_eq; reflexivity.
Qed.

Lemma plan_without_audio (skip_research : bool) :
  has_audio_source config = false -> Audio ∉ plan config skip_research.
Proof.
  unfold plan. intros ->. destruct skip_research; simpl; intros Hin;
    repeat (apply elem_of_cons in Hin as [?|Hin]; [discriminate|]);
    by apply elem_of_nil in Hin.
Qed.

(** C3: without an audio URL and without an audio file, the steps of the
    result do not contain the audio step, and the run succeeds when the
    research (unless skipped), documentation and persona phases each return
    [True]. *)
Theorem run_without_audio (skip_research : bool) (fs : gmap string file) :
  has_audio_source config = false ->
  let st0 := start config skip_research (init config fs) in
  let final := run w config skip_research (init config fs) in
  ("audio" ∉ steps_completed (result final))
  /\ (forall st1 st2 st3,
        (if skip_research then (st0, true)
         else run_research w config None st0) = (st1, true) ->
        run_documentation w config st1 = (st2, true) ->
        run_persona w config st2 = (st3, true) ->
        success (result final) = true
        /\ final = fst (update_result (set_success true) st3)).
Proof.
  intros Hno. cbv zeta. split.
  - rewrite run_as_loop.
    pose proof (run_phases_frame (plan config skip_research)
                  (start config skip_research (init config fs)))
      as (_ & _ & Hsteps).
    destruct (run_phases w config (plan config skip_research)
                (start config skip_research (init config fs)))
      as [st' ok] eqn:E.
    simpl in Hsteps.
    assert ("audio" ∉ steps_completed (result st')) as Hst'.
    { intros Hin. apply Hsteps in Hin as [Hin|(ph & Hph & Heq)].
      - destruct (init_result fs skip_research) as (_ & _ & _ & H0 & _).
        rewrite H0 in Hin. by apply elem_of_nil in Hin.
      - apply (plan_without_audio skip_research Hno).
        by replace Audio with ph by (by destruct ph). }
    by destruct ok.
  - intros st1 st2 st3 H1 H2 H3. unfold run. rewrite Hno.
    destruct skip_research; cbn [negb].
    + assert (start config true (init config fs) = st1) as Heq by congruence.
      change (fst (update_result _ (init config fs)))
        with (start config true (init config fs)).
      rewrite Heq, H2. cbn [negb]. rewrite H3. cbn [negb]. done.
    + change (start config false (init config fs)) with (init config fs)
        in H1.
      rewrite H1. cbn [negb]. rewrite H2. cbn [negb]. rewrite H3.
      cbn [negb]. done.
Qed.

(** C4: with [skip_research=True] and no profile file, the documentation
    and persona methods return [True] and leave the files and the result
    as they were; the run writes nothing, records neither step, and
    succeeds unless the audio phase fails. *)
Theorem skip_research_without_profile (fs : gmap string file) :
  fs !! PyPath.str (conventional_profile_path config) = None ->
  let final := run w config true (init config fs) in
  (forall st, files st = fs ->
     run_documentation w config st = (enter Documentation st, true)
     /\ run_persona w config st = (enter Persona st, true))
  /\ files final = fs
  /\ ("documentation" ∉ steps_completed (result final))
  /\ ("persona" ∉ steps_completed (result final))
  /\ persona_path (result final) = None
  /\ ((has_audio_source config = false
       \/ snd (run_audio w config (start config true (init config fs)))
          = true)
      -> success (result final) = true /\ error (result final) = None).
Proof.
  intros Hnone. cbv zeta.
  assert (forall st, files st = fs ->
            run_documentation w config st = (enter Documentation st, true)
            /\ run_persona w config st = (enter Persona st, true)) as Hnoop.
  { intros st <-. split;
      [by apply documentation_without_profile
      | by apply persona_without_profile]. }
  split; [exact Hnoop|].
  unfold run. cbn [negb].
  set (st0 := fst (update_result _ (init config fs))).
  assert (files st0 = fs) as Hf0 by reflexivity.
  destruct (has_audio_source config) eqn:Haudio.
  - pose proof (run_audio_files st0) as Hfa.
    pose proof (run_phase_spec Audio st0) as [_ Hr].
    change (run_phase w config Audio st0) with (run_audio w config st0) in Hr.
    change (start config true (init config fs)) with st0.
    destruct (run_audio w config st0) as [st1 ok]. simpl in *.
    destruct ok; cbn [negb].
    + assert (files st1 = fs) as Hf1 by congruence.
      pose proof (Hnoop st1 Hf1) as [Hd _]. rewrite Hd. cbn [negb].
      pose proof (Hnoop (enter Documentation st1) Hf1) as [_ Hp].
      rewrite Hp. cbn [negb]. simpl.
      destruct Hr as [Hr|[v Hr]]; rewrite Hr; simpl;
        repeat split; try done; try (intros _; done);
        intros Hin; repeat (apply elem_of_cons in Hin as [?|Hin];
                              [discriminate|]);
        by apply elem_of_nil in Hin.
    + destruct Hr as (msg & _ & ->). simpl.
      repeat split; try done;
        try (intros Hin; by apply elem_of_nil in Hin);
        match goal with H : _ \/ _ |- _ => by destruct H end.
  - pose proof (Hnoop st0 Hf0) as [Hd _]. rewrite Hd. cbn [negb].
    pose proof (Hnoop (enter Documentation st0) Hf0) as [_ Hp].
    rewrite Hp. cbn [negb]. simpl.
    repeat split; try done; try (intros _; done);
      intros Hin; by apply elem_of_nil in Hin.
Qed.

(** C10: with [skip_research=True] the profile path of the result is set to
    the conventional path before any phase is entered and is the one the run
    returns, whether the file exists or not; without an audio source and
    without a profile file the run succeeds with no step completed and a
    profile path that names no file. *)
Theorem skip_research_sets_profile_path (fs : gmap string file) :
  let st0 := start config true (init config fs) in
  let final := run w config true (init config fs) in
  profile_path (result st0) = Some (conventional_profile_path config)
  /\ entered st0 = []
  /\ profile_path (result final) = Some (conventional_profile_path config)
  /\ (has_audio_source config = false ->
      fs !! PyPath.str (conventional_profile_path config) = None ->
      success (result final) = true
      /\ steps_completed (result final) = []
      /\ files final !! PyPath.str (conventional_profile_path config) = None).
Proof.
  cbv zeta. split; [reflexivity|]. split; [reflexivity|]. split.
  - rewrite run_as_loop.
    pose proof (run_phases_frame (plan config true)
                  (start config true (init config fs))) as (_ & Hp & _).
    destruct (run_phases w config (plan config true)
                (start config true (init config fs))) as [st' ok].
    simpl in Hp.
    assert (Research ∉ plan config true) as Hnot.
    { unfold plan. simpl. destruct (has_audio_source config); simpl;
        intros Hin;
        repeat (apply elem_of_cons in Hin as [?|Hin]; [discriminate|]);
        by apply elem_of_nil in Hin. }
    specialize (Hp Hnot). by destruct ok.
  - intros Haudio Hnone. unfold run. cbn [negb]. rewrite Haudio.
    set (st0 := fst (update_result _ (init config fs))).
    rewrite (documentation_without_profile st0) by done. cbn [negb].
    rewrite (persona_without_profile (enter Documentation st0)) by done.
    cbn [negb]. by repeat split.
Qed.

End Run.

Lemma run_without_audio_witness :
  has_audio_source john_doe = false
  /\ ("audio" ∉ steps_completed
                  (result (run (stub_world (Ok one_result)) john_doe false
                             (init john_doe ∅)))).
Proof.
  split; [reflexivity|].
  exact (proj1 (run_without_audio (stub_world (Ok one_result)) john_doe
                  false ∅ eq_refl)).
Defined.

Lemma skip_research_without_profile_witness :
  (∅ : gmap string file)
    !! PyPath.str (conventional_profile_path john_doe) = None
  /\ files (run (stub_world (Ok one_result)) john_doe true
              (init john_doe ∅)) = ∅.
Proof.
  assert ((∅ : gmap string file)
            !! PyPath.str (conventional_profile_path john_doe) = None) as H
    by reflexivity.
  split; [exact H|].
  exact (proj1 (proj2 (skip_research_without_profile
                         (stub_world (Ok one_result)) john_doe ∅ H))).
Defined.

Lemma skip_research_sets_profile_path_witness :
  has_audio_source john_doe = false
  /\ (∅ : gmap string file)
       !! PyPath.str (conventional_profile_path john_doe) = None
  /\ success (result (run (stub_world (Ok one_result)) john_doe true
                        (init john_doe ∅))) = true
  /\ steps_completed (result (run (stub_world (Ok one_result)) john_doe true
                                (init john_doe ∅))) = [].
Proof.
  assert ((∅ : gmap string file)
            !! PyPath.str (conventional_profile_path john_doe) = None) as H
    by reflexivity.
  split; [reflexivity|]. split; [exact H|].
  destruct (proj2 (proj2 (proj2 (skip_research_sets_profile_path
                                   (stub_world (Ok one_result)) john_doe ∅)))
              eq_refl H) as (Hs & Hst & _).
  split; [exact Hs | exact Hst].
Defined.

(** *** The subject directory *)

Lemma replace_lower_commute (s : string) :
  lower (replace_char " " "_" s) = replace_char " " "_" (lower s).
Proof.
  induction s as [|c s IH]; simpl; [done|]. rewrite IH. f_equal.
  destruct c as [[] [] [] [] [] [] [] []]; reflexivity.
Qed.

Lemma replace_char_idem (s : string) :
  replace_char " " "_" (replace_char " " "_" s) = replace_char " " "_" s.
Proof.
  induction s as [|c s IH]; simpl; [done|]. rewrite IH. f_equal.
  destruct (Ascii.eqb c " ") eqn:E; [reflexivity|]. by rewrite E.
Qed.

(** Case and the choice between a space and an underscore do not tell two
    names apart. *)
Lemma safe_name_lower (name : string) :
  safe_name (lower name) = safe_name name.
Proof. unfold safe_name. by rewrite PyStrFacts.lower_idem. Qed.

Lemma safe_name_underscores (name : string) :
  safe_name (replace_char " " "_" name) = safe_name name.
Proof.
  unfold safe_name. by rewrite replace_lower_commute, replace_char_idem.
Qed.

(** C6: the subject directory is the data directory joined with the
    subject name lowercased and with its spaces replaced by underscores;
    two names that are identical after this normalization map to the same
    directory. *)
Theorem get_subject_dir_normalized (c1 c2 : PipelineConfig) :
  data_dir c1 = data_dir c2 ->
  safe_name (subject_name c1) = safe_name (subject_name c2) ->
  get_subject_dir c1 = get_subject_dir c2
  /\ get_subject_dir c1
     = PyPath.parse (data_dir c1)
       // replace_char " " "_" (lower (subject_name c1)).
Proof.
  intros Hd Hn. split; [|reflexivity].
  unfold get_subject_dir. by rewrite Hd, Hn.
Qed.

Lemma get_subject_dir_normalized_witness :
  safe_name "John Doe" = safe_name "john_doe"
  /\ get_subject_dir john_doe
     = get_subject_dir (make_config "john_doe" None None None)
  /\ PyPath.str (get_subject_dir john_doe) = "data/subjects/john_doe".
Proof.
  split; [reflexivity|]. split; [|reflexivity].
  exact (proj1 (get_subject_dir_normalized john_doe
                  (make_config "john_doe" None None None)
                  eq_refl eq_refl)).
Defined.

(** *** The example scenario *)

Lemma bind_ok {S A B} (c : ST S A) (k : A -> ST S B) (st st' : S) (a : A) :
  c st = (st', Ok a) -> (c ≫= k) st = k a st'.
Proof. intros H. unfold mbind, ST_bind. by rewrite H. Qed.

Lemma io_ok {A} (c : IO A) (st : State) (fs' : gmap string file) (a : A) :
  c (files st) = (fs', Ok a) ->
  io c st
  = ({| files := fs'; result := result st; entered := entered st |}, Ok a).
Proof. intros H. unfold io. by rewrite H. Qed.

Lemma search_name (sys : Sys) (tv : Searcher.Tavily) (key name : string)
    (context : option string) (r : Searcher.PersonSearchResults) :
  Searcher.search sys tv key name context = Ok r -> Searcher.name r = name.
Proof.
  unfold Searcher.search, mbind, outcome_bind. intros H.
  repeat case_match; simplify_eq; reflexivity.
Qed.

Lemma ensure_template_ok (sys0 : Sys) (file_name content : string)
    (fs : gmap string file) :
  (forall path, write_error sys0 path = None) ->
  exists fs',
    DocumentGenerator.ensure_template sys0 file_name content fs
    = (fs', Ok tt)
    /\ forall path f, fs !! path = Some f -> fs' !! path = Some f.
Proof.
  intros Hw. unfold DocumentGenerator.ensure_template. cbv zeta.
  unfold mbind, ST_bind, exists_.
  set (path := PyPath.str _).
  destruct (bool_decide (is_Some (fs !! path))) eqn:E; cbn [negb].
  - exists fs. by split.
  - unfold write. rewrite Hw. eexists. split; [reflexivity|].
    intros path' f Hf. rewrite lookup_insert_ne; [done|].
    intros <-. apply bool_decide_eq_false_1 in E. apply E. by eexists.
Qed.

Lemma generator_init_ok (sys0 : Sys) (jinja0 : DocumentGenerator.Jinja)
    (fs : gmap string file) :
  (forall path, write_error sys0 path = None) ->
  DocumentGenerator.HAS_JINJA jinja0 = true ->
  exists fs',
    DocumentGenerator.init sys0 jinja0 fs = (fs', Ok tt)
    /\ forall path f, fs !! path = Some f -> fs' !! path = Some f.
Proof.
  intros Hw Hj. unfold DocumentGenerator.init. rewrite Hj. cbn [negb].
  unfold DocumentGenerator._ensure_default_templates.
  destruct (ensure_template_ok sys0 "profile.md.j2"
              DocumentGenerator.DEFAULT_PROFILE_TEMPLATE fs Hw)
    as (fs1 & H1 & K1).
  destruct (ensure_template_ok sys0 "facettes.md.j2"
              DocumentGenerator.DEFAULT_FACETTES_TEMPLATE fs1 Hw)
    as (fs2 & H2 & K2).
  destruct (ensure_template_ok sys0 "system_prompt.md.j2"
              DocumentGenerator.DEFAULT_PROMPT_TEMPLATE fs2 Hw)
    as (fs3 & H3 & K3).
  exists fs3. split; [|by auto].
  rewrite (bind_ok _ _ _ _ _ H1), (bind_ok _ _ _ _ _ H2). exact H3.
Qed.

Lemma generate_profile_ok (sys0 : Sys) (jinja0 : DocumentGenerator.Jinja)
    (profile : PersonProfile.t) (output_path : string)
    (fs : gmap string file) :
  (forall path, write_error sys0 path = None) ->
  (forall template p t,
     exists c, DocumentGenerator.render_profile jinja0 template p t = Ok c) ->
  truthy output_path = true ->
  exists c,
    DocumentGenerator.generate_profile sys0 jinja0 profile output_path fs
    = (<[PyPath.str (PyPath.parse output_path) := FText c]> fs, Ok c).
Proof.
  intros Hw Hr Ht. unfold DocumentGenerator.generate_profile.
  unfold mbind, ST_bind, peek, pure_outcome.
  destruct (Hr (fs !! PyPath.str
                  (DocumentGenerator.templates_dir // "profile.md.j2"))
              profile (now_iso sys0)) as [c Hc].
  rewrite Hc, Ht. unfold write. rewrite Hw. by exists c.
Qed.

Section Scenario.
Variable w : World.
Variable context : option string.
Variable key : string.
Variable results : Searcher.PersonSearchResults.
Hypothesis searcher_ready : Searcher.init (tavily w) None = Ok key.
Hypothesis search_answers :
  Searcher.search (sys w) (tavily w) key "John Doe" context = Ok results.
Hypothesis writes_succeed : forall path, write_error (sys w) path = None.
Hypothesis jinja_installed : DocumentGenerator.HAS_JINJA (jinja w) = true.
Hypothesis profile_renders :
  forall template p t,
    exists c,
      DocumentGenerator.render_profile (jinja w) template p t = Ok c.

Lemma scenario_research (st : State) :
  run_research w (john_doe_in context) None st
  = ({| files :=
          <["data/subjects/john_doe/research/profile.json" :=
              FJson (PersonProfile.to_dict
                       (InfoExtractor.extract_profile (sys w) results))]>
            (files st);
        result :=
          append_step "research"
            (set_profile_path
               (conventional_profile_path (john_doe_in context))
               (result st));
        entered := entered st ++ [Research] |}, true).
Proof.
  unfold run_research, try_phase, research_body. cbv zeta.
  rewrite (bind_ok _ _ (enter Research st) (enter Research st) key)
    by (unfold pure_outcome; by rewrite searcher_ready).
  rewrite (bind_ok _ _ (enter Research st) (enter Research st) results)
    by (unfold pure_outcome; cbn [subject_name subject_context john_doe_in
                                   make_config];
        by rewrite search_answers).
  unfold mbind, ST_bind, io, PersonProfile.save, write.
  rewrite writes_succeed. reflexivity.
Qed.

Lemma scenario_documentation (st : State) (profile : PersonProfile.t) :
  files st !! "data/subjects/john_doe/research/profile.json"
  = Some (FJson (PersonProfile.to_dict profile)) ->
  PersonProfile.facettes profile = [] ->
  exists fs',
    run_documentation w (john_doe_in context) st
    = ({| files := fs';
          result := append_step "documentation" (result st);
          entered := entered st ++ [Documentation] |}, true)
    /\ fs' !! "data/subjects/john_doe/research/profile.json"
       = Some (FJson (PersonProfile.to_dict profile)).
Proof.
  intros Hfile Hfac.
  destruct (generator_init_ok (sys w) (jinja w) (files st) writes_succeed
              jinja_installed) as (fs1 & Hinit & Hkeep).
  destruct (generate_profile_ok (sys w) (jinja w)
              (PersonProfile.persisted profile)
              "data/subjects/john_doe/docs/profile.md" fs1
              writes_succeed profile_renders eq_refl) as (c & Hgen).
  eexists. split.
  - unfold run_documentation, try_phase, documentation_body. cbv zeta.
    change (PyPath.str
              (the_subject_dir (john_doe_in context) // "research"
               // "profile.json"))
      with "data/subjects/john_doe/research/profile.json".
    change (PyPath.str
              (the_subject_dir (john_doe_in context) // "docs"
               // "profile.md"))
      with "data/subjects/john_doe/docs/profile.md".
    erewrite bind_ok; cycle 1.
    { apply io_ok. unfold exists_. simpl (files _). rewrite Hfile.
      rewrite bool_decide_eq_true_2 by (by eexists). reflexivity. }
    cbn [negb].
    erewrite bind_ok; cycle 1.
    { apply io_ok. simpl (files _).
      rewrite (ProfileSpec.load_of_file _ _ _ _ Hfile).
      by rewrite ProfileSpec.of_document_to_dict. }
    erewrite bind_ok; cycle 1.
    { apply io_ok. simpl (files _). exact Hinit. }
    erewrite bind_ok; cycle 1.
    { apply io_ok. simpl (files _). exact Hgen. }
    simpl (PersonProfile.facettes _). rewrite Hfac. simpl.
    reflexivity.
  - simpl. rewrite lookup_insert_ne by done. by apply Hkeep.
Qed.

Lemma scenario_persona (st : State) (profile : PersonProfile.t) :
  files st !! "data/subjects/john_doe/research/profile.json"
  = Some (FJson (PersonProfile.to_dict profile)) ->
  exists fs',
    run_persona w (john_doe_in context) st
    = ({| files := fs';
          result :=
            append_step "persona"
              (set_persona_path
                 (the_subject_dir (john_doe_in context) // "persona.json")
                 (result st));
          entered := entered st ++ [Persona] |}, true)
    /\ fs' !! "data/subjects/john_doe/persona.json"
       = Some (FJson (PersonaPrompt.data
                        (PromptGenerator.generate
                           (PersonProfile.persisted profile) "" None))).
Proof.
  intros Hfile. eexists. split.
  - unfold run_persona, try_phase, persona_body. cbv zeta.
    change (PyPath.str
              (the_subject_dir (john_doe_in context) // "research"
               // "profile.json"))
      with "data/subjects/john_doe/research/profile.json".
    change (PyPath.str
              (the_subject_dir (john_doe_in context) // "persona.json"))
      with "data/subjects/john_doe/persona.json".
    change (PyPath.str
              (the_subject_dir (john_doe_in context) // "system_prompt.txt"))
      with "data/subjects/john_doe/system_prompt.txt".
    erewrite bind_ok; cycle 1.
    { apply io_ok. unfold exists_. simpl (files _). rewrite Hfile.
      rewrite bool_decide_eq_true_2 by (by eexists). reflexivity. }
    cbn [negb].
    erewrite bind_ok; cycle 1.
    { apply io_ok. simpl (files _).
      rewrite (ProfileSpec.load_of_file _ _ _ _ Hfile).
      by rewrite ProfileSpec.of_document_to_dict. }
    erewrite bind_ok; cycle 1.
    { apply io_ok. simpl (files _). unfold PersonaPrompt.save, write.
      rewrite writes_succeed. reflexivity. }
    erewrite bind_ok; cycle 1.
    { apply io_ok. simpl (files _). unfold write.
      rewrite writes_succeed. reflexivity. }
    reflexivity.
  - simpl. rewrite lookup_insert_ne by done. apply lookup_insert_eq.
Qed.

(** C5: for the subject "John Doe" without an audio source, when the
    search answers and its profile is saved, the subject directory is
    data/subjects/john_doe, the completed steps are research, documentation
    and persona in that order, and the persona path names an existing
    persona.json whose top-level name is the string "John Doe" as given. *)
Theorem john_doe_scenario (fs : gmap string file) :
  let final := create_human w fs "John Doe" context None None false in
  PyPath.str (subject_dir (result final)) = "data/subjects/john_doe"
  /\ steps_completed (result final)
     = ["research"; "documentation"; "persona"]
  /\ success (result final) = true
  /\ exists p doc,
       persona_path (result final) = Some p
       /\ PyPath.str p = "data/subjects/john_doe/persona.json"
       /\ PyPath.name p = "persona.json"
       /\ files final !! PyPath.str p = Some (FJson (JObj doc))
       /\ find_key "name" doc = Some (JStr "John Doe").
Proof.
  cbv zeta. unfold create_human.
  change (make_config "John Doe" context None None)
    with (john_doe_in context).
  unfold run. cbn [negb]. rewrite scenario_research. cbn [negb].
  change (has_audio_source (john_doe_in context)) with false.
  cbv iota.
  set (profile := InfoExtractor.extract_profile (sys w) results).
  match goal with
  | |- context [run_documentation _ _ ?st] =>
      destruct (scenario_documentation st profile) as (fs2 & Hdoc & Hfile2);
      [apply lookup_insert_eq | reflexivity |]; rewrite Hdoc
  end.
  cbn [negb].
  match goal with
  | |- context [run_persona _ _ ?st] =>
      destruct (scenario_persona st profile) as (fs3 & Hper & Hfile3);
      [exact Hfile2 |]; rewrite Hper
  end.
  cbn [negb]. simpl.
  repeat split.
  eexists _, _. repeat split.
  - exact Hfile3.
  - simpl. by rewrite (search_name _ _ _ _ _ _ search_answers).
Qed.

End Scenario.

Lemma john_doe_scenario_witness :
  Searcher.init (tavily (stub_world (Ok one_result))) None = Ok "tvly-test"
  /\ Searcher.search (sys (stub_world (Ok one_result)))
       (tavily (stub_world (Ok one_result))) "tvly-test" "John Doe" None
     = Ok one_result_found
  /\ steps_completed
       (result (create_human (stub_world (Ok one_result)) ∅ "John Doe"
                  None None None false))
     = ["research"; "documentation"; "persona"].
Proof.
  split; [reflexivity|]. split; [reflexivity|].
  refine (proj1 (proj2 (john_doe_scenario (stub_world (Ok one_result)) None
                          "tvly-test" one_result_found eq_refl eq_refl
                          (fun _ => eq_refl) eq_refl _ ∅))).
  intros template p t. eexists. reflexivity.
Defined.

Lemma run_stops_at_failure_witness :
  raises_in_run (stub_world (Raise "connection refused")) john_doe false ∅
    Research "connection refused"
  /\ error (result (run (stub_world (Raise "connection refused")) john_doe
                      false (init john_doe ∅)))
     = Some "connection refused".
Proof.
  assert (raises_in_run (stub_world (Raise "connection refused")) john_doe
            false ∅ Research "connection refused") as H.
  { exists [], [Documentation; Persona], (init john_doe ∅).
    repeat split; reflexivity. }
  split; [exact H|].
  exact (proj1 (proj2 (run_stops_at_failure _ _ _ _ _ _ H))).
Defined.

(** C2, as stated, fails: an exception whose string form is empty, raised
    by the search client, leaves an empty error string in the result. *)
Lemma empty_exception_gives_empty_error :
  raises_in_run (stub_world (Raise "")) john_doe false ∅ Research ""
  /\ error (result (run (stub_world (Raise "")) john_doe false
                      (init john_doe ∅))) = Some ""
  /\ ~ (exists e,
          error (result (run (stub_world (Raise "")) john_doe false
                           (init john_doe ∅))) = Some e
          /\ e <> "").
Proof.
  split; [|split].
  - exists [], [Documentation; Persona], (init john_doe ∅).
    repeat split; reflexivity.
  - reflexivity.
  - intros (e & He & Hne). apply Hne.
    assert (error (result (run (stub_world (Raise "")) john_doe false
                             (init john_doe ∅))) = Some "") as H
      by reflexivity.
    congruence.
Qed.

End OrchestratorSpec.

(** ** The avatar *)
Module AvatarSpec.
Import PyStr FS Avatar.

(** [clone_voice] reports every failure through its result. *)
Lemma clone_voice_returns (tts0 : VoiceCloner.TTS)
    (text speaker_wav language output_path : string)
    (fs : gmap string file) :
  exists r,
    snd (VoiceCloner.clone_voice tts0 text speaker_wav language output_path
           fs) = Ok r
    /\ VoiceCloner.text r = text
    /\ (VoiceCloner.success r = true ->
        VoiceCloner.output_path r = Some (PyPath.parse output_path)).
Proof.
  unfold VoiceCloner.clone_voice, VoiceCloner.synthesize,
    VoiceCloner.first_missing, VoiceCloner.failed.
  repeat case_match; simplify_eq; eexists; (split; [reflexivity|]);
    simpl; split; try done.
Qed.

(** C8: with voice synthesis asked for, a cloner built and a reference
    sample configured, [chat] calls the cloner with the generated text; the
    cloner returns a result in every case, and when that result reports a
    failure [chat] still returns the text, with no audio path. *)
Theorem chat_swallows_cloning_failure (w : World) (st : State)
    (message : string) (max_tokens : Z) (language wav : string)
    (response : LlmResponse) :
  voice_cloner (engine st) = true ->
  speaker_wav (engine st) = Some wav ->
  truthy wav = true ->
  llm w (_build_prompt (engine st) message) max_tokens = Ok response ->
  let text := strip (choice_text response) in
  let audio_output :=
    output_dir (engine st)
    // ("response_" +:+ pad4 (S (response_counter (engine st))) +:+ ".wav") in
  let cloning :=
    VoiceCloner.clone_voice (tts w) text wav language
      (PyPath.str audio_output) (files st) in
  exists r resp st',
    snd cloning = Ok r
    /\ VoiceCloner.text r = text
    /\ chat w message max_tokens true language st = (st', Ok resp)
    /\ Avatar.text resp = text
    /\ tokens_used resp = total_tokens response
    /\ audio_path resp
       = (if VoiceCloner.success r then VoiceCloner.output_path r else None)
    /\ (VoiceCloner.success r = false -> audio_path resp = None)
    /\ files st' = fst cloning
    /\ history (engine st')
       = history (engine st)
         ++ [user_turn message; assistant_turn text].
Proof.
  intros Hvc Hwav Htruthy Hllm. cbv zeta.
  destruct (clone_voice_returns (tts w) (strip (choice_text response)) wav
              language
              (PyPath.str
                 (output_dir (engine st)
                  // ("response_"
                      +:+ pad4 (S (response_counter (engine st)))
                      +:+ ".wav")))
              (files st)) as (r & Hr & Htext & _).
  unfold chat, voice_of, mbind, ST_bind, mret, ST_ret, the_engine,
    pure_outcome, update_engine, io.
  rewrite Hllm, Hvc, Hwav. cbn [andb truthy_opt]. rewrite Htruthy.
  cbn [engine files with_history with_counter output_dir response_counter
       speaker_wav default history].
  rewrite Hwav. cbn [default].
  destruct (VoiceCloner.clone_voice _ _ _ _ _ (files st)) as [fs' o].
  simpl in Hr. subst o.
  eexists r, _, _. split; [reflexivity|]. split; [exact Htext|].
  split; [reflexivity|]. cbn.
  repeat split; try done.
  - intros Hs. by rewrite Hs.
  - by rewrite <- app_assoc.
Qed.

Lemma chat_swallows_cloning_failure_witness :
  voice_cloner (engine stub_state) = true
  /\ speaker_wav (engine stub_state) = Some "voice.wav"
  /\ exists resp st',
       chat stub_world "Salut" 512 true "fr" stub_state = (st', Ok resp)
       /\ text resp = "Bonjour a tous !"
       /\ audio_path resp = None.
Proof.
  split; [reflexivity|]. split; [reflexivity|].
  destruct (chat_swallows_cloning_failure stub_world stub_state "Salut" 512
              "fr" "voice.wav"
              {| choice_text := " Bonjour a tous ! "; total_tokens := 42 |}
              eq_refl eq_refl eq_refl eq_refl)
    as (r & resp & st' & Hclone & _ & Hchat & Htext & _ & _ & Hnone & _).
  exists resp, st'. split; [exact Hchat|]. split; [exact Htext|].
  apply Hnone. vm_compute in Hclone. by injection Hclone as <-.
Defined.

(** *** Streaming *)

Lemma consume_finished (w : World) (ops : list Op) (self : AvatarEngine) :
  fst (consume w ops Finished self) = (Finished, self)
  /\ yielded (snd (consume w ops Finished self)) = [].
Proof.
  induction ops as [|[] ops IH]; simpl; [done|..].
  - destruct (consume w ops Finished self) as [[g' self'] ss]. simpl in *.
    destruct IH as [[= -> ->] Hy]. by split.
  - exact IH.
Qed.

Lemma consume_suspended (w : World) (ops : list Op) (message : string)
    (full_response : string) (rest : list string) (failure : option string)
    (self : AvatarEngine) :
  let run := consume w ops (Suspended message full_response rest failure)
               self in
  (snd (fst run) = self /\ exists k, yielded (snd run) = take k rest)
  \/ (failure = None
      /\ yielded (snd run) = rest
      /\ exhausted (snd run) = true
      /\ snd (fst run)
         = with_history
             (history self
              ++ [user_turn message;
                  assistant_turn (strip (full_response +:+ joined rest))])
             self).
Proof.
  cbv zeta. revert full_response rest.
  induction ops as [|[] ops IH]; intros full_response rest.
  - left. split; [done|]. by exists 0.
  - destruct rest as [|token rest]; cbn [consume next resume].
    + destruct failure as [msg|].
      * pose proof (consume_finished w ops self) as [Hf Hy].
        destruct (consume w ops Finished self) as [[g' self'] ss].
        simpl in *. injection Hf as -> ->.
        left. split; [done|]. exists 0. exact Hy.
      * match goal with
        | |- context [consume w ops Finished ?e] =>
            pose proof (consume_finished w ops e) as [Hf Hy];
            destruct (consume w ops Finished e) as [[g' self'] ss]
        end.
        simpl in *. injection Hf as -> ->.
        right. repeat split; try done.
        simpl. by rewrite PyStrFacts.append_nil_r.
    + specialize (IH (full_response +:+ token) rest).
      destruct (consume w ops
                  (Suspended message (full_response +:+ token) rest failure)
                  self) as [[g' self'] ss].
      simpl in *. destruct IH as [[-> [k Hk]]|(Hf & Hy & He & Hs)].
      * left. split; [done|]. exists (S k). simpl. by rewrite Hk.
      * right. repeat split; try done.
        -- by rewrite Hy.
        -- rewrite Hs. simpl. by rewrite PyStrFacts.append_assoc.
  - cbn [consume close].
    pose proof (consume_finished w ops self) as [Hf Hy].
    destruct (consume w ops Finished self) as [[g' self'] ss].
    simpl in *. injection Hf as -> ->.
    left. split; [done|]. exists 0. exact Hy.
Qed.

Lemma consume_created (w : World) (ops : list Op) (message : string)
    (max_tokens : Z) (self : AvatarEngine) :
  let stream := llm_stream w (_build_prompt self message) max_tokens in
  snd (fst (consume w ops (Created message max_tokens) self))
  = snd (fst (consume w ops (Suspended message "" (fst stream) (snd stream))
                self))
  /\ snd (consume w ops (Created message max_tokens) self)
     = snd (consume w ops (Suspended message "" (fst stream) (snd stream))
              self).
Proof.
  cbv zeta. destruct ops as [|[] ops]; [done|..].
  - cbn [consume next].
    by destruct (llm_stream w (_build_prompt self message) max_tokens).
  - done.
Qed.

Lemma yielded_yields (tokens : list string) (ss : list Signal) :
  yielded ((Yield <$> tokens) ++ ss) = tokens ++ yielded ss.
Proof. induction tokens as [|t tokens IH]; simpl; [done|]. by f_equal. Qed.

(** [n] fragments taken one after the other from a suspended generator. *)
Lemma consume_nexts (w : World) (n : nat) (ops : list Op)
    (message full_response : string) (rest : list string)
    (failure : option string) (self : AvatarEngine) :
  n <= length rest ->
  consume w (replicate n DoNext ++ ops)
    (Suspended message full_response rest failure) self
  = let '(g, self', ss) :=
      consume w ops
        (Suspended message (full_response +:+ joined (take n rest))
           (drop n rest) failure) self in
    (g, self', (Yield <$> take n rest) ++ ss).
Proof.
  revert full_response rest.
  induction n as [|n IH]; intros full_response rest Hn.
  - simpl. rewrite PyStrFacts.append_nil_r, drop_0.
    by destruct (consume w ops _ self) as [[g self'] ss].
  - destruct rest as [|token rest]; [simpl in Hn; lia|].
    cbn [replicate app consume next resume].
    rewrite IH by (simpl in Hn; lia).
    cbn [take drop joined foldr fmap list_fmap].
    rewrite PyStrFacts.append_assoc.
    by destruct (consume w ops _ self) as [[g self'] ss].
Qed.

(** C7: whatever the consumer does with the generator of [chat_stream],
    the history is either untouched or extended by exactly the user turn and
    the assistant turn, the latter only when every fragment was yielded and
    a further [next] found the stream over; taking any number of fragments
    leaves the history as it was, and so does closing the generator before
    that, whatever is done with it afterwards. *)
Theorem chat_stream_history (w : World) (self : AvatarEngine)
    (message : string) (max_tokens : Z) (ops : list Op) :
  let tokens := fst (llm_stream w (_build_prompt self message) max_tokens) in
  let failure := snd (llm_stream w (_build_prompt self message) max_tokens) in
  let g := chat_stream message max_tokens in
  let turns :=
    [user_turn message; assistant_turn (strip (joined tokens))] in
  ((snd (fst (consume w ops g self)) = self
    /\ exists k, yielded (snd (consume w ops g self)) = take k tokens)
   \/ (failure = None
       /\ yielded (snd (consume w ops g self)) = tokens
       /\ exhausted (snd (consume w ops g self)) = true
       /\ snd (fst (consume w ops g self))
          = with_history (history self ++ turns) self))
  /\ (forall n,
        n <= length tokens ->
        snd (fst (consume w (replicate n DoNext) g self)) = self
        /\ yielded (snd (consume w (replicate n DoNext) g self))
           = take n tokens)
  /\ (forall n after,
        n <= length tokens ->
        snd (fst (consume w (replicate n DoNext ++ DoClose :: after) g self))
        = self)
  /\ (failure = None ->
      history
        (snd (fst (consume w (replicate (S (length tokens)) DoNext) g self)))
      = history self ++ turns).
Proof.
  cbv zeta. unfold chat_stream.
  set (stream := llm_stream w (_build_prompt self message) max_tokens).
  assert (forall ops,
            snd (fst (consume w ops (Created message max_tokens) self))
            = snd (fst (consume w ops
                          (Suspended message "" (fst stream) (snd stream))
                          self))
            /\ snd (consume w ops (Created message max_tokens) self)
               = snd (consume w ops
                        (Suspended message "" (fst stream) (snd stream))
                        self)) as Hc.
  { intros ops'. apply consume_created. }
  split; [|split; [|split]].
  - destruct (Hc ops) as [-> ->].
    apply (consume_suspended w ops message "" (fst stream) (snd stream) self).
  - intros n Hn. destruct (Hc (replicate n DoNext)) as [-> ->].
    pose proof (consume_nexts w n [] message "" (fst stream) (snd stream)
                  self Hn) as H.
    rewrite app_nil_r in H. rewrite H. cbn [consume]. simpl.
    split; [done|]. rewrite yielded_yields. simpl. by rewrite app_nil_r.
  - intros n after Hn.
    destruct (Hc (replicate n DoNext ++ DoClose :: after)) as [-> _].
    rewrite (consume_nexts w n _ message "" (fst stream) (snd stream) self Hn).
    cbn [consume close].
    pose proof (consume_finished w after self) as [Hf _].
    destruct (consume w after Finished self) as [[g' self'] ss].
    simpl in *. by injection Hf as _ ->.
  - intros Hnone.
    destruct (Hc (replicate (S (length (fst stream))) DoNext)) as [-> _].
    replace (replicate (S (length (fst stream))) DoNext)
      with (replicate (length (fst stream)) DoNext ++ [DoNext])
      by (by rewrite <- replicate_cons_app).
    rewrite (consume_nexts w _ _ message "" (fst stream) (snd stream) self)
      by done.
    rewrite firstn_all, drop_all, Hnone. cbn. done.
Qed.

Lemma chat_stream_history_witness :
  2 <= length (fst (llm_stream stub_world
                      (_build_prompt stub_engine "Salut") 512))
  /\ snd (fst (consume stub_world [DoNext; DoNext; DoClose; DoNext]
                 (chat_stream "Salut" 512) stub_engine)) = stub_engine.
Proof.
  assert (2 <= length (fst (llm_stream stub_world
                              (_build_prompt stub_engine "Salut") 512))) as H
    by (vm_compute; lia).
  split; [exact H|].
  exact (proj1 (proj2 (proj2 (chat_stream_history stub_world stub_engine
                                "Salut" 512 []))) 2 [DoNext] H).
Defined.

End AvatarSpec.

(** ** Merging profiles *)
Module MergeSpec.
Import PyStr Json FS MergeProfiles.

Lemma add_new_NoDup (merged : list string) (x : string) :
  NoDup merged -> NoDup (add_new merged x).
Proof.
  intros H. unfold add_new. case_bool_decide; [done|].
  apply NoDup_app. split; [done|]. split; [|apply NoDup_singleton].
  intros y Hy Hx. apply list_elem_of_singleton in Hx as ->. done.
Qed.

Lemma elem_of_add_new (merged : list string) (x y : string) :
  y ∈ add_new merged x <-> y ∈ merged \/ y = x.
Proof.
  unfold add_new. case_bool_decide.
  - split; [by left|]. intros [?| ->]; done.
  - rewrite elem_of_app, list_elem_of_singleton. done.
Qed.

Lemma merge_strings_NoDup (merged xs : list string) :
  NoDup merged -> NoDup (merge_strings merged xs).
Proof.
  unfold merge_strings. revert merged.
  induction xs as [|x xs IH]; intros merged H; simpl; [done|].
  by apply IH, add_new_NoDup.
Qed.

Lemma elem_of_merge_strings (merged xs : list string) (y : string) :
  y ∈ merge_strings merged xs <-> y ∈ merged \/ y ∈ xs.
Proof.
  unfold merge_strings. revert merged.
  induction xs as [|x xs IH]; intros merged; simpl.
  - split; [by left|]. intros [?|H]; [done|]. by apply elem_of_nil in H.
  - rewrite IH, elem_of_add_new, elem_of_cons. tauto.
Qed.

(** A field merged by [merge_strings], over all the profiles. *)
Lemma fold_strings (field : PersonProfile.t -> list string)
    (profiles : list PersonProfile.t) (merged : PersonProfile.t) :
  (forall m p, field (merge_one m p) = merge_strings (field m) (field p)) ->
  NoDup (field merged) ->
  NoDup (field (fold_left merge_one profiles merged))
  /\ forall y,
       y ∈ field (fold_left merge_one profiles merged)
       <-> y ∈ field merged \/ exists p, p ∈ profiles /\ y ∈ field p.
Proof.
  intros Hfield. revert merged.
  induction profiles as [|p profiles IH]; intros merged Hnd; simpl.
  - split; [done|]. intros y. split; [by left|].
    intros [?|(p & Hp & _)]; [done|]. by apply elem_of_nil in Hp.
  - destruct (IH (merge_one merged p)) as [Hnd' Hin].
    { rewrite Hfield. by apply merge_strings_NoDup. }
    split; [done|]. intros y. rewrite Hin, Hfield, elem_of_merge_strings.
    split.
    + intros [[?|?]|(q & Hq & Hy)]; [by left|..].
      * right. exists p. split; [left | done].
      * right. exists q. split; [by right | done].
    + intros [?|(q & Hq & Hy)]; [by left; left|].
      apply elem_of_cons in Hq as [->|Hq]; [by left; right|].
      right. by exists q.
Qed.

Lemma fold_name (profiles : list PersonProfile.t) (merged : PersonProfile.t) :
  PersonProfile.name (fold_left merge_one profiles merged)
  = PersonProfile.name merged.
Proof.
  revert merged. induction profiles as [|p ps IH]; intros m; simpl; [done|].
  by rewrite IH.
Qed.

(** X1: merging no profile raises; merging a non-empty list gives a profile
    named after the first one whose aliases, professions, keywords and
    sources are each free of duplicates and hold exactly the entries found in
    some input profile. *)
Theorem merge_profiles_lists (sys : Sys) (first : PersonProfile.t)
    (rest : list PersonProfile.t) :
  merge_profiles sys [] = Raise "No profiles to merge"
  /\ exists m,
       merge_profiles sys (first :: rest) = Ok m
       /\ PersonProfile.name m = PersonProfile.name first
       /\ (NoDup (PersonProfile.aliases m)
           /\ forall y, y ∈ PersonProfile.aliases m
                        <-> exists p, p ∈ first :: rest
                                      /\ y ∈ PersonProfile.aliases p)
       /\ (NoDup (PersonProfile.professions m)
           /\ forall y, y ∈ PersonProfile.professions m
                        <-> exists p, p ∈ first :: rest
                                      /\ y ∈ PersonProfile.professions p)
       /\ (NoDup (PersonProfile.keywords m)
           /\ forall y, y ∈ PersonProfile.keywords m
                        <-> exists p, p ∈ first :: rest
                                      /\ y ∈ PersonProfile.keywords p)
       /\ (NoDup (PersonProfile.sources m)
           /\ forall y, y ∈ PersonProfile.sources m
                        <-> exists p, p ∈ first :: rest
                                      /\ y ∈ PersonProfile.sources p).
Proof.
  split; [reflexivity|]. eexists. split; [reflexivity|].
  split; [by rewrite fold_name|].
  assert (forall field : PersonProfile.t -> list string,
            (forall m p,
               field (merge_one m p) = merge_strings (field m) (field p)) ->
            field (PersonProfile.make sys (PersonProfile.name first)) = [] ->
            NoDup (field (fold_left merge_one (first :: rest)
                            (PersonProfile.make sys
                               (PersonProfile.name first))))
            /\ forall y,
                 y ∈ field (fold_left merge_one (first :: rest)
                              (PersonProfile.make sys
                                 (PersonProfile.name first)))
                 <-> exists p, p ∈ first :: rest /\ y ∈ field p) as H.
  { intros field Hfield Hempty.
    destruct (fold_strings field (first :: rest)
                (PersonProfile.make sys (PersonProfile.name first)) Hfield)
      as [Hnd Hin].
    { rewrite Hempty. apply NoDup_nil_2. }
    split; [done|]. intros y. rewrite Hin, Hempty. split.
    - intros [Hy|?]; [by apply elem_of_nil in Hy | done].
    - by right. }
  repeat split; apply H; done.
Qed.

(** The two keyed loops: what one pass over [xs] does to a list whose keys
    are distinct and recorded in the set. *)
Lemma keyed_fold {A} (key : A -> string)
    (add : list A * gset string -> A -> list A * gset string)
    (xs : list A) (st : list A * gset string) :
  (forall st x,
     add st x = if bool_decide (key x ∈ st.2) then st
                else (st.1 ++ [x], st.2 ∪ {[key x]})) ->
  (forall k, k ∈ st.2 <-> k ∈ key <$> st.1) ->
  NoDup (key <$> st.1) ->
  (forall k, k ∈ (fold_left add xs st).2
             <-> k ∈ key <$> (fold_left add xs st).1)
  /\ NoDup (key <$> (fold_left add xs st).1)
  /\ (forall x, x ∈ (fold_left add xs st).1 -> x ∈ st.1 \/ x ∈ xs)
  /\ (forall x, x ∈ st.1 -> x ∈ (fold_left add xs st).1)
  /\ (forall x, x ∈ xs -> key x ∈ key <$> (fold_left add xs st).1).
Proof.
  intros Hadd. revert st.
  induction xs as [|x xs IH]; intros st Hset Hnd; simpl.
  - split_and!; auto. intros x Hx. by apply elem_of_nil in Hx.
  - assert ((forall k, k ∈ (add st x).2 <-> k ∈ key <$> (add st x).1)
            /\ NoDup (key <$> (add st x).1)
            /\ (forall y, y ∈ (add st x).1 -> y ∈ st.1 \/ y = x)
            /\ (forall y, y ∈ st.1 -> y ∈ (add st x).1)
            /\ key x ∈ key <$> (add st x).1)
      as (Hset' & Hnd' & Hfrom & Hkeep & Hkey).
    { rewrite Hadd. case_bool_decide as Hk; simpl.
      - split_and!; auto. by apply Hset.
      - split_and!.
        + intros k.
          rewrite elem_of_union, elem_of_singleton, fmap_app, elem_of_app.
          rewrite Hset. simpl. rewrite list_elem_of_singleton. done.
        + rewrite fmap_app. apply NoDup_app. split; [done|].
          split; [|apply NoDup_singleton].
          intros k Hk1 Hk2. apply list_elem_of_singleton in Hk2 as ->.
          apply Hk. by apply Hset.
        + intros y Hy. apply elem_of_app in Hy as [?|Hy]; [by left|].
          right. by apply list_elem_of_singleton in Hy.
        + intros y Hy. apply elem_of_app. by left.
        + rewrite fmap_app. apply elem_of_app. right. simpl. left. }
    destruct (IH (add st x) Hset' Hnd') as (H1 & H2 & H3 & H4 & H5).
    split_and!; auto.
    + intros y Hy. apply H3 in Hy as [Hy|Hy]; [|by right; right].
      apply Hfrom in Hy as [?| ->]; [by left | right; left].
    + intros y Hy. apply elem_of_cons in Hy as [->|Hy]; [|by apply H5].
      apply list_elem_of_fmap in Hkey as (z & Hz & Hin).
      apply list_elem_of_fmap. exists z. split; [done | by apply H4].
Qed.

Lemma merge_social_spec (merged sps : list SocialProfile.t) :
  NoDup (SocialProfile.platform <$> merged) ->
  NoDup (SocialProfile.platform <$> merge_social merged sps)
  /\ (forall x, x ∈ merge_social merged sps -> x ∈ merged \/ x ∈ sps)
  /\ (forall x, x ∈ merged -> x ∈ merge_social merged sps)
  /\ (forall x, x ∈ sps ->
        SocialProfile.platform x
        ∈ SocialProfile.platform <$> merge_social merged sps).
Proof.
  intros Hnd. unfold merge_social.
  destruct (keyed_fold SocialProfile.platform add_social sps
              (merged, list_to_set (SocialProfile.platform <$> merged)))
    as (_ & H2 & H3 & H4 & H5); auto.
  intros k. simpl. apply elem_of_list_to_set.
Qed.

Lemma merge_facettes_spec (merged fcs : list Facette.t) :
  NoDup (Facette.name <$> merged) ->
  NoDup (Facette.name <$> merge_facettes merged fcs)
  /\ (forall x, x ∈ merge_facettes merged fcs -> x ∈ merged \/ x ∈ fcs)
  /\ (forall x, x ∈ merged -> x ∈ merge_facettes merged fcs)
  /\ (forall x, x ∈ fcs ->
        Facette.name x ∈ Facette.name <$> merge_facettes merged fcs).
Proof.
  intros Hnd. unfold merge_facettes.
  destruct (keyed_fold Facette.name add_facette fcs
              (merged, list_to_set (Facette.name <$> merged)))
    as (_ & H2 & H3 & H4 & H5); auto.
  intros k. simpl. apply elem_of_list_to_set.
Qed.

(** A field merged by key, over all the profiles. *)
Lemma fold_keyed {A} (key : A -> string)
    (field : PersonProfile.t -> list A) (merge : list A -> list A -> list A)
    (profiles : list PersonProfile.t) (merged : PersonProfile.t) :
  (forall m p, field (merge_one m p) = merge (field m) (field p)) ->
  (forall l xs,
     NoDup (key <$> l) ->
     NoDup (key <$> merge l xs)
     /\ (forall x, x ∈ merge l xs -> x ∈ l \/ x ∈ xs)
     /\ (forall x, x ∈ l -> x ∈ merge l xs)
     /\ (forall x, x ∈ xs -> key x ∈ key <$> merge l xs)) ->
  NoDup (key <$> field merged) ->
  NoDup (key <$> field (fold_left merge_one profiles merged))
  /\ (forall x, x ∈ field (fold_left merge_one profiles merged) ->
        x ∈ field merged \/ exists p, p ∈ profiles /\ x ∈ field p)
  /\ (forall x, x ∈ field merged ->
        x ∈ field (fold_left merge_one profiles merged))
  /\ (forall p x, p ∈ profiles -> x ∈ field p ->
        key x ∈ key <$> field (fold_left merge_one profiles merged)).
Proof.
  intros Hfield Hmerge. revert merged.
  induction profiles as [|p profiles IH]; intros merged Hnd; simpl.
  - split_and!; auto. intros p x Hp. by apply elem_of_nil in Hp.
  - destruct (Hmerge (field merged) (field p) Hnd) as (M1 & M2 & M3 & M4).
    destruct (IH (merge_one merged p)) as (H1 & H2 & H3 & H4).
    { by rewrite Hfield. }
    rewrite Hfield in H2, H3.
    split_and!; auto.
    + intros x Hx. apply H2 in Hx as [Hx|(q & Hq & Hx)].
      * apply M2 in Hx as [?|?]; [by left|].
        right. exists p. split; [left | done].
      * right. exists q. split; [by right | done].
    + intros q x Hq Hx. apply elem_of_cons in Hq as [->|Hq].
      * apply M4 in Hx. apply list_elem_of_fmap in Hx as (z & Hz & Hin).
        apply list_elem_of_fmap. exists z. split; [done | by apply H3].
      * by apply (H4 q).
Qed.

(** X2: in a merged profile no two social profiles share a platform and no
    two facettes share a name; every one kept comes from an input profile,
    and every platform and facette name of the inputs is represented. *)
Theorem merge_profiles_keyed (sys : Sys) (first : PersonProfile.t)
    (rest : list PersonProfile.t) :
  exists m,
    merge_profiles sys (first :: rest) = Ok m
    /\ NoDup (SocialProfile.platform <$> PersonProfile.social_profiles m)
    /\ (forall sp, sp ∈ PersonProfile.social_profiles m ->
          exists p, p ∈ first :: rest
                    /\ sp ∈ PersonProfile.social_profiles p)
    /\ (forall p sp, p ∈ first :: rest ->
          sp ∈ PersonProfile.social_profiles p ->
          SocialProfile.platform sp
          ∈ SocialProfile.platform <$> PersonProfile.social_profiles m)
    /\ NoDup (Facette.name <$> PersonProfile.facettes m)
    /\ (forall f, f ∈ PersonProfile.facettes m ->
          exists p, p ∈ first :: rest /\ f ∈ PersonProfile.facettes p)
    /\ (forall p f, p ∈ first :: rest -> f ∈ PersonProfile.facettes p ->
          Facette.name f ∈ Facette.name <$> PersonProfile.facettes m).
Proof.
  eexists. split; [reflexivity|].
  destruct (fold_keyed SocialProfile.platform PersonProfile.social_profiles
              merge_social (first :: rest)
              (PersonProfile.make sys (PersonProfile.name first)))
    as (S1 & S2 & _ & S4);
    [done | apply merge_social_spec | apply NoDup_nil_2 |].
  destruct (fold_keyed Facette.name PersonProfile.facettes
              merge_facettes (first :: rest)
              (PersonProfile.make sys (PersonProfile.name first)))
    as (F1 & F2 & _ & F4);
    [done | apply merge_facettes_spec | apply NoDup_nil_2 |].
  split_and!; auto.
  - intros sp Hsp. apply S2 in Hsp as [Hsp|?]; [|done].
    by apply elem_of_nil in Hsp.
  - intros f Hf. apply F2 in Hf as [Hf|?]; [|done].
    by apply elem_of_nil in Hf.
Qed.

Lemma fold_bio (profiles : list PersonProfile.t) (merged : PersonProfile.t) :
  PersonProfile.bio (fold_left merge_one profiles merged)
  = (if truthy_opt (PersonProfile.bio merged) then PersonProfile.bio merged
     else match first_truthy (PersonProfile.bio <$> profiles) with
          | None => PersonProfile.bio merged
          | o => o
          end)
  /\ PersonProfile.location (fold_left merge_one profiles merged)
     = (if truthy_opt (PersonProfile.location merged)
        then PersonProfile.location merged
        else match first_truthy (PersonProfile.location <$> profiles) with
             | None => PersonProfile.location merged
             | o => o
             end).
Proof.
  revert merged. induction profiles as [|p ps IH]; intros m; simpl.
  - by destruct (truthy_opt _), (truthy_opt _).
  - destruct (IH (merge_one m p)) as [-> ->]. simpl.
    unfold first_non_empty. split.
    + destruct (truthy_opt (PersonProfile.bio m)) eqn:Em; simpl;
        [by rewrite Em|].
      destruct (truthy_opt (PersonProfile.bio p)) eqn:Ep; [|by rewrite Em].
      rewrite Ep. by destruct (PersonProfile.bio p).
    + destruct (truthy_opt (PersonProfile.location m)) eqn:Em; simpl;
        [by rewrite Em|].
      destruct (truthy_opt (PersonProfile.location p)) eqn:Ep;
        [|by rewrite Em].
      rewrite Ep. by destruct (PersonProfile.location p).
Qed.

(** X3: the merged bio is the first bio of the inputs that is neither
    missing nor empty, and [None] when there is none; the same holds for the
    location. *)
Theorem merge_profiles_bio (sys : Sys) (first : PersonProfile.t)
    (rest : list PersonProfile.t) :
  exists m,
    merge_profiles sys (first :: rest) = Ok m
    /\ PersonProfile.bio m
       = first_truthy (PersonProfile.bio <$> first :: rest)
    /\ PersonProfile.location m
       = first_truthy (PersonProfile.location <$> first :: rest).
Proof.
  eexists. split; [reflexivity|].
  destruct (fold_bio (first :: rest)
              (PersonProfile.make sys (PersonProfile.name first)))
    as [-> ->].
  cbn [PersonProfile.make PersonProfile.bio PersonProfile.location
       truthy_opt].
  split.
  - by destruct (first_truthy (PersonProfile.bio <$> first :: rest)).
  - by destruct (first_truthy (PersonProfile.location <$> first :: rest)).
Qed.

End MergeSpec.

(** ** Keyword extraction *)
Module KeywordsSpec.
Import PyStr FS InfoExtractor Keywords.

Lemma occurrences_snoc (w x : string) (l : list string) :
  occurrences w (l ++ [x])
  = occurrences w l + (if bool_decide (x = w) then 1 else 0).
Proof.
  unfold occurrences. rewrite filter_app, length_app. f_equal.
  rewrite filter_cons. case_decide; case_bool_decide; done.
Qed.

Lemma occurrences_pos (w : string) (l : list string) :
  w ∈ l <-> 0 < occurrences w l.
Proof.
  unfold occurrences. induction l as [|x l IH].
  - split; [intros H; by apply elem_of_nil in H | simpl; lia].
  - rewrite filter_cons, elem_of_cons. case_decide; simpl.
    + split; [lia | intros _; by left].
    + rewrite <- IH. split; [intros [?|?]; [congruence | done] | by right].
Qed.

Lemma bump_keys (x : string) (counts : list (string * nat)) :
  fst <$> bump x counts
  = if bool_decide (x ∈ fst <$> counts) then fst <$> counts
    else (fst <$> counts) ++ [x].
Proof.
  induction counts as [|[w n] counts IH]; [done|].
  cbn [bump]. destruct (String.eqb_spec w x) as [->|Hne].
  - rewrite !fmap_cons. cbn [fst].
    rewrite bool_decide_eq_true_2; [done | left].
  - rewrite !fmap_cons, IH. cbn [fst]. case_bool_decide as Hin.
    + rewrite bool_decide_eq_true_2; [done | by right].
    + rewrite bool_decide_eq_false_2; [done|].
      intros Hx. apply elem_of_cons in Hx as [?|?]; congruence.
Qed.

Lemma elem_of_bump (x w : string) (n : nat) (counts : list (string * nat)) :
  NoDup (fst <$> counts) ->
  (w, n) ∈ bump x counts ->
  (w <> x /\ (w, n) ∈ counts)
  \/ (w = x /\ ((exists m, (x, m) ∈ counts /\ n = S m)
                \/ ((x ∉ fst <$> counts) /\ n = 1))).
Proof.
  induction counts as [|[w0 n0] counts IH]; intros Hnd Hin.
  - apply list_elem_of_singleton in Hin as [= -> ->].
    right. split; [done|]. right. split; [|done].
    intros H. by apply elem_of_nil in H.
  - rewrite fmap_cons in Hnd. apply NoDup_cons in Hnd as [Hw0 Hnd].
    cbn [bump] in Hin. cbn [fst] in Hw0.
    destruct (String.eqb_spec w0 x) as [->|Hne].
    + apply elem_of_cons in Hin as [[= -> ->]|Hin].
      * right. split; [done|]. left. exists n0. split; [left | done].
      * left. split; [|by right].
        intros ->. apply Hw0. apply list_elem_of_fmap. by exists (x, n).
    + apply elem_of_cons in Hin as [[= -> ->]|Hin].
      * left. split; [done | left].
      * destruct (IH Hnd Hin) as [[? ?]|[-> [(m & Hm & ->)|[Hx ->]]]].
        -- left. split; [done | by right].
        -- right. split; [done|]. left. exists m. split; [by right | done].
        -- right. split; [done|]. right. split; [|done].
           rewrite fmap_cons. intros H.
           apply elem_of_cons in H as [?|?]; [cbn in *; congruence | done].
Qed.

(** The counting loop keeps one entry per word seen, with the number of
    times it was seen. *)
Lemma counting_invariant (words seen : list string)
    (counts : list (string * nat)) :
  NoDup (fst <$> counts) ->
  (forall w, w ∈ fst <$> counts <-> w ∈ seen) ->
  (forall w n, (w, n) ∈ counts -> n = occurrences w seen) ->
  NoDup (fst <$> fold_left (fun c w => bump w c) words counts)
  /\ (forall w, w ∈ fst <$> fold_left (fun c w => bump w c) words counts
                <-> w ∈ seen ++ words)
  /\ (forall w n, (w, n) ∈ fold_left (fun c w => bump w c) words counts ->
                  n = occurrences w (seen ++ words)).
Proof.
  revert seen counts.
  induction words as [|x words IH]; intros seen counts Hnd Hkeys Hocc.
  - simpl. rewrite app_nil_r. done.
  - cbn [fold_left].
    replace (seen ++ x :: words) with ((seen ++ [x]) ++ words)
      by (by rewrite <- app_assoc).
    apply IH.
    + rewrite bump_keys. case_bool_decide as Hin; [done|].
      apply NoDup_app. split; [done|]. split; [|apply NoDup_singleton].
      intros y Hy Hx. by apply list_elem_of_singleton in Hx as ->.
    + intros w. rewrite bump_keys, elem_of_app, list_elem_of_singleton.
      case_bool_decide as Hin.
      * rewrite Hkeys. split; [by left|].
        intros [?| ->]; [done|]. by apply Hkeys.
      * rewrite elem_of_app, list_elem_of_singleton, Hkeys. done.
    + intros w n Hin. rewrite occurrences_snoc.
      apply elem_of_bump in Hin; [|done].
      destruct Hin as [[Hne Hin]|[-> [(m & Hm & ->)|[Hx ->]]]].
      * rewrite bool_decide_eq_false_2 by congruence.
        rewrite (Hocc _ _ Hin). lia.
      * rewrite bool_decide_eq_true_2 by done. rewrite (Hocc _ _ Hm). lia.
      * rewrite bool_decide_eq_true_2 by done.
        assert (occurrences x seen = 0) as ->; [|done].
        destruct (occurrences x seen) eqn:E; [done|].
        exfalso. apply Hx, Hkeys, occurrences_pos. lia.
Qed.

Lemma fold_counted (sys : Sys) (text name : string) :
  fold_left
    (fun counts word =>
       if bool_decide (word ∉ stopwords)
          && bool_decide (word ∉ split (lower name))
       then bump word counts else counts)
    (re_findall sys WORD_PATTERN (lower text)) []
  = fold_left (fun c w => bump w c) (counted_words sys text name) [].
Proof.
  unfold counted_words.
  generalize (@nil (string * nat)).
  induction (re_findall sys WORD_PATTERN (lower text)) as [|x l IH];
    intros counts; [done|].
  cbn [fold_left]. rewrite filter_cons.
  case_decide as Hx.
  - destruct Hx as [H1 H2]. rewrite !bool_decide_eq_true_2 by done.
    cbn [andb fold_left]. apply IH.
  - rewrite IH. f_equal.
    destruct (bool_decide (x ∉ stopwords)) eqn:E1; [|done].
    destruct (bool_decide (x ∉ split (lower name))) eqn:E2; [|done].
    exfalso. apply Hx.
    split; [by apply bool_decide_eq_true_1 in E1
           | by apply bool_decide_eq_true_1 in E2].
Qed.

Lemma insert_desc_Permutation (x : string * nat) (l : list (string * nat)) :
  insert_desc x l ≡ₚ x :: l.
Proof.
  induction l as [|y l IH]; simpl; [done|].
  destruct (y.2 <? x.2)%nat; [done|]. rewrite IH. apply Permutation_swap.
Qed.

Lemma insert_desc_sorted (x : string * nat) (l : list (string * nat)) :
  StronglySorted (fun a b => b.2 <= a.2) l ->
  StronglySorted (fun a b => b.2 <= a.2) (insert_desc x l).
Proof.
  induction 1 as [|y l Hs IH Hall]; simpl.
  - repeat constructor.
  - destruct (Nat.ltb_spec y.2 x.2).
    + constructor; [by constructor|].
      constructor; [lia|].
      eapply Forall_impl; [exact Hall|]. simpl. intros z Hz. lia.
    + constructor; [exact IH|].
      rewrite insert_desc_Permutation. constructor; [lia | done].
Qed.

Lemma sorted_desc_spec (items : list (string * nat)) :
  sorted_desc items ≡ₚ items
  /\ StronglySorted (fun a b => b.2 <= a.2) (sorted_desc items).
Proof.
  unfold sorted_desc.
  assert (forall acc,
            StronglySorted (fun a b => b.2 <= a.2) acc ->
            fold_left (fun acc x => insert_desc x acc) items acc
            ≡ₚ acc ++ items
            /\ StronglySorted (fun a b => b.2 <= a.2)
                 (fold_left (fun acc x => insert_desc x acc) items acc))
    as H.
  { induction items as [|x items IH]; intros acc Hacc; simpl.
    - by rewrite app_nil_r.
    - destruct (IH (insert_desc x acc)) as [Hp Hs];
        [by apply insert_desc_sorted|].
      split; [|done]. rewrite Hp, insert_desc_Permutation.
      simpl. apply Permutation_middle. }
  destruct (H []) as [Hp Hs]; [constructor|]. by split.
Qed.

Lemma sorted_keys (f : string -> nat) (l : list (string * nat)) :
  Forall (fun kv => kv.2 = f kv.1) l ->
  StronglySorted (fun a b => b.2 <= a.2) l ->
  StronglySorted (fun k1 k2 => f k2 <= f k1) (fst <$> l).
Proof.
  intros Hf Hs. induction Hs as [|a l Hs IH Hall]; [constructor|].
  apply Forall_cons in Hf as [Ha Hf]. rewrite fmap_cons.
  constructor; [by apply IH|].
  rewrite Forall_fmap. rewrite Forall_forall in Hall, Hf.
  apply Forall_forall. intros b Hb. simpl.
  rewrite <- Ha, <- (Hf b Hb). by apply Hall.
Qed.

Lemma extract_keywords_length (sys : Sys) (text name : string) (n : nat) :
  length (_extract_keywords sys text name (Z.of_nat n)) <= n.
Proof.
  unfold _extract_keywords.
  rewrite EarsSpec.slice_to_nat, length_fmap, length_take. lia.
Qed.

(** X4: the keywords extracted are at most [max_keywords], pairwise
    distinct, found by the word pattern in the lowercased text, and neither
    stopwords nor parts of the name; they come in order of decreasing
    frequency, no word left out is more frequent than one returned, and a
    word is left out only when the limit is reached. *)
Theorem extract_keywords_spec (sys : Sys) (text name : string) (n : nat) :
  let kws := _extract_keywords sys text name (Z.of_nat n) in
  let counted := counted_words sys text name in
  length kws <= n
  /\ NoDup kws
  /\ (forall k, k ∈ kws ->
        k ∈ re_findall sys WORD_PATTERN (lower text)
        /\ (k ∉ stopwords) /\ (k ∉ split (lower name)))
  /\ StronglySorted
       (fun k1 k2 => occurrences k2 counted <= occurrences k1 counted) kws
  /\ (forall w k, w ∈ counted -> w ∉ kws -> k ∈ kws ->
        occurrences w counted <= occurrences k counted)
  /\ (length kws < n -> forall w, w ∈ counted -> w ∈ kws).
Proof.
  cbv zeta. unfold _extract_keywords.
  rewrite fold_counted, EarsSpec.slice_to_nat.
  set (counted := counted_words sys text name).
  set (counts := fold_left (fun c w => bump w c) counted []).
  destruct (counting_invariant counted [] []) as (Hnd & Hkeys & Hocc).
  { apply NoDup_nil_2. }
  { intros w. done. }
  { intros w m H. by apply elem_of_nil in H. }
  simpl in Hkeys, Hocc. fold counts in Hnd, Hkeys, Hocc.
  destruct (sorted_desc_spec counts) as [Hperm Hsorted].
  assert (Forall (fun kv => kv.2 = occurrences kv.1 counted)
            (sorted_desc counts)) as Hall.
  { apply Forall_forall. intros [w m] Hin. simpl. apply Hocc.
    by rewrite <- Hperm. }
  assert (NoDup (fst <$> sorted_desc counts)) as Hnd'.
  { by rewrite Hperm. }
  assert (forall w, w ∈ fst <$> sorted_desc counts <-> w ∈ counted) as Hk'.
  { intros w. by rewrite Hperm. }
  rewrite fmap_take. split_and!.
  - rewrite length_take. lia.
  - eapply sublist_NoDup; [exact Hnd' | apply sublist_take].
  - intros k Hk.
    assert (k ∈ counted) as Hc.
    { apply Hk'. by apply (subseteq_take n). }
    unfold counted, counted_words in Hc.
    apply list_elem_of_filter in Hc as [[? ?] ?]. done.
  - pose proof (sorted_keys (fun w => occurrences w counted) _ Hall Hsorted)
      as Hs.
    rewrite <- (take_drop n (fst <$> sorted_desc counts)) in Hs.
    by apply StronglySorted_app_1_l in Hs.
  - intros w k Hw Hnot Hk.
    pose proof (sorted_keys (fun w => occurrences w counted) _ Hall Hsorted)
      as Hs.
    rewrite <- (take_drop n (fst <$> sorted_desc counts)) in Hs.
    apply (StronglySorted_app_1_elem_of _ _ _ k w Hs); [done|].
    apply Hk' in Hw.
    rewrite <- (take_drop n (fst <$> sorted_desc counts)) in Hw.
    apply elem_of_app in Hw as [?|?]; done.
  - intros Hlen w Hw. rewrite length_take in Hlen.
    rewrite take_ge by lia. by apply Hk'.
Qed.

End KeywordsSpec.

(** ** Profile extraction *)
Module ExtractSpec.
Import PyStr Json FS InfoExtractor.

Lemma first_platform_spec (sys : Sys) (patterns : list (string * string))
    (url : string) (sp : SocialProfile.t) :
  first_platform sys patterns url = Some sp ->
  SocialProfile.platform sp ∈ fst <$> patterns
  /\ SocialProfile.url sp = url
  /\ is_Some (SocialProfile.username sp).
Proof.
  induction patterns as [|[platform pattern] patterns IH]; [done|].
  cbn [first_platform]. destruct (re_search sys pattern url) as [user|].
  - intros [= <-]. simpl. split; [left | by split].
  - intros H. destruct (IH H) as (H1 & H2 & H3).
    split; [by right | by split].
Qed.

Lemma add_social_fold (sys : Sys) (results : list Searcher.SearchResult)
    (acc : list SocialProfile.t) :
  NoDup (SocialProfile.platform <$> acc) ->
  (forall sp, sp ∈ acc ->
     SocialProfile.platform sp ∈ fst <$> PLATFORM_PATTERNS
     /\ is_Some (SocialProfile.username sp)) ->
  NoDup (SocialProfile.platform <$> fold_left (add_social sys) results acc)
  /\ forall sp, sp ∈ fold_left (add_social sys) results acc ->
       sp ∈ acc
       \/ (SocialProfile.platform sp ∈ fst <$> PLATFORM_PATTERNS
           /\ is_Some (SocialProfile.username sp)
           /\ exists r, r ∈ results
                        /\ SocialProfile.url sp = Searcher.url r).
Proof.
  revert acc. induction results as [|r results IH]; intros acc Hnd Hacc.
  - simpl. split; [done | by left].
  - cbn [fold_left].
    assert (NoDup (SocialProfile.platform <$> add_social sys acc r)
            /\ forall sp, sp ∈ add_social sys acc r ->
                 sp ∈ acc
                 \/ (SocialProfile.platform sp ∈ fst <$> PLATFORM_PATTERNS
                     /\ is_Some (SocialProfile.username sp)
                     /\ SocialProfile.url sp = Searcher.url r))
      as [Hnd1 Hin1].
    { unfold add_social, _extract_social_profile.
      destruct (first_platform sys PLATFORM_PATTERNS (Searcher.url r))
        as [social|] eqn:E; [|by split; [|left]].
      apply first_platform_spec in E as (E1 & E2 & E3).
      case_bool_decide as Hnew; [|by split; [|left]].
      split.
      - rewrite fmap_app. apply NoDup_app. split; [done|].
        split; [|apply NoDup_singleton].
        intros k Hk Hk'. by apply list_elem_of_singleton in Hk' as ->.
      - intros sp Hsp. apply elem_of_app in Hsp as [?|Hsp]; [by left|].
        apply list_elem_of_singleton in Hsp as ->. by right. }
    destruct (IH (add_social sys acc r) Hnd1) as [Hnd2 Hin2].
    { intros sp Hsp. apply Hin1 in Hsp as [Hsp|(? & ? & ?)]; [|done].
      by apply Hacc. }
    split; [done|]. intros sp Hsp.
    apply Hin2 in Hsp as [Hsp|(? & ? & q & Hq & ?)].
    + apply Hin1 in Hsp as [?|(? & ? & ?)]; [by left|].
      right. split_and!; try done. exists r. split; [left | done].
    + right. split_and!; try done. exists q. split; [by right | done].
Qed.

(** X5: the profile extracted from search results is named after the
    search, lists the result URLs as its sources in order, has at most 20
    keywords, and holds at most one social profile per platform, each for
    one of the six known platforms, with a username and the URL of one of
    the results. *)
Theorem extract_profile_spec (sys : Sys)
    (search_results : Searcher.PersonSearchResults) :
  let profile := extract_profile sys search_results in
  PersonProfile.name profile = Searcher.name search_results
  /\ PersonProfile.sources profile
     = Searcher.url <$> Searcher.results search_results
  /\ length (PersonProfile.keywords profile) <= 20
  /\ NoDup (SocialProfile.platform <$> PersonProfile.social_profiles profile)
  /\ length (PersonProfile.social_profiles profile) <= 6
  /\ forall sp, sp ∈ PersonProfile.social_profiles profile ->
       SocialProfile.platform sp
       ∈ ["instagram"; "linkedin"; "youtube"; "twitter"; "tiktok";
          "facebook"]
       /\ is_Some (SocialProfile.username sp)
       /\ exists r, r ∈ Searcher.results search_results
                    /\ SocialProfile.url sp = Searcher.url r.
Proof.
  cbv zeta.
  destruct (add_social_fold sys (Searcher.results search_results) [])
    as [Hnd Hin].
  { apply NoDup_nil_2. }
  { intros sp Hsp. by apply elem_of_nil in Hsp. }
  assert (forall sp,
            sp ∈ fold_left (add_social sys)
                   (Searcher.results search_results) [] ->
            SocialProfile.platform sp ∈ fst <$> PLATFORM_PATTERNS
            /\ is_Some (SocialProfile.username sp)
            /\ exists r, r ∈ Searcher.results search_results
                         /\ SocialProfile.url sp = Searcher.url r) as Hin'.
  { intros sp Hsp. apply Hin in Hsp as [Hsp|?]; [|done].
    by apply elem_of_nil in Hsp. }
  split_and!; try done.
  - apply (KeywordsSpec.extract_keywords_length sys _ _ 20).
  - cbn [extract_profile PersonProfile.social_profiles].
    rewrite <- (length_fmap SocialProfile.platform).
    change 6 with (length (fst <$> PLATFORM_PATTERNS)).
    apply submseteq_length, NoDup_submseteq; [done|].
    intros k Hk. apply list_elem_of_fmap in Hk as (sp & -> & Hsp).
    by apply Hin'.
Qed.

End ExtractSpec.

(** ** Loading documents *)
Module LoadSpec.
Import PyStr Json FS.

Ltac decode :=
  progress (cbn;
            rewrite ?ProfileSpec.all_str_of_strs,
              ?ProfileSpec.as_opt_str_of_opt_str,
              ?ProfileSpec.as_str_list_of_str_list).

Lemma persona_facette_roundtrip (f : Facette.t) :
  PersonaPromptFile.load_facette (PersonaPrompt.facette_to_dict f)
  = Ok (PersonProfile.persisted_facette f).
Proof.
  unfold PersonaPromptFile.load_facette, PersonaPrompt.facette_to_dict.
  repeat decode. reflexivity.
Qed.

Lemma persona_of_document_data (p : PersonaPrompt.t) :
  PersonaPromptFile.of_document (PersonaPrompt.data p)
  = Ok (PersonaPromptFile.persisted p).
Proof.
  unfold PersonaPromptFile.of_document, PersonaPrompt.data. repeat decode.
  rewrite (ProfileSpec.load_each_map _ _ _ _ persona_facette_roundtrip).
  reflexivity.
Qed.

Lemma persisted_facette_id (f : Facette.t) :
  Facette.sources f = [] -> PersonProfile.persisted_facette f = f.
Proof. destruct f. simpl. by intros ->. Qed.

(** X6: a persona saved and loaded back from the same path is the persona
    saved, except that the sources of its facettes, which are not written,
    are empty; a persona whose facettes have no sources comes back
    unchanged. *)
Theorem persona_save_load (sys : Sys) (p : PersonaPrompt.t) (path : string)
    (fs fs' : gmap string file) :
  PersonaPrompt.save sys p path fs = (fs', Ok tt) ->
  PersonaPromptFile.load sys path fs'
  = (fs', Ok (PersonaPromptFile.persisted p))
  /\ (Forall (fun f => Facette.sources f = []) (PersonaPrompt.facettes p) ->
      PersonaPromptFile.persisted p = p).
Proof.
  unfold PersonaPrompt.save, write. intros H.
  destruct (write_error sys path); [discriminate|]. injection H as <-.
  split.
  - unfold PersonaPromptFile.load, mbind, ST_bind, read_json.
    rewrite lookup_insert_eq. unfold pure_outcome.
    by rewrite persona_of_document_data.
  - intros Hall. destruct p as [n sp pt ss kd ep fcs md].
    unfold PersonaPromptFile.persisted. simpl in *. f_equal.
    induction Hall as [|f fcs Hf _ IH]; [done|].
    rewrite fmap_cons, IH. by rewrite persisted_facette_id.
Qed.

Lemma persona_save_load_witness :
  PersonaPrompt.save quiet
    (PromptGenerator.generate PersonProfile.sourced_profile "" None)
    "persona.json" ∅
  = (<["persona.json" :=
         FJson (PersonaPrompt.data
                  (PromptGenerator.generate PersonProfile.sourced_profile
                     "" None))]> ∅, Ok tt)
  /\ PersonaPromptFile.load quiet "persona.json"
       (<["persona.json" :=
            FJson (PersonaPrompt.data
                     (PromptGenerator.generate PersonProfile.sourced_profile
                        "" None))]> ∅)
     = (<["persona.json" :=
            FJson (PersonaPrompt.data
                     (PromptGenerator.generate PersonProfile.sourced_profile
                        "" None))]> ∅,
        Ok (PersonaPromptFile.persisted
              (PromptGenerator.generate PersonProfile.sourced_profile
                 "" None))).
Proof.
  split; [reflexivity|].
  exact (proj1 (persona_save_load quiet _ "persona.json" ∅ _ eq_refl)).
Defined.

(** X7: loading a persona raises the error of the missing file when the
    path names none, and the [KeyError] of the first missing key when the
    document lacks its name or its prompt; a facette without a name makes
    the persona loader raise, where the profile loader reads an empty
    name. *)
Theorem persona_load_errors (sys : Sys) (path : string)
    (fs : gmap string file) (data : dict) :
  (fs !! path = None ->
   PersonaPromptFile.load sys path fs = (fs, Raise (missing_error sys path)))
  /\ (find_key "name" data = None ->
      PersonaPromptFile.of_document (JObj data) = Raise "'name'"
      /\ PersonaPromptFile.load_facette (JObj data) = Raise "'name'"
      /\ forall f, PersonProfile.load_facette (JObj data) = Ok f ->
                   Facette.name f = "")
  /\ (forall n, find_key "name" data = Some (JStr n) ->
      find_key "system_prompt" data = None ->
      PersonaPromptFile.of_document (JObj data) = Raise "'system_prompt'").
Proof.
  split_and!.
  - intros H. unfold PersonaPromptFile.load, mbind, ST_bind, read_json.
    by rewrite H.
  - intros H. split_and!.
    + unfold PersonaPromptFile.of_document. cbn. unfold getitem.
      by rewrite H.
    + unfold PersonaPromptFile.load_facette. cbn. unfold getitem.
      by rewrite H.
    + intros f. unfold PersonProfile.load_facette. cbn. unfold get.
      rewrite H. cbn. unfold mbind, outcome_bind.
      repeat case_match; try discriminate; by intros [= <-].
  - intros n Hn Hp. unfold PersonaPromptFile.of_document. cbn.
    unfold getitem. rewrite Hn. cbn. by rewrite Hp.
Qed.

Lemma persona_load_errors_witness :
  (∅ : gmap string file) !! "persona.json" = None
  /\ find_key "name" Edited.nameless = None
  /\ find_key "system_prompt" Edited.promptless = None
  /\ PersonaPromptFile.of_document (JObj Edited.nameless) = Raise "'name'"
  /\ PersonaPromptFile.of_document (JObj Edited.promptless)
     = Raise "'system_prompt'".
Proof.
  split; [reflexivity|]. split; [reflexivity|]. split; [reflexivity|].
  split.
  - exact (proj1 (proj1 (proj2 (persona_load_errors quiet "persona.json" ∅
                                  Edited.nameless)) eq_refl)).
  - exact (proj2 (proj2 (persona_load_errors quiet "persona.json" ∅
                           Edited.promptless)) "John Doe" eq_refl eq_refl).
Defined.

Lemma of_document_raw_info (sys : Sys) (data : dict) (p : PersonProfile.t) :
  PersonProfile.of_document sys (JObj data) = Ok p ->
  PersonProfile.raw_info p
  = filter (fun kv => kv.1 ∉ PersonProfile.known_keys) data.
Proof.
  unfold PersonProfile.of_document. cbn. unfold mbind, outcome_bind.
  intros H. repeat case_match; simplify_eq. reflexivity.
Qed.

(** X8: the keys of a profile document that the loader does not know are
    kept, with their values, in the raw information of the loaded profile,
    and only those; saving that profile does not write them, so they are
    gone when the saved document is loaded again. *)
Theorem profile_extended_keys (sys : Sys) (data : dict)
    (p : PersonProfile.t) :
  PersonProfile.of_document sys (JObj data) = Ok p ->
  (forall k v,
     (k, v) ∈ PersonProfile.raw_info p
     <-> (k, v) ∈ data /\ (k ∉ PersonProfile.known_keys))
  /\ exists q,
       PersonProfile.of_document sys (PersonProfile.to_dict p) = Ok q
       /\ PersonProfile.raw_info q = []
       /\ PersonProfile.name q = PersonProfile.name p.
Proof.
  intros H. split.
  - intros k v. rewrite (of_document_raw_info _ _ _ H).
    rewrite list_elem_of_filter. simpl. tauto.
  - exists (PersonProfile.persisted p).
    by rewrite ProfileSpec.of_document_to_dict.
Qed.

Lemma profile_extended_keys_witness :
  PersonProfile.of_document quiet (JObj Edited.minimal)
  = Ok {| PersonProfile.name := "John Doe"; PersonProfile.aliases := [];
          PersonProfile.professions := ["painter"];
          PersonProfile.bio := None; PersonProfile.location := None;
          PersonProfile.social_profiles := []; PersonProfile.facettes := [];
          PersonProfile.keywords := []; PersonProfile.sources := [];
          PersonProfile.raw_info := [("birth_year", JNum 1970)];
          PersonProfile.created_at := "2024-01-01T00:00:00" |}
  /\ ("birth_year", JNum 1970) ∈ Edited.minimal.
Proof.
  assert (PersonProfile.of_document quiet (JObj Edited.minimal)
          = Ok {| PersonProfile.name := "John Doe";
                  PersonProfile.aliases := [];
                  PersonProfile.professions := ["painter"];
                  PersonProfile.bio := None; PersonProfile.location := None;
                  PersonProfile.social_profiles := [];
                  PersonProfile.facettes := [];
                  PersonProfile.keywords := []; PersonProfile.sources := [];
                  PersonProfile.raw_info := [("birth_year", JNum 1970)];
                  PersonProfile.created_at := "2024-01-01T00:00:00" |}) as H
    by reflexivity.
  split; [exact H|].
  apply (proj1 (proj1 (profile_extended_keys quiet _ _ H)
                  "birth_year" (JNum 1970))).
  left.
Defined.

(** X9: loading a profile raises the error of the missing file when the
    path names none and [KeyError] 'name' when the document has no name; a
    document with a name and no other key the loader knows gives a profile
    with that name, empty lists, no bio, no location, and the time of
    loading as its creation time. *)
Theorem profile_load_defaults (sys : Sys) (path : string)
    (fs : gmap string file) (data : dict) :
  (fs !! path = None ->
   PersonProfile.load sys path fs = (fs, Raise (missing_error sys path)))
  /\ (find_key "name" data = None ->
      PersonProfile.of_document sys (JObj data) = Raise "'name'")
  /\ (forall n,
        find_key "name" data = Some (JStr n) ->
        (forall k, k ∈ PersonProfile.known_keys -> k <> "name" ->
                   find_key k data = None) ->
        exists p,
          PersonProfile.of_document sys (JObj data) = Ok p
          /\ PersonProfile.name p = n
          /\ PersonProfile.aliases p = []
          /\ PersonProfile.professions p = []
          /\ PersonProfile.bio p = None
          /\ PersonProfile.location p = None
          /\ PersonProfile.social_profiles p = []
          /\ PersonProfile.facettes p = []
          /\ PersonProfile.keywords p = []
          /\ PersonProfile.sources p = []
          /\ PersonProfile.created_at p = now_iso sys).
Proof.
  split_and!.
  - intros H. unfold PersonProfile.load, mbind, ST_bind, read_json.
    by rewrite H.
  - intros H. unfold PersonProfile.of_document. cbn. unfold getitem.
    by rewrite H.
  - intros n Hn Hnone.
    assert (forall k, k ∈ PersonProfile.known_keys -> k <> "name" ->
                      forall d, get data k d = d) as Hget.
    { intros k Hk Hne d. unfold get. by rewrite (Hnone k Hk Hne). }
    eexists. split.
    + unfold PersonProfile.of_document. cbn. unfold getitem. rewrite Hn.
      cbn.
      rewrite !Hget by (first [by (repeat (first [left | right])) | done]).
      cbn. reflexivity.
    + by split_and!.
Qed.

Lemma profile_load_defaults_witness :
  (∅ : gmap string file) !! "profile.json" = None
  /\ find_key "name" Edited.nameless = None
  /\ PersonProfile.load quiet "profile.json" ∅
     = (∅, Raise (missing_error quiet "profile.json"))
  /\ PersonProfile.of_document quiet (JObj Edited.nameless)
     = Raise "'name'".
Proof.
  split; [reflexivity|]. split; [reflexivity|]. split.
  - exact (proj1 (profile_load_defaults quiet "profile.json" ∅
                    Edited.nameless) eq_refl).
  - exact (proj1 (proj2 (profile_load_defaults quiet "profile.json" ∅
                           Edited.nameless)) eq_refl).
Defined.

(** X10: the alternate keys are consulted only when the primary key is
    absent, and [save] always writes the primary keys: whatever keys are
    added after those of a saved document (biography, occupations and
    personality_traits included), the profile loaded has the name,
    professions, bio, location, keywords and sources that were saved, and
    its raw information holds the added keys that the loader does not
    know. *)
Theorem saved_keys_win (sys : Sys) (p : PersonProfile.t) (extra : dict) :
  exists q,
    PersonProfile.of_document sys
      (Edited.extended (PersonProfile.to_dict p) extra) = Ok q
    /\ PersonProfile.name q = PersonProfile.name p
    /\ PersonProfile.professions q = PersonProfile.professions p
    /\ PersonProfile.bio q = PersonProfile.bio p
    /\ PersonProfile.location q = PersonProfile.location p
    /\ PersonProfile.keywords q = PersonProfile.keywords p
    /\ PersonProfile.sources q = PersonProfile.sources p
    /\ PersonProfile.facettes q
       = PersonProfile.persisted_facette <$> PersonProfile.facettes p
    /\ PersonProfile.raw_info q
       = filter (fun kv => kv.1 ∉ PersonProfile.known_keys) extra.
Proof.
  eexists. split.
  - unfold PersonProfile.of_document, Edited.extended, PersonProfile.to_dict.
    repeat decode.
    rewrite (ProfileSpec.load_each_map _ _ _ _
               ProfileSpec.load_social_to_dict). cbn.
    rewrite (ProfileSpec.load_each_map _ _ _ _
               ProfileSpec.load_facette_to_dict). cbn.
    reflexivity.
  - split_and!; try reflexivity.
Qed.

End LoadSpec.

(** ** The voice cloner *)
Module ClonerSpec.
Import PyStr FS VoiceCloner.


End ClonerSpec.

(** ** Batches of cloned lines *)
Module BatchSpec.
Import PyStr FS VoiceCloner VoiceClonerBatch.




End BatchSpec.

(** ** More on the avatar *)
Module AvatarExtra.
Import PyStr Json FS Avatar Conversation AvatarStubs.

(** X13: when the language model raises, [chat] raises the same error and
    leaves the engine and the files exactly as they were; when it answers
    and no voice is to be synthesized (not asked for, no cloner, or no
    reference sample), [chat] appends the user turn and the assistant turn,
    returns the stripped text without audio, and touches neither the files
    nor the response counter. *)
Theorem chat_text_only (w : World) (st : State) (message : string)
    (max_tokens : Z) (synthesize_voice : bool) (language : string) :
  (forall msg,
     llm w (_build_prompt (engine st) message) max_tokens = Raise msg ->
     chat w message max_tokens synthesize_voice language st
     = (st, Raise msg))
  /\ (forall response,
        llm w (_build_prompt (engine st) message) max_tokens = Ok response ->
        synthesize_voice && voice_cloner (engine st)
        && truthy_opt (speaker_wav (engine st)) = false ->
        chat w message max_tokens synthesize_voice language st
        = ({| files := files st;
              engine :=
                with_history
                  (history (engine st)
                   ++ [user_turn message;
                       assistant_turn (strip (choice_text response))])
                  (engine st) |},
           Ok {| text := strip (choice_text response); audio_path := None;
                 tokens_used := total_tokens response |})).
Proof.
  split.
  - intros msg H. unfold chat, mbind, ST_bind, the_engine, pure_outcome.
    by rewrite H.
  - intros response H Hoff.
    unfold chat, mbind, ST_bind, mret, ST_ret, the_engine, pure_outcome,
      update_engine.
    rewrite H, Hoff. cbn. by rewrite <- app_assoc.
Qed.

Lemma chat_text_only_witness :
  llm stub_world (_build_prompt stub_engine "Salut") 512
  = Ok {| choice_text := " Bonjour a tous ! "; total_tokens := 42 |}
  /\ (exists resp,
        snd (chat stub_world "Salut" 512 false "fr" stub_state) = Ok resp
        /\ text resp = "Bonjour a tous !" /\ audio_path resp = None)
  /\ fst (chat stub_world "Salut" 512 false "fr" stub_state)
     = {| files := files stub_state;
          engine :=
            with_history
              [user_turn "Salut"; assistant_turn "Bonjour a tous !"]
              stub_engine |}.
Proof.
  split; [reflexivity|].
  rewrite (proj2 (chat_text_only stub_world stub_state "Salut" 512 false
                    "fr") _ eq_refl eq_refl).
  split; [|reflexivity]. eexists. split; [reflexivity|]. by split.
Defined.

Lemma clone_voice_success_file (tts0 : VoiceCloner.TTS)
    (text speaker_wav language out : string) (fs : gmap string file) :
  exists r,
    snd (VoiceCloner.clone_voice tts0 text speaker_wav language out fs)
    = Ok r
    /\ (VoiceCloner.success r = true ->
        VoiceCloner.output_path r = Some (PyPath.parse out)
        /\ is_Some
             (fst (VoiceCloner.clone_voice tts0 text speaker_wav language
                     out fs)
              !! PyPath.str (PyPath.parse out))).
Proof.
  unfold VoiceCloner.clone_voice, VoiceCloner.synthesize,
    VoiceCloner.first_missing, VoiceCloner.failed.
  repeat case_match; simplify_eq; simpl;
    eexists; (split; [reflexivity|]); simpl; try done.
  all: intros _; split; [done|].
  all: match goal with
       | H : bool_decide _ = true |- _ => by apply bool_decide_eq_true_1 in H
       end.
Qed.

(** X14: a [chat] that synthesizes voice uses up one value of the response
    counter whether the cloning succeeds or not, and when it returns an
    audio path, that path is the numbered file under the output directory
    and the file exists. *)
Theorem chat_voice_counter (w : World) (st : State) (message : string)
    (max_tokens : Z) (language wav : string) (response : LlmResponse) :
  voice_cloner (engine st) = true ->
  speaker_wav (engine st) = Some wav ->
  truthy wav = true ->
  llm w (_build_prompt (engine st) message) max_tokens = Ok response ->
  exists st' resp,
    chat w message max_tokens true language st = (st', Ok resp)
    /\ response_counter (engine st') = S (response_counter (engine st))
    /\ forall p,
         audio_path resp = Some p ->
         p = PyPath.parse
               (PyPath.str
                  (output_dir (engine st)
                   // ("response_"
                       +:+ pad4 (S (response_counter (engine st)))
                       +:+ ".wav")))
         /\ is_Some (files st' !! PyPath.str p).
Proof.
  intros Hvc Hwav Htruthy Hllm.
  destruct (clone_voice_success_file (tts w) (strip (choice_text response))
              wav language
              (PyPath.str
                 (output_dir (engine st)
                  // ("response_"
                      +:+ pad4 (S (response_counter (engine st)))
                      +:+ ".wav")))
              (files st)) as (r & Hr & Hsucc).
  unfold chat, voice_of, mbind, ST_bind, mret, ST_ret, the_engine,
    pure_outcome, update_engine, io.
  rewrite Hllm, Hvc, Hwav. cbn [andb truthy_opt]. rewrite Htruthy.
  cbn [engine files with_history with_counter output_dir response_counter
       speaker_wav default history].
  rewrite Hwav. cbn [default].
  destruct (VoiceCloner.clone_voice _ _ _ _ _ (files st)) as [fs' o].
  simpl in Hr, Hsucc. subst o.
  eexists _, _. split; [reflexivity|]. cbn. split; [done|].
  intros p Hp. destruct (VoiceCloner.success r); [|done].
  destruct (Hsucc eq_refl) as [Hout Hfile].
  rewrite Hout in Hp. injection Hp as <-. done.
Qed.

Lemma chat_voice_counter_witness :
  voice_cloner (engine stub_state) = true
  /\ speaker_wav (engine stub_state) = Some "voice.wav"
  /\ exists st' resp,
       chat stub_world "Salut" 512 true "fr" stub_state = (st', Ok resp)
       /\ response_counter (engine st') = 1.
Proof.
  split; [reflexivity|]. split; [reflexivity|].
  destruct (chat_voice_counter stub_world stub_state "Salut" 512 "fr"
              "voice.wav"
              {| choice_text := " Bonjour a tous ! "; total_tokens := 42 |}
              eq_refl eq_refl eq_refl eq_refl)
    as (st' & resp & Hchat & Hcount & _).
  exists st', resp. split; [exact Hchat | exact Hcount].
Defined.

Lemma load_message_dict (msg : ConversationMessage) :
  load_message (message_dict msg) = Ok msg.
Proof. by destruct msg. Qed.

(** X15: a conversation saved with [save_conversation] and loaded with
    [load_conversation] from the same path replaces the history of the
    engine, whatever it has become in between, by the history saved, and
    leaves the rest of the engine and the files alone; a load that raises
    changes nothing. *)
Theorem conversation_roundtrip (sys : Sys) (path : string) (st st1 : State) :
  save_conversation sys path st = (st1, Ok tt) ->
  (forall later,
     load_conversation sys path {| files := files st1; engine := later |}
     = ({| files := files st1;
           engine := with_history (history (engine st)) later |}, Ok tt))
  /\ (forall st2 msg,
        snd (load_conversation sys path st2) = Raise msg ->
        fst (load_conversation sys path st2) = st2).
Proof.
  intros Hsave. split.
  - intros later.
    unfold save_conversation, mbind, ST_bind, the_engine, Avatar.io, write
      in Hsave.
    destruct (write_error sys path); [discriminate|].
    injection Hsave as <-. simpl.
    unfold load_conversation, mbind, ST_bind, Avatar.io, read_json,
      pure_outcome, update_engine. simpl.
    rewrite lookup_insert_eq. cbn.
    rewrite (ProfileSpec.load_each_map _ _ _ _ load_message_dict).
    by rewrite list_fmap_id.
  - intros [fs2 e2] msg.
    unfold load_conversation, mbind, ST_bind, Avatar.io, read_json,
      pure_outcome, update_engine. simpl.
    repeat case_match; simplify_eq; simpl; try done.
Qed.

Lemma conversation_roundtrip_witness :
  save_conversation quiet "talk.json"
    {| files := ∅;
       engine := with_history [user_turn "Salut"; assistant_turn "Bonjour"]
                   stub_engine |}
  = ({| files :=
          <["talk.json" :=
              FJson (conversation_data
                       (with_history
                          [user_turn "Salut"; assistant_turn "Bonjour"]
                          stub_engine))]> ∅;
        engine := with_history [user_turn "Salut"; assistant_turn "Bonjour"]
                    stub_engine |}, Ok tt)
  /\ history
       (engine
          (fst (load_conversation quiet "talk.json"
                  {| files :=
                       <["talk.json" :=
                           FJson (conversation_data
                                    (with_history
                                       [user_turn "Salut";
                                        assistant_turn "Bonjour"]
                                       stub_engine))]> ∅;
                     engine := reset_conversation stub_engine |})))
     = [user_turn "Salut"; assistant_turn "Bonjour"].
Proof.
  split; [reflexivity|].
  exact (f_equal (fun r => history (engine (fst r)))
           (proj1 (conversation_roundtrip quiet "talk.json"
                     {| files := ∅;
                        engine := with_history
                                    [user_turn "Salut";
                                     assistant_turn "Bonjour"]
                                    stub_engine |}
                     _ eq_refl)
              (reset_conversation stub_engine))).
Defined.

(** X16: when the model's stream fails, nothing the consumer does with the
    generator of [chat_stream] changes the engine, and a consumer that keeps
    asking gets every fragment produced before the failure and then the
    error. *)
Theorem chat_stream_failure (w : World) (self : AvatarEngine)
    (message : string) (max_tokens : Z) (msg : string) (ops : list Op) :
  snd (llm_stream w (_build_prompt self message) max_tokens) = Some msg ->
  let tokens := fst (llm_stream w (_build_prompt self message) max_tokens) in
  let g := chat_stream message max_tokens in
  snd (fst (consume w ops g self)) = self
  /\ snd (consume w (replicate (S (length tokens)) DoNext) g self)
     = (Yield <$> tokens) ++ [Raised msg].
Proof.
  intros Hfail. cbv zeta. unfold chat_stream. split.
  - destruct (AvatarSpec.consume_created w ops message max_tokens self)
      as [-> _].
    destruct (AvatarSpec.consume_suspended w ops message ""
                (fst (llm_stream w (_build_prompt self message) max_tokens))
                (snd (llm_stream w (_build_prompt self message) max_tokens))
                self) as [[H _]|(Hnone & _)]; [done|].
    congruence.
  - destruct (AvatarSpec.consume_created w
                (replicate
                   (S (length
                         (fst (llm_stream w (_build_prompt self message)
                                 max_tokens)))) DoNext)
                message max_tokens self) as [_ ->].
    rewrite replicate_S_end.
    rewrite (AvatarSpec.consume_nexts w _ _ message "" _ _ self) by done.
    rewrite firstn_all, drop_all, Hfail. reflexivity.
Qed.

Lemma chat_stream_failure_witness :
  snd (llm_stream failing_stream_world
         (_build_prompt stub_engine "Salut") 512) = Some "connection lost"
  /\ snd (fst (consume failing_stream_world [DoNext; DoNext; DoNext]
                 (chat_stream "Salut" 512) stub_engine)) = stub_engine.
Proof.
  split; [reflexivity|].
  exact (proj1 (chat_stream_failure failing_stream_world stub_engine "Salut"
                  512 "connection lost" [DoNext; DoNext; DoNext] eq_refl)).
Defined.

End AvatarExtra.

(** ** The pipeline: what every run keeps *)
Module PipelineExtra.
Import PyStr Json FS Orchestrator PipelineStubs.

Section Invariants.
Variable w : World.
Variable config : PipelineConfig.

(** What a phase that returned [True] did to the record, field by field. *)
Lemma phase_true_fields (ph : Phase) (st st1 : State) :
  run_phase w config ph st = (st1, true) ->
  entered st1 = entered st ++ [ph]
  /\ success (result st1) = success (result st)
  /\ error (result st1) = error (result st)
  /\ exists l, sublist l [ph]
       /\ steps_completed (result st1)
          = steps_completed (result st) ++ (step_name <$> l).
Proof.
  intros H.
  pose proof (OrchestratorSpec.run_phase_spec w config ph st) as [He Hr].
  rewrite H in He, Hr. simpl in He, Hr. split; [exact He|].
  destruct Hr as [->|Hr].
  - split; [done|]. split; [done|]. exists []. split.
    + apply sublist_nil_l.
    + by rewrite app_nil_r.
  - apply OrchestratorSpec.updated_fields in Hr as (Hst & Hs & Herr & _).
    split; [done|]. split; [done|]. by exists [ph].
Qed.

Lemma phase_false_fields (ph : Phase) (st st1 : State) :
  run_phase w config ph st = (st1, false) ->
  entered st1 = entered st ++ [ph]
  /\ exists msg, result st1 = set_error msg (result st).
Proof.
  intros H.
  pose proof (OrchestratorSpec.run_phase_spec w config ph st) as [He Hr].
  rewrite H in He, Hr. simpl in He, Hr. split; [exact He|].
  destruct Hr as (msg & _ & Hr). by exists msg.
Qed.

(** The loop over the phases: success is not touched, the error is kept
    while the phases return [True] and set by the one that returns [False],
    the phases entered are a prefix of the list, and the steps recorded are
    steps of phases entered, in their order. *)
Lemma run_phases_trace (phases : list Phase) (st st' : State) (ok : bool) :
  run_phases w config phases st = (st', ok) ->
  success (result st') = success (result st)
  /\ (if ok
      then error (result st') = error (result st)
           /\ entered st' = entered st ++ phases
      else exists msg, error (result st') = Some msg)
  /\ exists gone after l,
       phases = gone ++ after
       /\ entered st' = entered st ++ gone
       /\ sublist l gone
       /\ steps_completed (result st')
          = steps_completed (result st) ++ (step_name <$> l).
Proof.
  revert st. induction phases as [|ph phases IH]; intros st; simpl.
  - intros [= <- <-]. split; [done|]. split; [by rewrite app_nil_r|].
    exists [], [], []. by rewrite !app_nil_r.
  - destruct (run_phase w config ph st) as [st1 ok1] eqn:E.
    destruct ok1.
    + apply phase_true_fields in E as (He & Hs & Herr & l1 & Hl1 & Hst1).
      intros H. apply IH in H
        as (Hs' & Hok & gone & after & l & Hplan & Hent & Hsub & Hsteps).
      split; [congruence|]. split.
      * destruct ok; [|done]. destruct Hok as [Herr' Hent'].
        split; [congruence|]. by rewrite Hent', He, <- app_assoc.
      * exists (ph :: gone), after, (l1 ++ l).
        split; [simpl; congruence|].
        split; [by rewrite Hent, He, <- app_assoc|].
        split; [change (ph :: gone) with ([ph] ++ gone);
                by apply sublist_app|].
        by rewrite Hsteps, Hst1, fmap_app, app_assoc.
    + apply phase_false_fields in E as (He & msg & Hres).
      intros [= <- <-]. rewrite Hres. simpl.
      split; [done|]. split; [by eexists|].
      exists [ph], phases, []. split_and!; try done.
      * apply sublist_nil_l.
      * by rewrite app_nil_r.
Qed.

Lemma start_fields (skip_research : bool) (st : State) :
  success (result (start config skip_research st)) = success (result st)
  /\ error (result (start config skip_research st)) = error (result st)
  /\ steps_completed (result (start config skip_research st))
     = steps_completed (result st)
  /\ entered (start config skip_research st) = entered st
  /\ files (start config skip_research st) = files st.
Proof. by destruct skip_research. Qed.

(** X17: on a fresh pipeline, [run] returns success exactly when it records
    no error; a successful run went through the whole plan; the phases gone
    through are always a prefix of the plan, and the steps completed are
    steps of phases gone through, each at most once and in the order of the
    plan. *)
Theorem run_fresh_invariants (skip_research : bool) (fs : gmap string file) :
  let final := run w config skip_research (init config fs) in
  (success (result final) = true <-> error (result final) = None)
  /\ (success (result final) = true ->
      entered final = plan config skip_research)
  /\ (exists after, plan config skip_research = entered final ++ after)
  /\ sublist (steps_completed (result final)) (step_name <$> entered final).
Proof.
  cbv zeta. rewrite OrchestratorSpec.run_as_loop.
  destruct (OrchestratorSpec.init_result config fs skip_research)
    as (He0 & Hs0 & Herr0 & Hst0 & _). cbv zeta in He0, Hs0, Herr0, Hst0.
  destruct (run_phases w config (plan config skip_research)
              (start config skip_research (init config fs)))
    as [st' ok] eqn:E.
  apply run_phases_trace in E
    as (Hs & Hok & gone & after & l & Hplan & Hent & Hsub & Hsteps).
  rewrite He0 in Hent. rewrite Hst0 in Hsteps. simpl in Hent, Hsteps.
  destruct ok.
  - destruct Hok as [Herr Hent']. rewrite He0 in Hent'. simpl in Hent'.
    simpl. split; [split; [congruence | done]|].
    split; [done|]. split.
    + exists []. by rewrite app_nil_r.
    + rewrite Hsteps, Hent. by apply fmap_sublist.
  - destruct Hok as [msg Hmsg]. split.
    + split; congruence.
    + split; [congruence|]. split.
      * exists after. congruence.
      * rewrite Hsteps, Hent. by apply fmap_sublist.
Qed.

(** X18: [run] only adds to the result record it is given: either every
    phase returned [True], and the run sets success and leaves the error as
    it found it (also an error left by an earlier run on the same pipeline),
    or a phase returned [False], and the run sets an error and leaves success
    as it found it; the steps already recorded stay, as a prefix of the new
    list. *)
Theorem run_accumulates (skip_research : bool) (st : State) :
  let final := run w config skip_research st in
  ((success (result final) = true
    /\ error (result final) = error (result st))
   \/ (success (result final) = success (result st)
       /\ exists msg, error (result final) = Some msg))
  /\ steps_completed (result st) `prefix_of` steps_completed (result final).
Proof.
  cbv zeta. rewrite OrchestratorSpec.run_as_loop.
  destruct (start_fields skip_research st) as (Hs0 & Herr0 & Hst0 & _ & _).
  destruct (run_phases w config (plan config skip_research)
              (start config skip_research st)) as [st' ok] eqn:E.
  apply run_phases_trace in E
    as (Hs & Hok & gone & after & l & _ & _ & _ & Hsteps).
  split.
  - destruct ok.
    + left. destruct Hok as [Herr _]. simpl. split; [done | congruence].
    + right. split; [congruence | exact Hok].
  - exists (step_name <$> l). destruct ok; simpl; congruence.
Qed.

(** X19: with no audio URL and an audio file that does not exist, the audio
    phase returns [False] with the error [Audio file not found: <path>], the
    path as [pathlib] prints it, and touches neither the files nor the steps;
    a run that skips research stops there. *)
Theorem audio_file_missing (f : string) (st : State) :
  truthy_opt (audio_url config) = false ->
  audio_file config = Some f ->
  truthy f = true ->
  files st !! PyPath.str (PyPath.parse f) = None ->
  run_audio w config st
  = ({| files := files st;
        result := set_error
                    ("Audio file not found: " +:+ PyPath.str (PyPath.parse f))
                    (result st);
        entered := entered st ++ [Audio] |}, false)
  /\ run w config true st
     = {| files := files st;
          result := set_error
                      ("Audio file not found: "
                       +:+ PyPath.str (PyPath.parse f))
                      (set_profile_path (conventional_profile_path config)
                         (result st));
          entered := entered st ++ [Audio] |}.
Proof.
  intros Hurl Hfile Hf Hnone.
  assert (forall st0, files st0 = files st ->
            run_audio w config st0
            = ({| files := files st;
                  result := set_error
                              ("Audio file not found: "
                               +:+ PyPath.str (PyPath.parse f))
                              (result st0);
                  entered := entered st0 ++ [Audio] |}, false)) as Hphase.
  { intros st0 Hfs. unfold run_audio, try_phase, audio_body, audio_source.
    rewrite Hurl, Hfile. cbn [truthy_opt default]. rewrite Hf. cbv zeta.
    unfold mbind, ST_bind, io, exists_.
    change (files (enter Audio st0)) with (files st0). unfold id.
    rewrite Hfs, Hnone.
    rewrite bool_decide_eq_false_2 by (by intros [? ?]). reflexivity. }
  split; [by apply Hphase|].
  unfold run, has_audio_source. cbn [negb]. rewrite Hurl, Hfile.
  cbn [truthy_opt orb]. rewrite Hf.
  rewrite Hphase by reflexivity. reflexivity.
Qed.

(** X20: when an audio URL is configured the audio file is not looked at:
    two configurations with the same URL and subject directory give the same
    audio phase whatever their audio files; and a download that reports a
    failure makes the phase return [False] with the error
    [Download failed: <error>], without separation and without the step. *)
Theorem audio_url_first (config' : PipelineConfig) (st : State) :
  truthy_opt (audio_url config) = true ->
  audio_url config' = audio_url config ->
  get_subject_dir config' = get_subject_dir config ->
  run_audio w config' st = run_audio w config st
  /\ forall d,
       AudioTools.download (audio w)
         (PyPath.str (get_subject_dir config // "audio"))
         (default "" (audio_url config)) "source" = Ok d ->
       AudioTools.d_success d = false ->
       run_audio w config st
       = ({| files := files st;
             result := set_error
                         ("Download failed: "
                          +:+ fmt_opt (AudioTools.d_error d))
                         (result st);
             entered := entered st ++ [Audio] |}, false).
Proof.
  intros Hurl Hsame Hdir. split.
  - unfold run_audio, audio_body, audio_source, the_subject_dir.
    by rewrite Hsame, Hdir, Hurl.
  - intros d Hd Hfail.
    unfold run_audio, try_phase, audio_body, audio_source, the_subject_dir.
    rewrite Hurl. unfold mbind, ST_bind, pure_outcome.
    rewrite Hd, Hfail. reflexivity.
Qed.

(** X21: without the search client library, or without an API key in the
    environment, a run that does not skip research fails in the research
    phase: the error is the fixed message of the searcher, nothing is
    written, no profile path is set and no later phase is entered. *)
Theorem research_needs_key (fs : gmap string file) :
  Searcher.HAS_TAVILY (tavily w) = false
  \/ truthy_opt (Searcher.TAVILY_API_KEY (tavily w)) = false ->
  run w config false (init config fs)
  = {| files := fs;
       result :=
         set_error
           (if Searcher.HAS_TAVILY (tavily w)
            then "Tavily API key required. Set TAVILY_API_KEY environment variable."
            else "tavily-python not installed. Run: pip install tavily-python")
           (result (init config fs));
       entered := [Research] |}.
Proof.
  intros H. unfold run, run_research, try_phase, research_body. cbn [negb].
  unfold mbind at 1, ST_bind at 1, pure_outcome at 1.
  unfold Searcher.init, or_else.
  destruct (Searcher.HAS_TAVILY (tavily w)); cbn [negb]; [|reflexivity].
  destruct H as [H|H]; [discriminate|].
  destruct (Searcher.TAVILY_API_KEY (tavily w)) as [k|]; [|reflexivity].
  simpl in H. rewrite H. reflexivity.
Qed.

End Invariants.

Lemma audio_file_missing_witness :
  truthy_opt (audio_url (make_config "John Doe" None None (Some "talk.wav")))
  = false
  /\ error (result (run (stub_world (Ok one_result))
                      (make_config "John Doe" None None (Some "talk.wav"))
                      true
                      (init (make_config "John Doe" None None
                               (Some "talk.wav")) ∅)))
     = Some "Audio file not found: talk.wav".
Proof.
  split; [reflexivity|].
  assert ((∅ : gmap string file) !! PyPath.str (PyPath.parse "talk.wav")
          = None) as H by reflexivity.
  exact (f_equal (fun s => error (result s))
           (proj2 (audio_file_missing (stub_world (Ok one_result))
                     (make_config "John Doe" None None (Some "talk.wav"))
                     "talk.wav"
                     (init (make_config "John Doe" None None
                              (Some "talk.wav")) ∅)
                     eq_refl eq_refl eq_refl H))).
Defined.

Lemma audio_url_first_witness :
  truthy_opt (audio_url (make_config "John Doe" None
                           (Some "https://example.org/talk") None)) = true
  /\ run_audio (stub_world (Ok one_result))
       (make_config "John Doe" None (Some "https://example.org/talk")
          (Some "talk.wav"))
       (init john_doe ∅)
     = run_audio (stub_world (Ok one_result))
         (make_config "John Doe" None (Some "https://example.org/talk") None)
         (init john_doe ∅).
Proof.
  split; [reflexivity|].
  exact (proj1 (audio_url_first (stub_world (Ok one_result))
                  (make_config "John Doe" None
                     (Some "https://example.org/talk") None)
                  (make_config "John Doe" None
                     (Some "https://example.org/talk") (Some "talk.wav"))
                  (init john_doe ∅) eq_refl eq_refl eq_refl)).
Defined.

Lemma research_needs_key_witness :
  truthy_opt (Searcher.TAVILY_API_KEY (tavily keyless_world)) = false
  /\ error (result (run keyless_world john_doe false (init john_doe ∅)))
     = Some "Tavily API key required. Set TAVILY_API_KEY environment variable.".
Proof.
  split; [reflexivity|].
  exact (f_equal (fun s => error (result s))
           (research_needs_key keyless_world john_doe ∅
              (or_intror eq_refl))).
Defined.

End PipelineExtra.

(** ** The default templates *)
Module TemplatesSpec.
Import PyStr Json FS DocumentGenerator.

Lemma ensure_template_spec (sys : Sys) (file_name content : string)
    (fs fs' : gmap string file) (o : outcome unit) :
  ensure_template sys file_name content fs = (fs', o) ->
  (forall p f, fs !! p = Some f -> fs' !! p = Some f)
  /\ (o = Ok tt -> is_Some (fs' !! PyPath.str (templates_dir // file_name)))
  /\ (o <> Ok tt -> fs' = fs).
Proof.
  unfold ensure_template. cbv zeta. unfold mbind, ST_bind, exists_, write.
  set (path := PyPath.str _).
  destruct (bool_decide (is_Some (fs !! path))) eqn:E; cbn [negb].
  - intros [= <- <-]. split; [done|]. split; [|done].
    intros _. by apply bool_decide_eq_true_1 in E.
  - apply bool_decide_eq_false_1 in E.
    destruct (write_error sys path); intros [= <- <-].
    + split; [done|]. split; [done|]. done.
    + split.
      * intros p f Hp. rewrite lookup_insert_ne; [done|].
        intros <-. apply E. by eexists.
      * split; [|done]. intros _. rewrite lookup_insert_eq. by eexists.
Qed.

Lemma ensure_template_there (sys : Sys) (file_name content : string)
    (fs : gmap string file) :
  is_Some (fs !! PyPath.str (templates_dir // file_name)) ->
  ensure_template sys file_name content fs = (fs, Ok tt).
Proof.
  intros H. unfold ensure_template. cbv zeta.
  unfold mbind, ST_bind, exists_.
  by rewrite bool_decide_eq_true_2.
Qed.

(** X22: building a [DocumentGenerator] never changes a file that exists,
    so a template edited by hand is kept; when it succeeds the three
    default templates exist, and building a second generator changes
    nothing; without the template library it raises and writes nothing. *)
Theorem init_templates (sys : Sys) (jinja : Jinja) (fs : gmap string file) :
  let fs' := fst (init sys jinja fs) in
  (forall p f, fs !! p = Some f -> fs' !! p = Some f)
  /\ (snd (init sys jinja fs) = Ok tt ->
      (forall file_name,
         file_name ∈ ["profile.md.j2"; "facettes.md.j2";
                      "system_prompt.md.j2"] ->
         is_Some (fs' !! PyPath.str (templates_dir // file_name)))
      /\ init sys jinja fs' = (fs', Ok tt))
  /\ (HAS_JINJA jinja = false ->
      init sys jinja fs
      = (fs, Raise "jinja2 not installed. Run: pip install jinja2")).
Proof.
  cbv zeta. unfold init.
  destruct (HAS_JINJA jinja); cbn [negb]; [|by split_and!].
  split_and!; [| |done].
  - unfold _ensure_default_templates, mbind, ST_bind.
    destruct (ensure_template sys "profile.md.j2" DEFAULT_PROFILE_TEMPLATE fs)
      as [fs1 o1] eqn:E1.
    apply ensure_template_spec in E1 as (K1 & _ & _).
    destruct o1 as [[]|msg]; [|exact K1].
    destruct (ensure_template sys "facettes.md.j2" DEFAULT_FACETTES_TEMPLATE
                fs1) as [fs2 o2] eqn:E2.
    apply ensure_template_spec in E2 as (K2 & _ & _).
    destruct o2 as [[]|msg]; [|by auto].
    destruct (ensure_template sys "system_prompt.md.j2"
                DEFAULT_PROMPT_TEMPLATE fs2) as [fs3 o3] eqn:E3.
    apply ensure_template_spec in E3 as (K3 & _ & _).
    simpl. by auto.
  - unfold _ensure_default_templates, mbind, ST_bind.
    destruct (ensure_template sys "profile.md.j2" DEFAULT_PROFILE_TEMPLATE fs)
      as [fs1 o1] eqn:E1.
    apply ensure_template_spec in E1 as (K1 & T1 & _).
    destruct o1 as [[]|msg]; [|done].
    destruct (ensure_template sys "facettes.md.j2" DEFAULT_FACETTES_TEMPLATE
                fs1) as [fs2 o2] eqn:E2.
    apply ensure_template_spec in E2 as (K2 & T2 & _).
    destruct o2 as [[]|msg]; [|done].
    destruct (ensure_template sys "system_prompt.md.j2"
                DEFAULT_PROMPT_TEMPLATE fs2) as [fs3 o3] eqn:E3.
    apply ensure_template_spec in E3 as (K3 & T3 & _).
    cbn [fst snd]. intros ->.
    destruct (T1 eq_refl) as [f1 H1]. destruct (T2 eq_refl) as [f2 H2].
    specialize (T3 eq_refl).
    assert (is_Some (fs3 !! PyPath.str (templates_dir // "profile.md.j2")))
      as S1 by (eexists; by apply K3, K2).
    assert (is_Some (fs3 !! PyPath.str (templates_dir // "facettes.md.j2")))
      as S2 by (eexists; by apply K3).
    split.
    + intros file_name Hin.
      repeat (apply elem_of_cons in Hin as [->|Hin]; [done|]).
      by apply elem_of_nil in Hin.
    + rewrite (ensure_template_there _ _ _ _ S1).
      rewrite (ensure_template_there _ _ _ _ S2).
      by rewrite (ensure_template_there _ _ _ _ T3).
Qed.

End TemplatesSpec.

(** ** What the phases leave on disk *)
Module PhaseFiles.
Import PyStr Json FS Orchestrator PipelineStubs.

Lemma append_cancel_l (s a b : string) : s +:+ a = s +:+ b -> a = b.
Proof.
  induction s as [|c s IH]; [done|].
  change (String c (s +:+ a) = String c (s +:+ b) -> a = b).
  intros [= H]. by apply IH.
Qed.

Lemma join_snoc (sep : string) (l : list string) (a : string) :
  join sep (l ++ [a])
  = match l with [] => "" | _ => join sep l +:+ sep end +:+ a.
Proof.
  induction l as [|x l IH]; [done|].
  change (join sep ((x :: l) ++ [a]))
    with (join sep (x :: (l ++ [a]))).
  destruct l as [|y l].
  - simpl. by rewrite PyStrFacts.append_assoc.
  - change (join sep (x :: (y :: l) ++ [a]))
      with (x +:+ sep +:+ join sep ((y :: l) ++ [a])).
    rewrite IH.
    change (join sep (x :: y :: l)) with (x +:+ sep +:+ join sep (y :: l)).
    by rewrite !PyStrFacts.append_assoc.
Qed.

(** Two different file names under one directory are two different
    paths. *)
Lemma sibling_paths (p : PyPath.Path) (a b : string) :
  PyPath.parse a = {| PyPath.root := ""; PyPath.parts := [a] |} ->
  PyPath.parse b = {| PyPath.root := ""; PyPath.parts := [b] |} ->
  PyPath.str (p // a) = PyPath.str (p // b) -> a = b.
Proof.
  intros Ha Hb. unfold PyPath.joinpath. rewrite Ha, Hb. cbn [PyPath.root truthy].
  unfold PyPath.str. cbn [PyPath.root PyPath.parts].
  assert (forall x, PyPath.parts p ++ [x] <> []) as Hne
    by (intros x; by destruct (PyPath.parts p)).
  destruct (PyPath.root p) as [|c r].
  - destruct (PyPath.parts p ++ [a]) eqn:Ea; [by apply Hne in Ea|].
    destruct (PyPath.parts p ++ [b]) eqn:Eb; [by apply Hne in Eb|].
    rewrite <- Ea, <- Eb, !join_snoc.
    intros H. apply append_cancel_l in H. by apply append_cancel_l in H.
  - rewrite !join_snoc, <- !PyStrFacts.append_assoc. apply append_cancel_l.
Qed.

Lemma load_keeps_files (sys0 : Sys) (path : string) (fs : gmap string file) :
  fst (PersonProfile.load sys0 path fs) = fs.
Proof.
  unfold PersonProfile.load, mbind, ST_bind, read_json, pure_outcome.
  by destruct (fs !! path) as [[]|].
Qed.

Section Phases.
Variable w : World.
Variable config : PipelineConfig.

(** X23: a persona phase that found the profile and returned [True] has
    written both persona.json and system_prompt.txt under the subject
    directory and nothing else; the persona path of the result names
    persona.json, the step is recorded, and the system prompt that
    [PersonaPrompt.load] reads back from persona.json is the text of
    system_prompt.txt, both generated from the profile on disk. *)
Theorem persona_files_agree (st st' : State) :
  is_Some (files st !! PyPath.str (conventional_profile_path config)) ->
  run_persona w config st = (st', true) ->
  exists profile,
    PersonProfile.load (sys w)
      (PyPath.str (conventional_profile_path config)) (files st)
    = (files st, Ok profile)
    /\ persona_path (result st')
       = Some (get_subject_dir config // "persona.json")
    /\ steps_completed (result st')
       = steps_completed (result st) ++ ["persona"]
    /\ files st' !! PyPath.str (get_subject_dir config // "system_prompt.txt")
       = Some (FText (PersonaPrompt.system_prompt
                        (PromptGenerator.generate profile "" None)))
    /\ PersonaPromptFile.load (sys w)
         (PyPath.str (get_subject_dir config // "persona.json")) (files st')
       = (files st',
          Ok (PersonaPromptFile.persisted
                (PromptGenerator.generate profile "" None)))
    /\ forall p,
         p <> PyPath.str (get_subject_dir config // "persona.json") ->
         p <> PyPath.str (get_subject_dir config // "system_prompt.txt") ->
         files st' !! p = files st !! p.
Proof.
  intros Hthere Hrun.
  unfold run_persona, try_phase, persona_body in Hrun. cbv zeta in Hrun.
  unfold conventional_profile_path in *.
  pose proof (load_keeps_files (sys w)
                (PyPath.str (the_subject_dir config // "research"
                             // "profile.json")) (files st)) as Hkeep.
  unfold mbind, ST_bind, io, exists_, update_result, PersonaPrompt.save,
    write in Hrun.
  change (files (enter Persona st)) with (files st) in Hrun.
  rewrite bool_decide_eq_true_2 in Hrun by done. cbn [negb files] in Hrun.
  destruct (PersonProfile.load (sys w) _ (files st)) as [fs1 [profile|msg]];
    [|discriminate].
  simpl in Hkeep. subst fs1. cbn [files result entered] in Hrun.
  destruct (write_error (sys w)
              (PyPath.str (the_subject_dir config // "persona.json")));
    [discriminate|].
  cbn [files result entered] in Hrun.
  destruct (write_error (sys w)
              (PyPath.str (the_subject_dir config // "system_prompt.txt")));
    [discriminate|].
  injection Hrun as <-. exists profile. unfold the_subject_dir.
  cbn [files result].
  assert (PyPath.str (get_subject_dir config // "persona.json")
          <> PyPath.str (get_subject_dir config // "system_prompt.txt"))
    as Hne.
  { intros H. by apply sibling_paths in H. }
  split_and!; try done.
  - apply lookup_insert_eq.
  - unfold PersonaPromptFile.load, mbind, ST_bind, read_json.
    rewrite lookup_insert_ne by done. rewrite lookup_insert_eq.
    unfold pure_outcome. by rewrite LoadSpec.persona_of_document_data.
  - intros p Hp1 Hp2. by rewrite !lookup_insert_ne.
Qed.

(** X24: a research phase that returned [True] has written only the
    profile file, at the conventional path, which is the profile path of
    the result; the profile carries the subject's name as configured, and
    [PersonProfile.load] reads it back, so the documentation and persona
    phases that follow find it. *)
Theorem research_leaves_profile (api_key : option string) (st st' : State) :
  run_research w config api_key st = (st', true) ->
  exists profile,
    PersonProfile.name profile = subject_name config
    /\ profile_path (result st') = Some (conventional_profile_path config)
    /\ steps_completed (result st')
       = steps_completed (result st) ++ ["research"]
    /\ files st' !! PyPath.str (conventional_profile_path config)
       = Some (FJson (PersonProfile.to_dict profile))
    /\ PersonProfile.load (sys w)
         (PyPath.str (conventional_profile_path config)) (files st')
       = (files st', Ok (PersonProfile.persisted profile))
    /\ forall p,
         p <> PyPath.str (conventional_profile_path config) ->
         files st' !! p = files st !! p.
Proof.
  intros Hrun.
  unfold run_research, try_phase, research_body in Hrun. cbv zeta in Hrun.
  unfold mbind, ST_bind, pure_outcome, io, update_result,
    PersonProfile.save, write in Hrun.
  destruct (Searcher.init (tavily w) api_key) as [key|]; [|discriminate].
  destruct (Searcher.search (sys w) (tavily w) key (subject_name config)
              (subject_context config)) as [results|] eqn:Hsearch;
    [|discriminate].
  cbn [files result entered enter] in Hrun.
  destruct (write_error (sys w) _); [discriminate|].
  injection Hrun as <-.
  exists (InfoExtractor.extract_profile (sys w) results).
  unfold conventional_profile_path. cbn [files result].
  split_and!; try done.
  - simpl. by apply OrchestratorSpec.search_name in Hsearch.
  - apply lookup_insert_eq.
  - rewrite (ProfileSpec.load_of_file _ _ _ _ (lookup_insert_eq _ _ _)).
    by rewrite ProfileSpec.of_document_to_dict.
  - intros p Hp. by rewrite lookup_insert_ne.
Qed.

End Phases.

Lemma persona_files_agree_witness :
  exists st',
    run_persona (stub_world (Ok one_result)) john_doe
      (init john_doe profile_on_disk) = (st', true)
    /\ is_Some (files st' !! "data/subjects/john_doe/system_prompt.txt").
Proof.
  assert (is_Some (files (init john_doe profile_on_disk)
                   !! PyPath.str (conventional_profile_path john_doe)))
    as Hthere by (by eexists).
  eexists. split; [reflexivity|].
  destruct (persona_files_agree (stub_world (Ok one_result)) john_doe
              (init john_doe profile_on_disk) _ Hthere eq_refl)
    as (profile & _ & _ & _ & Hfile & _).
  eexists. exact Hfile.
Defined.

Lemma research_leaves_profile_witness :
  exists st',
    run_research (stub_world (Ok one_result)) john_doe None
      (init john_doe ∅) = (st', true)
    /\ profile_path (result st')
       = Some (conventional_profile_path john_doe).
Proof.
  eexists. split; [reflexivity|].
  destruct (research_leaves_profile (stub_world (Ok one_result)) john_doe
              None (init john_doe ∅) _ eq_refl)
    as (profile & _ & Hpath & _).
  exact Hpath.
Defined.

End PhaseFiles.

(** ** The corrections of a transcription *)
Module CorrectionsSpec.
Import PyStr Corrections.

Lemma append_cons (c : ascii) (a x : string) :
  String c a +:+ x = String c (a +:+ x).
Proof. reflexivity. Qed.

Lemma append_nil_l (x : string) : "" +:+ x = x.
Proof. reflexivity. Qed.

Lemma single_spaced_collapse (s : string) (b : bool) :
  single_spaced (collapse_go s b) b = true.
Proof.
  revert b. induction s as [|c s IH]; intros b; simpl; [done|].
  destruct (isspace c) eqn:Hc.
  - destruct b; [apply IH|]. simpl. apply IH.
  - simpl. rewrite Hc. apply IH.
Qed.

Lemma single_spaced_lstrip (s : string) (b : bool) :
  single_spaced s b = true -> single_spaced (lstrip s) false = true.
Proof.
  revert b. induction s as [|c s IH]; intros b; simpl; [done|].
  destruct (isspace c) eqn:Hc.
  - intros H. apply andb_true_iff in H as [_ H]. by apply (IH true).
  - intros H. simpl. by rewrite Hc.
Qed.

Lemma single_spaced_rstrip (s : string) (b : bool) :
  single_spaced s b = true -> single_spaced (rstrip s) b = true.
Proof.
  revert b. induction s as [|c s IH]; intros b; simpl; [done|].
  destruct (isspace c) eqn:Hc.
  - intros H. apply andb_true_iff in H as [H1 H]. apply IH in H.
    destruct (rstrip s); [done|]. cbn [single_spaced]. rewrite Hc, H1.
    exact H.
  - intros H. apply IH in H.
    destruct (rstrip s); cbn [single_spaced]; by rewrite Hc.
Qed.

Lemma collapse_fixed (s : string) (b : bool) :
  single_spaced s b = true -> collapse_go s b = s.
Proof.
  revert b. induction s as [|c s IH]; intros b; simpl; [done|].
  destruct (isspace c) eqn:Hc.
  - intros H. apply andb_true_iff in H as [H1 H].
    apply andb_true_iff in H1 as [Hsp Hb].
    apply Ascii.eqb_eq in Hsp as ->. destruct b; [discriminate|].
    f_equal. by apply IH.
  - intros H. f_equal. by apply IH.
Qed.

(** [rstrip] of a concatenation. *)
Lemma rstrip_app (a x : string) :
  rstrip (a +:+ x)
  = match rstrip x with EmptyString => rstrip a | r => a +:+ r end.
Proof.
  induction a as [|c a IH].
  - rewrite append_nil_l. by destruct (rstrip x).
  - rewrite append_cons. cbn [rstrip]. rewrite IH.
    destruct (rstrip x) as [|d r]; [done|].
    rewrite append_cons. by destruct a.
Qed.

Lemma lstrip_collapse (s : string) :
  lstrip (collapse_go s false) = collapse_go s true
  /\ lstrip (collapse_go s true) = collapse_go s true.
Proof.
  induction s as [|c s [IH1 IH2]]; simpl; [done|].
  destruct (isspace c) eqn:Hc.
  - split; [|exact IH2]. simpl. exact IH2.
  - simpl. by rewrite Hc.
Qed.

Lemma split_go_truthy (s cur : string) :
  Forall (fun word => truthy word = true) (split_go s cur).
Proof.
  revert cur. induction s as [|c s IH]; intros cur; simpl.
  - destruct (truthy cur) eqn:E; by repeat constructor.
  - destruct (isspace c); [|apply IH].
    destruct (truthy cur) eqn:E; [|apply IH]. constructor; [done | apply IH].
Qed.

Lemma join_truthy (sep word : string) (l : list string) :
  truthy word = true -> truthy (join sep (word :: l)) = true.
Proof.
  intros H. destruct word as [|c word]; [discriminate|].
  destruct l; [done|]. reflexivity.
Qed.

(** Reading [s] after the word [cur]: what the cleanup leaves is the words
    joined by single spaces. *)
Lemma collapse_words (s cur : string) :
  rstrip cur = cur ->
  rstrip (cur +:+ collapse_go s (negb (truthy cur)))
  = join " " (split_go s cur).
Proof.
  revert cur. induction s as [|c s IH]; intros cur Hcur.
  - simpl. rewrite PyStrFacts.append_nil_r, Hcur.
    by destruct cur.
  - cbn [collapse_go split_go]. destruct (isspace c) eqn:Hc.
    + destruct cur as [|d cur]; cbn [truthy negb].
      * apply (IH "" eq_refl).
      * pose proof (IH "" eq_refl) as H0.
        rewrite append_nil_l in H0. cbn [truthy negb] in H0.
        pose proof (split_go_truthy s "") as Hwords.
        rewrite rstrip_app. cbn [rstrip]. rewrite H0.
        destruct (split_go s "") as [|word words].
        -- simpl. exact Hcur.
        -- apply Forall_cons in Hwords as [Hword _].
           pose proof (join_truthy " " word words Hword) as Hj.
           destruct (join " " (word :: words)) as [|e r] eqn:Ej;
             [discriminate|].
           change (join " " (String d cur :: word :: words))
             with (String d cur +:+ " " +:+ join " " (word :: words)).
           by rewrite Ej.
    + assert (rstrip (cur +:+ String c "") = cur +:+ String c "") as Hnext.
      { rewrite rstrip_app. simpl. by rewrite Hc. }
      assert (truthy (cur +:+ String c "") = true) as Ht
        by (by destruct cur).
      specialize (IH _ Hnext). rewrite Ht in IH. cbn [negb] in IH.
      rewrite <- IH, PyStrFacts.append_assoc.
      by destruct (negb (truthy cur)).
Qed.

(** X25: whatever the substitutions did, [_apply_corrections] returns the
    words of the substituted text joined by single spaces: no whitespace at
    either end, no whitespace but the space, no two spaces in a row; the
    cleanup applied to its own result changes nothing, and for a language
    other than French, which has no substitutions, correcting twice is
    correcting once. *)
Theorem apply_corrections_words
    (re_sub : string -> string -> string -> string)
    (text language : string) :
  let corrected := _apply_corrections re_sub text language in
  corrected = join " " (split (substituted re_sub text language))
  /\ strip corrected = corrected
  /\ single_spaced corrected false = true
  /\ collapse_spaces corrected = corrected
  /\ (language <> "fr" ->
      _apply_corrections re_sub text language = join " " (split text)
      /\ _apply_corrections re_sub corrected language = corrected).
Proof.
  cbv zeta. unfold _apply_corrections.
  set (t := substituted re_sub text language).
  assert (single_spaced (strip (collapse_spaces t)) false = true) as Hss.
  { unfold strip, collapse_spaces.
    apply single_spaced_rstrip, (single_spaced_lstrip _ false),
      single_spaced_collapse. }
  assert (strip (collapse_spaces t) = join " " (split t)) as Hwords.
  { unfold strip, collapse_spaces, split.
    rewrite (proj1 (lstrip_collapse t)).
    exact (collapse_words t "" eq_refl). }
  split_and!.
  - exact Hwords.
  - apply PyStrFacts.strip_idem.
  - exact Hss.
  - by apply collapse_fixed.
  - intros Hlang.
    assert (substituted re_sub text language = text) as Hsame.
    { unfold substituted. by rewrite (proj2 (String.eqb_neq _ _) Hlang). }
    assert (forall x, substituted re_sub x language = x) as Hid.
    { intros x. unfold substituted.
      by rewrite (proj2 (String.eqb_neq _ _) Hlang). }
    split.
    + subst t. by rewrite Hwords, Hsame.
    + rewrite Hid. unfold collapse_spaces at 1.
      rewrite (collapse_fixed _ false Hss). apply PyStrFacts.strip_idem.
Qed.

End CorrectionsSpec.

(** ** The persona generated from a profile or from facettes *)
Module PromptSpec.
Import PyStr Json FS.

Lemma fold_keywords (fcs : list Facette.t) (acc : list string) :
  fold_left (fun kws f => kws ++ Facette.keywords f) fcs acc
  = acc ++ concat (Facette.keywords <$> fcs).
Proof.
  revert acc. induction fcs as [|f fcs IH]; intros acc; simpl.
  - by rewrite app_nil_r.
  - by rewrite IH, app_assoc.
Qed.

Lemma traits_bounds (profile : PersonProfile.t)
    (additional_instructions : string) (speaking_style : option string) :
  1 <= length (PersonaPrompt.personality_traits
                 (PromptGenerator.generate profile additional_instructions
                    speaking_style)) <= 10.
Proof.
  unfold PromptGenerator.generate. cbn [PersonaPrompt.personality_traits].
  destruct (PersonProfile.keywords profile) as [|k kws]; [simpl; lia|].
  change (slice_to 10 (k :: kws)) with (take 10 (k :: kws)).
  rewrite length_take. cbn [length]. lia.
Qed.

(** X26: a generated persona has between one and ten personality traits, at
    least one knowledge domain and always a speaking style; generated from
    facettes alone, its traits are the first ten keywords of the facettes
    taken in order, or the three default traits when no facette has a
    keyword, its only knowledge domain is the default one, and it keeps the
    name and the facettes given. *)
Theorem generated_persona_shape (sys : Sys) (profile : PersonProfile.t)
    (additional_instructions : string) (speaking_style : option string)
    (name : string) (facettes : list Facette.t) (bio : option string) :
  let persona :=
    PromptGenerator.generate profile additional_instructions speaking_style in
  let from_facettes :=
    PersonaPromptFile.generate_from_facettes sys name facettes bio in
  let kws := concat (Facette.keywords <$> facettes) in
  1 <= length (PersonaPrompt.personality_traits persona) <= 10
  /\ PersonaPrompt.knowledge_domains persona <> []
  /\ is_Some (PersonaPrompt.speaking_style persona)
  /\ PersonaPrompt.personality_traits from_facettes
     = (if bool_decide (kws = [])
        then ["authentique"; "passionne"; "expressif"]
        else take 10 kws)
  /\ PersonaPrompt.knowledge_domains from_facettes
     = ["son domaine d'expertise"]
  /\ PersonaPrompt.name from_facettes = name
  /\ PersonaPrompt.facettes from_facettes = facettes.
Proof.
  cbv zeta.
  split; [apply traits_bounds|].
  split_and!.
  - simpl. by destruct (PersonProfile.professions profile).
  - simpl. by eexists.
  - unfold PersonaPromptFile.generate_from_facettes, PromptGenerator.generate.
    cbn [PersonaPrompt.personality_traits PersonProfile.keywords
         PersonaPromptFile.facettes_profile].
    rewrite fold_keywords. cbn [app].
    destruct (concat (Facette.keywords <$> facettes)) as [|k kws];
      reflexivity.
  - reflexivity.
  - reflexivity.
  - reflexivity.
Qed.

End PromptSpec.
